(** * FedML: centralized fine-tuning of a Vision Transformer

    A shallow embedding of
    [fedml_experiments/centralized/fed_transformer/main_vit_fine_tune.py]
    and of the smoke test [test.py] next to it.

    The script is orchestration code around an external deep-learning
    framework.  Every call that leaves the script (torch, torchvision,
    numpy, wandb, logging, print) is recorded as an [event] of the run; what
    the framework computes is taken from a [Framework] record of oracles.
    The script's own control flow, its mutable objects ([args],
    [os.environ], the model's parameters) and the Python exceptions its own
    expressions can raise are modelled explicitly. *)

From Stdlib Require Import ZArith QArith List String Lia.
From stdpp Require Import base strings gmap list.
Import ListNotations.

Local Open Scope string_scope.
Local Open Scope Z_scope.
Local Open Scope list_scope.

(** ** Data *)

(** The [argparse.Namespace] returned by [parser.parse_args()], one field
    per [add_argument] call.  Python floats ([lr], [wd], losses, accuracies)
    are modelled by exact rationals. *)
Record Namespace := {
  local_rank : Z;
  global_rank : Z;
  model : string;
  dataset : string;
  data_dir : string;
  batch_size : Z;
  client_optimizer : string;
  decay_type : string;
  lr : Q;
  wd : Q;
  warmup_steps : Z;
  epochs : Z;
  img_size : Z;
  pretrained_dir : string;
  is_distributed : Z
}.

(** [args.global_rank = v] *)
Definition set_global_rank (a : Namespace) (v : Z) : Namespace :=
  {| local_rank := local_rank a; global_rank := v; model := model a;
     dataset := dataset a; data_dir := data_dir a;
     batch_size := batch_size a; client_optimizer := client_optimizer a;
     decay_type := decay_type a; lr := lr a; wd := wd a;
     warmup_steps := warmup_steps a; epochs := epochs a;
     img_size := img_size a; pretrained_dir := pretrained_dir a;
     is_distributed := is_distributed a |}.

(** [torchvision.datasets.CIFAR10] / [CIFAR100] *)
Inductive dataset_kind := CIFAR10 | CIFAR100.

(** Number of label classes of the torchvision datasets. *)
Definition num_labels (k : dataset_kind) : Z :=
  match k with CIFAR10 => 10 | CIFAR100 => 100 end.

(** A dataset object: [datasets.CIFARxx(root, train, download=True,
    transform)].  The transform is [transform_train] when [ds_train] and
    [transform_test] otherwise, both built from [args.img_size]. *)
Record Dataset := {
  ds_kind : dataset_kind;
  ds_root : string;
  ds_train : bool;
  ds_img_size : Z
}.

Inductive sampler_kind := RandomSampler | SequentialSampler | DistributedSampler.

(** [DataLoader(dataset, sampler=..., batch_size=..., num_workers=4,
    pin_memory=True)] *)
Record DataLoader := {
  dl_dataset : Dataset;
  dl_sampler : sampler_kind;
  dl_batch_size : Z
}.

Inductive optimizer_cfg :=
| SGD (lr_ momentum weight_decay : Q)
| Adam (lr_ weight_decay : Q) (amsgrad : bool).

Inductive scheduler_cfg :=
| WarmupCosineSchedule (warmup t_total : Z)
| WarmupLinearSchedule (warmup t_total : Z).

(** The value bound to the variable [model]: the [VisionTransformer]
    module or its [DistributedDataParallel] wrapper ([None] is the [None]
    of [option]). *)
Inductive module_ref := VisionTransformer | DDP.

(** Python exceptions raised by the script's own expressions. *)
Inductive exn :=
| KeyError (key : string)
| ValueError (literal : string)
| AttributeError
| ZeroDivisionError.

(** How a computation ends: with a value or with a raised exception. *)
Inductive outcome (A : Type) :=
| Ok (a : A)
| Raise (e : exn).
Arguments Ok {A} a.
Arguments Raise {A} e.

(** ** Events *)

(** What [print] and [logging.info] are given. *)
Inductive message :=
| MsgArgs (a : Namespace)
| MsgProcess
| MsgRank (r : Z)
| MsgWorldSize (n : Z)
| MsgLocalRank (r : Z)
| MsgCreateModel (model_name : string) (output_dim : Z)
| MsgConfig
| MsgModelSize (num_params : Z)
| MsgTrainingStats (acc loss : Q)
| MsgTestStats (acc loss : Q)
| MsgModel.

Inductive fn := FnTrain (epoch : Z) | FnEval (epoch : Z).

Inductive event :=
| ParseArgs
| Print (m : message)
| LoggingBasicConfig
| LoggingInfo (m : message)
| Seed (generator : string) (value : Z)
| EnvironSet (key value : string)
| InitProcessGroup (backend : string) (rank world_size : Z)
| DestroyProcessGroup
| Barrier
| TorchDevice (local_rank_ : Z)
| WandbInit (project : string) (name_epochs : Z) (name_lr : Q) (config : Namespace)
| WandbLog (key : string) (value : Q) (round : Z)
| NewDataset (d : Dataset)
| NewSampler (k : sampler_kind) (d : Dataset)
| NewDataLoader (l : DataLoader)
| NewVisionTransformer (model_type : string) (img_size_ num_classes : Z)
| NpLoad (path : string)
| LoadFrom
| CountParameters
| ModelTo (local_rank_ : Z)
| WrapDDP (local_rank_ : Z)
| NewCriterion
| NewOptimizer (c : optimizer_cfg)
| NewScheduler (c : scheduler_cfg)
| ModelTrain
| ModelEval
| Iterate (l : DataLoader)
| ZeroGrad
| Forward (batch_idx : nat)
| Backward
| ClipGradNorm
| OptimizerStep
| SchedulerStep
| Call (f : fn)
| Return (f : fn).

(** ** The external framework *)

(** What the libraries compute.  A batch is the list of its
    [(x, target)] rows, so [target.size(0)] is its length. *)
Record Framework := {
  tensor : Type;
  weights : Type;
  trainer : Type;
  npz : Type;
  (** the builtin [int(str)]; [None] stands for [ValueError] *)
  py_int : string -> option Z;
  (** [VisionTransformer(config, img_size, zero_head=True, num_classes)] *)
  vit_init : Z -> Z -> weights;
  np_load : string -> npz;
  load_from : weights -> npz -> weights;
  count_parameters : weights -> Z;
  (** optimizer and learning-rate schedule over the model's parameters *)
  new_trainer : optimizer_cfg -> scheduler_cfg -> weights -> trainer;
  (** [zero_grad], forward, [backward], gradient clipping,
      [optimizer.step()], [scheduler.step()] on one batch *)
  train_step : trainer -> weights -> list (tensor * Z) -> trainer * weights;
  (** [torch.max(model(x), -1)] at one row *)
  predict : weights -> tensor -> Z;
  (** [criterion(model(x), target).item()]: the batch-mean loss *)
  criterion : weights -> list (tensor * Z) -> Q;
  (** the batches a loader yields on its [k]-th iteration *)
  batches : DataLoader -> nat -> list (list (tensor * Z))
}.

Section Script.

Context (fw : Framework).

Abbreviation batch := (list (tensor fw * Z)).

(** ** State and the run monad *)

Record state := {
  st_args : Namespace;                 (* the object bound to [args] *)
  st_environ : gmap string string;     (* [os.environ] *)
  st_model : option (weights fw);      (* parameters of the model object *)
  st_passes : nat                      (* loader iterations started so far *)
}.

Record run (A : Type) := Run {
  trace : list event;
  result : outcome A;
  final : state
}.
Arguments Run {A} _ _ _.
Arguments trace {A} _.
Arguments result {A} _.
Arguments final {A} _.

(** In-place updates of the objects of the state. *)
Definition with_args (s : state) (a : Namespace) : state :=
  {| st_args := a; st_environ := st_environ s;
     st_model := st_model s; st_passes := st_passes s |}.

Definition with_environ (s : state) (e : gmap string string) : state :=
  {| st_args := st_args s; st_environ := e;
     st_model := st_model s; st_passes := st_passes s |}.

Definition with_model (s : state) (w : weights fw) : state :=
  {| st_args := st_args s; st_environ := st_environ s;
     st_model := Some w; st_passes := st_passes s |}.

Definition next_pass (s : state) : state :=
  {| st_args := st_args s; st_environ := st_environ s;
     st_model := st_model s; st_passes := S (st_passes s) |}.

Definition M (A : Type) : Type := state -> run A.

Definition ret {A} (a : A) : M A := fun s => Run [] (Ok a) s.

Definition bind {A B} (m : M A) (f : A -> M B) : M B := fun s =>
  let r := m s in
  match result r with
  | Ok a => let r' := f a (final r) in
            Run (trace r ++ trace r') (result r') (final r')
  | Raise e => Run (trace r) (Raise e) (final r)
  end.

Definition raise {A} (e : exn) : M A := fun s => Run [] (Raise e) s.
Definition emit (e : event) : M unit := fun s => Run [e] (Ok tt) s.
Definition get_args : M Namespace := fun s => Run [] (Ok (st_args s)) s.
Definition when (b : bool) (m : M unit) : M unit := if b then m else ret tt.

Notation "x <- m ;; k" := (bind m (fun x => k))
  (at level 100, m at next level, right associativity).
Notation "'let*' p := m 'in' k" := (bind m (fun x => match x with p => k end))
  (at level 10, p pattern, m at level 100, k at level 200).
Notation "m ;; k" := (bind m (fun _ => k))
  (at level 100, right associativity).

(** [args.global_rank = v] on the shared [args] object *)
Definition assign_global_rank (v : Z) : M unit := fun s =>
  Run [] (Ok tt) (with_args s (set_global_rank (st_args s) v)).

(** [os.environ[k] = v] *)
Definition environ_set (k v : string) : M unit := fun s =>
  Run [EnvironSet k v] (Ok tt) (with_environ s (<[k := v]> (st_environ s))).

(** [os.environ[k]]: [KeyError] when the variable is not set *)
Definition environ_get (k : string) : M string := fun s =>
  match st_environ s !! k with
  | Some v => Run [] (Ok v) s
  | None => Run [] (Raise (KeyError k)) s
  end.

(** [int(v)] *)
Definition int_of (v : string) : M Z :=
  match py_int fw v with
  | Some n => ret n
  | None => raise (ValueError v)
  end.

(** An attribute access or call on the object bound to [model];
    [AttributeError] when no model object exists. *)
Definition get_model : M (weights fw) := fun s =>
  match st_model s with
  | Some w => Run [] (Ok w) s
  | None => Run [] (Raise AttributeError) s
  end.

Definition set_model (w : weights fw) : M unit := fun s =>
  Run [] (Ok tt) (with_model s w).

(** A method call [model.f(...)], recorded as [e], on the current
    parameters. *)
Definition model_method (e : event) : M (weights fw) :=
  w <- get_model ;;
  emit e ;;
  ret w.

(** [enumerate(loader)]: a new iteration over the loader *)
Definition iterate (l : DataLoader) : M (list batch) := fun s =>
  Run [Iterate l] (Ok (batches fw l (st_passes s))) (next_pass s).

(** Float division [x / y]: [ZeroDivisionError] when [y] is zero *)
Definition py_div (x y : Q) : M Q :=
  if Qeq_bool y 0 then raise ZeroDivisionError else ret (x / y)%Q.

Definition enumerate {A} (l : list A) : list (nat * A) :=
  combine (seq 0 (length l)) l.

(** [range(n)] *)
Definition range (n : Z) : list Z := map Z.of_nat (seq 0 (Z.to_nat n)).

(** A [for] loop whose body updates the local variables [acc]. *)
Fixpoint for_fold {A S} (body : S -> A -> M S) (l : list A) (acc : S) : M S :=
  match l with
  | [] => ret acc
  | x :: l' => acc' <- body acc x ;; for_fold body l' acc'
  end.

(** ** The script *)

Definition init_ddp : M (Z * Z) :=
  environ_set "NCCL_DEBUG" "INFO" ;;
  environ_set "NCCL_SOCKET_IFNAME" "ib0" ;;
  rank_str <- environ_get "RANK" ;;
  global_rank <- int_of rank_str ;;
  emit (Print (MsgRank global_rank)) ;;
  world_size_str <- environ_get "WORLD_SIZE" ;;
  world_size <- int_of world_size_str ;;
  emit (Print (MsgWorldSize world_size)) ;;
  emit (InitProcessGroup "nccl" global_rank world_size) ;;
  args <- get_args ;;
  let local_rank := local_rank args in
  emit (Print (MsgLocalRank local_rank)) ;;
  ret (local_rank, global_rank).

Definition get_ddp_model (m : module_ref) (local_rank : Z) : M module_ref :=
  emit (WrapDDP local_rank) ;;
  ret DDP.

Definition create_model (model_name : string) (output_dim : Z)
  : M (option module_ref) :=
  emit (LoggingInfo (MsgCreateModel model_name output_dim)) ;;
  if String.eqb model_name "transformer" then
    let model_type := "vit-B_16" in
    emit (LoggingInfo MsgConfig) ;;
    let num_classes := output_dim in
    args <- get_args ;;
    emit (NewVisionTransformer model_type (img_size args) num_classes) ;;
    set_model (vit_init fw (img_size args) num_classes) ;;
    emit (NpLoad (pretrained_dir args)) ;;
    w <- model_method LoadFrom ;;
    set_model (load_from fw w (np_load fw (pretrained_dir args))) ;;
    w <- get_model ;;
    emit CountParameters ;;
    let num_params := count_parameters fw w in
    emit (LoggingInfo (MsgModelSize num_params)) ;;
    ret (Some VisionTransformer)
  else
    ret None.

(** [model.to(device)] on the value [create_model] returned *)
Definition to_device (m : option module_ref) (local_rank : Z) : M module_ref :=
  match m with
  | Some r => emit (ModelTo local_rank) ;; ret r
  | None => raise AttributeError
  end.

(** [predicted.eq(target).sum().item()] *)
Definition hit (w : weights fw) (row : tensor fw * Z) : bool :=
  predict fw w (fst row) =? snd row.

Definition correct_item (w : weights fw) (b : batch) : Z :=
  Z.of_nat (length (List.filter (hit w) b)).

(** [target.size(0)] *)
Definition size0 (b : batch) : Z := Z.of_nat (length b).

Definition _infer (test_data : DataLoader) : M (Q * Q * Q) :=
  model_method ModelEval ;;
  emit NewCriterion ;;
  bs <- iterate test_data ;;
  for_fold
    (fun '(test_acc, test_total, test_loss) '(batch_idx, b) =>
       w <- model_method (Forward batch_idx) ;;
       let loss := criterion fw w b in
       let correct := correct_item w b in
       ret ((test_acc + inject_Z correct)%Q,
            (test_total + inject_Z (size0 b))%Q,
            (test_loss + loss * inject_Z (size0 b))%Q))
    (enumerate bs) (0%Q, 0%Q, 0%Q).

Definition eval (epoch : Z) (train_dl test_dl : DataLoader) : M unit :=
  emit (Call (FnEval epoch)) ;;
  let* (train_tot_correct, train_num_sample, train_loss) := _infer train_dl in
  let* (test_tot_correct, test_num_sample, test_loss) := _infer test_dl in
  train_acc <- py_div train_tot_correct train_num_sample ;;
  train_loss <- py_div train_loss train_num_sample ;;
  test_acc <- py_div test_tot_correct test_num_sample ;;
  test_loss <- py_div test_loss test_num_sample ;;
  args <- get_args ;;
  when (global_rank args =? 0)
    (emit (WandbLog "Train/Acc" train_acc epoch) ;;
     emit (WandbLog "Train/Loss" train_loss epoch) ;;
     emit (LoggingInfo (MsgTrainingStats train_acc train_loss)) ;;
     emit (WandbLog "Test/Acc" test_acc epoch) ;;
     emit (WandbLog "Test/Loss" test_loss epoch) ;;
     emit (LoggingInfo (MsgTestStats test_acc test_loss))) ;;
  emit (Return (FnEval epoch)).

(** The optimizer and the scheduler are one [trainer] value, handed back
    after the in-place updates of the loop.  [epoch_loss], [criterion] and
    [device] are passed through unchanged and [batch_loss] is never read;
    the clock read at the top of the loop body has no effect. *)
Definition train (epoch : Z) (train_dl : DataLoader) (optimizer : trainer fw)
  : M (trainer fw) :=
  emit (Call (FnTrain epoch)) ;;
  model_method ModelTrain ;;
  bs <- iterate train_dl ;;
  optimizer <-
    for_fold
      (fun optimizer '(batch_idx, b) =>
         emit ZeroGrad ;;
         w <- model_method (Forward batch_idx) ;;
         emit Backward ;;
         emit ClipGradNorm ;;
         let '(optimizer', w') := train_step fw optimizer w b in
         emit OptimizerStep ;;
         set_model w' ;;
         emit SchedulerStep ;;
         ret optimizer')
      (enumerate bs) optimizer ;;
  emit (Return (FnTrain epoch)) ;;
  ret optimizer.

Definition train_and_eval (m : module_ref) (train_dl test_dl : DataLoader)
  : M unit :=
  args <- get_args ;;
  emit NewCriterion ;;
  w <- get_model ;;
  let optimizer :=
    if String.eqb (client_optimizer args) "sgd"
    then SGD (lr args) (9 # 10) (wd args)
    else Adam (lr args) (wd args) true in
  emit (NewOptimizer optimizer) ;;
  let scheduler :=
    if String.eqb (decay_type args) "cosine"
    then WarmupCosineSchedule (warmup_steps args) (epochs args)
    else WarmupLinearSchedule (warmup_steps args) (epochs args) in
  emit (NewScheduler scheduler) ;;
  for_fold
    (fun tr epoch =>
       tr' <- train epoch train_dl tr ;;
       eval epoch train_dl test_dl ;;
       ret tr')
    (range (epochs args)) (new_trainer fw optimizer scheduler w) ;;
  ret tt.

Definition load_cifar_centralized_training_for_vit
  : M (DataLoader * DataLoader) :=
  args <- get_args ;;
  when (is_distributed args =? 1) (emit Barrier) ;;
  let kind := if String.eqb (dataset args) "cifar10" then CIFAR10 else CIFAR100 in
  let trainset := {| ds_kind := kind; ds_root := data_dir args;
                     ds_train := true; ds_img_size := img_size args |} in
  emit (NewDataset trainset) ;;
  let testset := {| ds_kind := kind; ds_root := data_dir args;
                    ds_train := false; ds_img_size := img_size args |} in
  emit (NewDataset testset) ;;
  when (is_distributed args =? 1) (emit Barrier) ;;
  let train_sampler :=
    if is_distributed args =? 0 then RandomSampler else DistributedSampler in
  emit (NewSampler train_sampler trainset) ;;
  let test_sampler := SequentialSampler in
  emit (NewSampler test_sampler testset) ;;
  let train_loader := {| dl_dataset := trainset; dl_sampler := train_sampler;
                         dl_batch_size := batch_size args |} in
  emit (NewDataLoader train_loader) ;;
  let test_loader := {| dl_dataset := testset; dl_sampler := test_sampler;
                        dl_batch_size := batch_size args |} in
  emit (NewDataLoader test_loader) ;;
  ret (train_loader, test_loader).

(** The [__main__] block.  The run starts in a state whose [st_args] is
    what [parser.parse_args()] returns. *)
Definition main : M unit :=
  emit ParseArgs ;;
  args <- get_args ;;
  emit (Print (MsgArgs args)) ;;
  emit LoggingBasicConfig ;;
  emit (LoggingInfo MsgProcess) ;;
  emit (Seed "random" 0) ;;
  emit (Seed "np.random" 0) ;;
  emit (Seed "torch" 0) ;;
  emit (Seed "torch.cuda" 0) ;;
  let* (local_rank, global_rank) :=
    (if is_distributed args =? 1 then
       let* (local_rank, global_rank) := init_ddp in
       assign_global_rank global_rank ;;
       ret (local_rank, global_rank)
     else
       ret (local_rank args, 0)) in
  emit (TorchDevice local_rank) ;;
  when (global_rank =? 0)
    (args <- get_args ;;
     emit (WandbInit "fed_transformer" (epochs args) (lr args) args)) ;;
  args <- get_args ;;
  let* (train_dl, test_dl, class_num) :=
    (if String.eqb (dataset args) "cifar10" then
       let* (train_dl, test_dl) := load_cifar_centralized_training_for_vit in
       ret (train_dl, test_dl, 10)
     else if String.eqb (dataset args) "cifar100" then
       let* (train_dl, test_dl) := load_cifar_centralized_training_for_vit in
       ret (train_dl, test_dl, 100)
     else
       let* (train_dl, test_dl) := load_cifar_centralized_training_for_vit in
       ret (train_dl, test_dl, 10)) in
  created <- create_model (model args) class_num ;;
  m <- to_device created local_rank ;;
  m <- (if is_distributed args =? 1 then get_ddp_model m local_rank else ret m) ;;
  train_and_eval m train_dl test_dl ;;
  when (is_distributed args =? 1) (emit DestroyProcessGroup).

(** [test.py], the smoke test (module body). *)
Definition test_py : M unit :=
  let pretrained_dir :=
    "./../../../fedml_api/model/cv/pretrained/Transformer/vit/ViT-B_16.npz" in
  let img_size := 224 in
  let model_type := "vit-B_16" in
  emit (LoggingInfo MsgConfig) ;;
  let num_classes := 10 in
  emit (NewVisionTransformer model_type img_size num_classes) ;;
  set_model (vit_init fw img_size num_classes) ;;
  emit (NpLoad pretrained_dir) ;;
  w <- model_method LoadFrom ;;
  set_model (load_from fw w (np_load fw pretrained_dir)) ;;
  w <- get_model ;;
  emit CountParameters ;;
  let num_params := count_parameters fw w in
  emit (LoggingInfo (MsgModelSize num_params)) ;;
  emit (Print MsgModel).

(** The state in which a process starts the script. *)
Definition start (args : Namespace) (environ : gmap string string) : state :=
  {| st_args := args; st_environ := environ; st_model := None; st_passes := 0 |}.

End Script.

Arguments st_args {fw} _.
Arguments st_environ {fw} _.
Arguments st_model {fw} _.
Arguments st_passes {fw} _.
Arguments with_args {fw} _ _.
Arguments with_environ {fw} _ _.
Arguments with_model {fw} _ _.
Arguments next_pass {fw} _.
Arguments Run {fw A} _ _ _.
Arguments trace {fw A} _.
Arguments result {fw A} _.
Arguments final {fw A} _.
Arguments ret {fw A} _ _.
Arguments bind {fw A B} _ _ _.
Arguments raise {fw A} _ _.
Arguments for_fold {fw A S} _ _ _ _.

(** ** Observations on a run *)

(** *** Stages *)

Inductive stage :=
| StParse
| StInitProcessGroup
| StData
| StModel
| StWrap
| StEpochLoop
| StTeardown.

#[global] Instance stage_eq_dec : EqDecision stage.
Proof. solve_decision. Defined.

(** The stage an external call belongs to.  Console and log output, the
    seeding of the random generators, the device handle, the tracker's
    initialisation and the barriers mark no stage. *)
Definition stage_of (e : event) : option stage :=
  match e with
  | ParseArgs => Some StParse
  | EnvironSet _ _ | InitProcessGroup _ _ _ => Some StInitProcessGroup
  | NewDataset _ | NewSampler _ _ | NewDataLoader _ => Some StData
  | NewVisionTransformer _ _ _ | NpLoad _ | LoadFrom | CountParameters
  | ModelTo _ => Some StModel
  | WrapDDP _ => Some StWrap
  | NewCriterion | NewOptimizer _ | NewScheduler _ | ModelTrain | ModelEval
  | Iterate _ | ZeroGrad | Forward _ | Backward | ClipGradNorm
  | OptimizerStep | SchedulerStep | Call _ | Return _
  | WandbLog _ _ _ => Some StEpochLoop
  | DestroyProcessGroup => Some StTeardown
  | Print _ | LoggingBasicConfig | LoggingInfo _ | Seed _ _ | Barrier
  | TorchDevice _ | WandbInit _ _ _ _ => None
  end.

(** *** Distributed execution *)

(** Calls that exist for distributed execution: writes to [os.environ],
    [torch.distributed], the distributed sampler and the data-parallel
    wrapper. *)
Definition dist_call (e : event) : bool :=
  match e with
  | EnvironSet _ _ | InitProcessGroup _ _ _ | DestroyProcessGroup | Barrier
  | NewSampler DistributedSampler _ | WrapDDP _ => true
  | _ => false
  end.

(** The environment settings and the initialisation and teardown entry
    points. *)
Definition init_or_teardown (rank world_size : Z) (e : event) : bool :=
  match e with
  | EnvironSet k v =>
      (String.eqb k "NCCL_DEBUG" && String.eqb v "INFO") ||
      (String.eqb k "NCCL_SOCKET_IFNAME" && String.eqb v "ib0")
  | InitProcessGroup b r n => String.eqb b "nccl" && (r =? rank) && (n =? world_size)
  | DestroyProcessGroup => true
  | _ => false
  end.

(** [int(os.environ['RANK'])] and [int(os.environ['WORLD_SIZE'])], when
    both are set and numeric. *)
Definition ddp_env (fw : Framework) (environ : gmap string string)
  : option (Z * Z) :=
  match environ !! "RANK" with
  | Some r =>
      match py_int fw r with
      | Some rank =>
          match environ !! "WORLD_SIZE" with
          | Some n =>
              match py_int fw n with
              | Some world_size => Some (rank, world_size)
              | None => None
              end
          | None => None
          end
      | None => None
      end
  | None => None
  end.

(** The training set the loader builds from [args]. *)
Definition trainset_of (args : Namespace) : Dataset :=
  {| ds_kind := if String.eqb (dataset args) "cifar10" then CIFAR10 else CIFAR100;
     ds_root := data_dir args; ds_train := true; ds_img_size := img_size args |}.

Definition testset_of (args : Namespace) : Dataset :=
  {| ds_kind := if String.eqb (dataset args) "cifar10" then CIFAR10 else CIFAR100;
     ds_root := data_dir args; ds_train := false; ds_img_size := img_size args |}.

(** The loaders [load_cifar_centralized_training_for_vit] returns. *)
Definition train_loader_of (args : Namespace) : DataLoader :=
  {| dl_dataset := trainset_of args;
     dl_sampler := if is_distributed args =? 0 then RandomSampler
                   else DistributedSampler;
     dl_batch_size := batch_size args |}.

Definition test_loader_of (args : Namespace) : DataLoader :=
  {| dl_dataset := testset_of args;
     dl_sampler := SequentialSampler;
     dl_batch_size := batch_size args |}.

(** *** Model weights *)

(** Calls that create, load or update the model's parameters. *)
Definition weight_event (e : event) : bool :=
  match e with
  | NewVisionTransformer _ _ _ | NpLoad _ | LoadFrom | OptimizerStep => true
  | _ => false
  end.

(** The weight calls of a complete run with [k] optimizer steps. *)
Definition weight_calls (args : Namespace) (num_classes : Z) (k : nat)
  : list event :=
  [NewVisionTransformer "vit-B_16" (img_size args) num_classes;
   NpLoad (pretrained_dir args); LoadFrom] ++ repeat OptimizerStep k.

(** [class_num] in the [__main__] block *)
Definition class_num_of (args : Namespace) : Z :=
  if String.eqb (dataset args) "cifar10" then 10
  else if String.eqb (dataset args) "cifar100" then 100
  else 10.

(** Calls that construct a dataset or the model. *)
Definition construction_event (e : event) : bool :=
  match e with
  | NewDataset _ | NewVisionTransformer _ _ _ => true
  | _ => false
  end.

(** The constructions of a complete run, in order. *)
Definition constructions (args : Namespace) : list event :=
  [NewDataset (trainset_of args); NewDataset (testset_of args);
   NewVisionTransformer "vit-B_16" (img_size args) (class_num_of args)].

(** The parameters after [load_from] on the new model. *)
Definition loaded_weights (fw : Framework) (args : Namespace) : weights fw :=
  load_from fw (vit_init fw (img_size args) (class_num_of args))
    (np_load fw (pretrained_dir args)).

(** *** Experiment tracker *)

Definition wandb_init_call (e : event) : bool :=
  match e with WandbInit _ _ _ _ => true | _ => false end.

Definition wandb_log_call (e : event) : bool :=
  match e with WandbLog _ _ _ => true | _ => false end.

(** The four metrics of epoch [e] are logged to the tracker. *)
Definition logs_metrics (t : list event) (e : Z) : Prop :=
  exists train_acc train_loss test_acc test_loss,
    In (WandbLog "Train/Acc" train_acc e) t /\
    In (WandbLog "Train/Loss" train_loss e) t /\
    In (WandbLog "Test/Acc" test_acc e) t /\
    In (WandbLog "Test/Loss" test_loss e) t.

(** The tracker's part of what [eval] reports for one epoch. *)
Definition tracker_logs (epoch : Z) (m : Q * Q * Q * Q) : list event :=
  let '(train_acc, train_loss, test_acc, test_loss) := m in
  [WandbLog "Train/Acc" train_acc epoch;
   WandbLog "Train/Loss" train_loss epoch;
   WandbLog "Test/Acc" test_acc epoch;
   WandbLog "Test/Loss" test_loss epoch].

(** What [eval] reports when the process has global rank 0. *)
Definition metric_logs (epoch : Z) (m : Q * Q * Q * Q) : list event :=
  let '(train_acc, train_loss, test_acc, test_loss) := m in
  [WandbLog "Train/Acc" train_acc epoch;
   WandbLog "Train/Loss" train_loss epoch;
   LoggingInfo (MsgTrainingStats train_acc train_loss);
   WandbLog "Test/Acc" test_acc epoch;
   WandbLog "Test/Loss" test_loss epoch;
   LoggingInfo (MsgTestStats test_acc test_loss)].

(** *** Shape of a run of the main script *)

(** Up to the DDP block. *)
Definition preamble_trace (args : Namespace) : list event :=
  [ParseArgs; Print (MsgArgs args); LoggingBasicConfig; LoggingInfo MsgProcess;
   Seed "random" 0; Seed "np.random" 0; Seed "torch" 0; Seed "torch.cuda" 0].

(** A call of [init_ddp] that returns. *)
Definition init_ddp_trace (args : Namespace) (rank world_size : Z)
  : list event :=
  [EnvironSet "NCCL_DEBUG" "INFO"; EnvironSet "NCCL_SOCKET_IFNAME" "ib0";
   Print (MsgRank rank); Print (MsgWorldSize world_size);
   InitProcessGroup "nccl" rank world_size;
   Print (MsgLocalRank (local_rank args))].

(** A call of [load_cifar_centralized_training_for_vit]. *)
Definition data_trace (args : Namespace) : list event :=
  (if is_distributed args =? 1 then [Barrier] else []) ++
  [NewDataset (trainset_of args); NewDataset (testset_of args)] ++
  (if is_distributed args =? 1 then [Barrier] else []) ++
  [NewSampler (dl_sampler (train_loader_of args)) (trainset_of args);
   NewSampler SequentialSampler (testset_of args);
   NewDataLoader (train_loader_of args);
   NewDataLoader (test_loader_of args)].

(** [create_model(...).to(device)] for the model name ["transformer"]. *)
Definition model_trace (fw : Framework) (args : Namespace) : list event :=
  [LoggingInfo (MsgCreateModel (model args) (class_num_of args));
   LoggingInfo MsgConfig;
   NewVisionTransformer "vit-B_16" (img_size args) (class_num_of args);
   NpLoad (pretrained_dir args);
   LoadFrom;
   CountParameters;
   LoggingInfo (MsgModelSize (count_parameters fw (loaded_weights fw args)));
   ModelTo (local_rank args)].

(** The local variable [global_rank] and the [args] object after the DDP
    block; [None] when [init_ddp] raises. *)
Definition resolve (fw : Framework) (args : Namespace)
    (environ : gmap string string) : option (Z * Namespace) :=
  if is_distributed args =? 1 then
    match ddp_env fw environ with
    | Some (rank, _) => Some (rank, set_global_rank args rank)
    | None => None
    end
  else Some (0, args).

(** [os.environ] after [init_ddp] has set the NCCL variables. *)
Definition nccl_environ (environ : gmap string string) : gmap string string :=
  <["NCCL_SOCKET_IFNAME" := "ib0"]> (<["NCCL_DEBUG" := "INFO"]> environ).

(** [os.environ] after the DDP block. *)
Definition environ_in_use (args : Namespace) (environ : gmap string string)
  : gmap string string :=
  if is_distributed args =? 1 then nccl_environ environ else environ.

Definition ddp_block_trace (fw : Framework) (args : Namespace)
    (environ : gmap string string) : list event :=
  if is_distributed args =? 1 then
    match ddp_env fw environ with
    | Some (rank, world_size) => init_ddp_trace args rank world_size
    | None => []
    end
  else [].

(** [wandb.init(...)] under [if global_rank == 0]. *)
Definition tracker_init_trace (global_rank : Z) (args : Namespace)
  : list event :=
  if global_rank =? 0
  then [WandbInit "fed_transformer" (epochs args) (lr args) args]
  else [].

(** Everything before the model is created. *)
Definition data_stage_trace (fw : Framework) (args : Namespace)
    (environ : gmap string string) (global_rank : Z) (args' : Namespace)
  : list event :=
  preamble_trace args ++ ddp_block_trace fw args environ ++
  [TorchDevice (local_rank args)] ++ tracker_init_trace global_rank args' ++
  data_trace args'.

(** Everything before [train_and_eval]. *)
Definition setup_trace (fw : Framework) (args : Namespace)
    (environ : gmap string string) (global_rank : Z) (args' : Namespace)
  : list event :=
  data_stage_trace fw args environ global_rank args' ++
  model_trace fw args' ++
  (if is_distributed args =? 1 then [WrapDDP (local_rank args)] else []).

(** The state in which [train_and_eval] is called. *)
Definition loop_state (fw : Framework) (args : Namespace)
    (environ : gmap string string) (args' : Namespace) : state fw :=
  {| st_args := args';
     st_environ := environ_in_use args environ;
     st_model := Some (loaded_weights fw args');
     st_passes := 0 |}.

(** The value bound to [model] when [train_and_eval] is called. *)
Definition model_in_use (args : Namespace) : module_ref :=
  if is_distributed args =? 1 then DDP else VisionTransformer.

(** After [train_and_eval]. *)
Definition teardown_trace (args : Namespace) : list event :=
  if is_distributed args =? 1 then [DestroyProcessGroup] else [].

(** The optimizer and the schedule [train_and_eval] builds. *)
Definition optimizer_of (args : Namespace) : optimizer_cfg :=
  if String.eqb (client_optimizer args) "sgd"
  then SGD (lr args) (9 # 10) (wd args)
  else Adam (lr args) (wd args) true.

Definition scheduler_of (args : Namespace) : scheduler_cfg :=
  if String.eqb (decay_type args) "cosine"
  then WarmupCosineSchedule (warmup_steps args) (epochs args)
  else WarmupLinearSchedule (warmup_steps args) (epochs args).

(** The external calls [train_and_eval] can make. *)
Definition loop_event (e : event) : bool :=
  match e with
  | NewCriterion | NewOptimizer _ | NewScheduler _ | ModelTrain | ModelEval
  | Iterate _ | ZeroGrad | Forward _ | Backward | ClipGradNorm
  | OptimizerStep | SchedulerStep | Call _ | Return _ | WandbLog _ _ _
  | LoggingInfo (MsgTrainingStats _ _) | LoggingInfo (MsgTestStats _ _) => true
  | _ => false
  end.

(** *** Shape of the epoch loop *)

(** One optimisation step on batch [i]. *)
Definition step_trace (i : nat) : list event :=
  [ZeroGrad; Forward i; Backward; ClipGradNorm; OptimizerStep; SchedulerStep].

(** One call [train(epoch, ...)] over [n] batches of [train_dl]. *)
Definition train_trace (epoch : Z) (train_dl : DataLoader) (n : nat)
  : list event :=
  [Call (FnTrain epoch); ModelTrain; Iterate train_dl] ++
  flat_map step_trace (seq 0 n) ++ [Return (FnTrain epoch)].

(** One call [_infer(data, device)] over [n] batches. *)
Definition infer_trace (data : DataLoader) (n : nat) : list event :=
  [ModelEval; NewCriterion; Iterate data] ++ map Forward (seq 0 n).

(** One call [eval(epoch, train_dl, test_dl, device)] that reports [logs]. *)
Definition eval_trace (epoch : Z) (train_dl test_dl : DataLoader)
    (n_train n_test : nat) (logs : list event) : list event :=
  [Call (FnEval epoch)] ++ infer_trace train_dl n_train ++
  infer_trace test_dl n_test ++ logs ++ [Return (FnEval epoch)].

(** The trace of the loop over the epochs [es]: for each epoch one
    [train] call, then one [eval] call; [rank0] tells whether [eval]
    reports. *)
Inductive epoch_loop (train_dl test_dl : DataLoader) (rank0 : bool)
  : list Z -> list event -> Prop :=
| loop_done : epoch_loop train_dl test_dl rank0 [] []
| loop_epoch epoch es n n_train n_test m rest :
    epoch_loop train_dl test_dl rank0 es rest ->
    epoch_loop train_dl test_dl rank0 (epoch :: es)
      (train_trace epoch train_dl n ++
       eval_trace epoch train_dl test_dl n_train n_test
         (if rank0 then metric_logs epoch m else []) ++
       rest).

(** *** What an evaluation pass counts *)

(** The rows of a pass, batch after batch. *)
Definition rows {A} (bs : list (list A)) : list A := concat bs.

(** Samples whose [argmax] prediction equals the label. *)
Definition n_correct (fw : Framework) (w : weights fw)
    (bs : list (list (tensor fw * Z))) : Z :=
  Z.of_nat (length (List.filter (hit fw w) (rows bs))).

(** Samples seen. *)
Definition n_seen {A} (bs : list (list A)) : Z := Z.of_nat (length (rows bs)).

(** Sum over the batches of the batch-mean loss times the batch size. *)
Fixpoint weighted_loss (fw : Framework) (w : weights fw)
    (bs : list (list (tensor fw * Z))) : Q :=
  match bs with
  | [] => 0%Q
  | b :: bs' =>
      (criterion fw w b * inject_Z (Z.of_nat (length b)) + weighted_loss fw w bs')%Q
  end.

(** *** The arithmetic of the loops, without the effects *)

(** One batch of an evaluation pass: the update of
    [(test_acc, test_total, test_loss)]. *)
Definition infer_step (fw : Framework) (w : weights fw) (acc : Q * Q * Q)
    (b : list (tensor fw * Z)) : Q * Q * Q :=
  let '(test_acc, test_total, test_loss) := acc in
  ((test_acc + inject_Z (correct_item fw w b))%Q,
   (test_total + inject_Z (size0 fw b))%Q,
   (test_loss + criterion fw w b * inject_Z (size0 fw b))%Q).

(** What [_infer] returns on the batches [bs]. *)
Definition infer_sums (fw : Framework) (w : weights fw)
    (bs : list (list (tensor fw * Z))) : Q * Q * Q :=
  fold_left (infer_step fw w) bs (0%Q, 0%Q, 0%Q).

(** The optimizer state and the weights after training on [bs]. *)
Definition train_pass (fw : Framework) (tr : trainer fw) (w : weights fw)
    (bs : list (list (tensor fw * Z))) : trainer fw * weights fw :=
  fold_left (fun '(tr, w) b => train_step fw tr w b) bs (tr, w).

(** The quotients [eval] computes from two evaluation passes. *)
Definition eval_metrics (fw : Framework) (w : weights fw)
    (train_bs test_bs : list (list (tensor fw * Z))) : Q * Q * Q * Q :=
  let '(train_tot_correct, train_num_sample, train_loss) := infer_sums fw w train_bs in
  let '(test_tot_correct, test_num_sample, test_loss) := infer_sums fw w test_bs in
  ((train_tot_correct / train_num_sample)%Q,
   (train_loss / train_num_sample)%Q,
   (test_tot_correct / test_num_sample)%Q,
   (test_loss / test_num_sample)%Q).

(** Every iteration of the loader yields at least one sample. *)
Definition feeds (fw : Framework) (l : DataLoader) : Prop :=
  forall k, 0 < n_seen (batches fw l k).

(** ** Further observations *)

Definition init_call (e : event) : bool :=
  match e with InitProcessGroup _ _ _ => true | _ => false end.

Definition teardown_call (e : event) : bool :=
  match e with DestroyProcessGroup => true | _ => false end.

Definition iterate_call (e : event) : bool :=
  match e with Iterate _ => true | _ => false end.

Definition scheduler_step (e : event) : bool :=
  match e with SchedulerStep => true | _ => false end.

(** [t_total] of a learning-rate schedule *)
Definition t_total_of (c : scheduler_cfg) : Z :=
  match c with
  | WarmupCosineSchedule _ t | WarmupLinearSchedule _ t => t
  end.

(** *** The epoch loop, without the effects *)

(** The optimizer state and the weights after [n] epochs, the training
    pass of the first epoch being the loader's [p]-th iteration: every
    epoch iterates the loaders three times. *)
Fixpoint train_epochs (fw : Framework) (train_dl : DataLoader)
    (tr : trainer fw) (w : weights fw) (p n : nat) : trainer fw * weights fw :=
  match n with
  | O => (tr, w)
  | S n' =>
      let '(tr', w') := train_pass fw tr w (batches fw train_dl p) in
      train_epochs fw train_dl tr' w' (3 + p) n'
  end.

(** The number of training batches of [n] epochs. *)
Fixpoint total_batches (fw : Framework) (train_dl : DataLoader) (p n : nat)
  : nat :=
  match n with
  | O => 0
  | S n' =>
      (length (batches fw train_dl p) + total_batches fw train_dl (3 + p) n')%nat
  end.

(** The calls of the loop over the epochs [es]: for each epoch one [train]
    call, then one [eval] call, which reports when [rank0] holds. *)
Fixpoint epochs_trace (fw : Framework) (train_dl test_dl : DataLoader)
    (rank0 : bool) (tr : trainer fw) (w : weights fw) (p : nat) (es : list Z)
  : list event :=
  match es with
  | [] => []
  | e :: es' =>
      let '(tr', w') := train_pass fw tr w (batches fw train_dl p) in
      let train_bs := batches fw train_dl (1 + p) in
      let test_bs := batches fw test_dl (2 + p) in
      train_trace e train_dl (length (batches fw train_dl p)) ++
      eval_trace e train_dl test_dl (length train_bs) (length test_bs)
        (if rank0 then metric_logs e (eval_metrics fw w' train_bs test_bs)
         else []) ++
      epochs_trace fw train_dl test_dl rank0 tr' w' (3 + p) es'
  end.

(** What [eval] reports in the [k]-th epoch of a loop that starts with the
    optimizer state [tr] and the weights [w], the loaders having been
    iterated [p] times before: the metrics of the weights after [k + 1]
    training passes, on the two loader iterations that follow the
    training pass. *)
Definition epoch_report (fw : Framework) (train_dl test_dl : DataLoader)
    (tr : trainer fw) (w : weights fw) (p k : nat) : Q * Q * Q * Q :=
  eval_metrics fw (snd (train_epochs fw train_dl tr w p (S k)))
    (batches fw train_dl (3 * k + 1 + p))
    (batches fw test_dl (3 * k + 2 + p)).

(** *** Stages of the pipeline *)

(** The calls by which the stages of the pipeline are recognised: the
    argument parser; [init_process_group]; the constructors of the
    datasets, the samplers and the loaders; the constructor of the model,
    [np.load] and [load_from]; the data-parallel wrapper; the optimizer
    and the schedule that [train_and_eval] builds and its [train] and
    [eval] calls; [destroy_process_group]. *)
Definition pipeline_call (e : event) : bool :=
  match e with
  | ParseArgs | InitProcessGroup _ _ _
  | NewDataset _ | NewSampler _ _ | NewDataLoader _
  | NewVisionTransformer _ _ _ | NpLoad _ | LoadFrom
  | WrapDDP _
  | NewOptimizer _ | NewScheduler _ | Call _ | Return _
  | DestroyProcessGroup => true
  | _ => false
  end.

(** The [train] and [eval] calls of one epoch. *)
Definition epoch_calls (e : Z) : list event :=
  [Call (FnTrain e); Return (FnTrain e); Call (FnEval e); Return (FnEval e)].

(** The pipeline: the calls of a run that goes through every stage, in
    order; the stages of a distributed run are those under
    [is_distributed == 1]. *)
Definition pipeline_calls (fw : Framework) (args : Namespace)
    (environ : gmap string string) : list event :=
  let distributed := is_distributed args =? 1 in
  [ParseArgs] ++
  (if distributed then
     match ddp_env fw environ with
     | Some (rank, world_size) => [InitProcessGroup "nccl" rank world_size]
     | None => []
     end
   else []) ++
  [NewDataset (trainset_of args); NewDataset (testset_of args);
   NewSampler (dl_sampler (train_loader_of args)) (trainset_of args);
   NewSampler SequentialSampler (testset_of args);
   NewDataLoader (train_loader_of args); NewDataLoader (test_loader_of args)] ++
  [NewVisionTransformer "vit-B_16" (img_size args) (class_num_of args);
   NpLoad (pretrained_dir args); LoadFrom] ++
  (if distributed then [WrapDDP (local_rank args)] else []) ++
  [NewOptimizer (optimizer_of args); NewScheduler (scheduler_of args)] ++
  flat_map epoch_calls (range (epochs args)) ++
  (if distributed then [DestroyProcessGroup] else []).

(** *** Distributed execution, continued *)

(** The distributed calls and the construction of the datasets. *)
Definition dist_or_dataset (e : event) : bool :=
  dist_call e || match e with NewDataset _ => true | _ => false end.

(** What a run with [is_distributed == 1] does for distributed execution,
    with the datasets' construction to place the barriers. *)
Definition distributed_run_calls (fw : Framework) (args : Namespace)
    (environ : gmap string string) : list event :=
  [EnvironSet "NCCL_DEBUG" "INFO"; EnvironSet "NCCL_SOCKET_IFNAME" "ib0"] ++
  match ddp_env fw environ with
  | Some (rank, world_size) =>
      [InitProcessGroup "nccl" rank world_size;
       Barrier;
       NewDataset (trainset_of args); NewDataset (testset_of args);
       Barrier;
       NewSampler DistributedSampler (trainset_of args);
       WrapDDP (local_rank args);
       DestroyProcessGroup]
  | None => []
  end.

(** The calls the script makes under [if args.is_distributed == 1]. *)
Definition guarded_call (e : event) : bool :=
  match e with
  | EnvironSet _ _ | InitProcessGroup _ _ _ | DestroyProcessGroup | Barrier
  | WrapDDP _ => true
  | _ => false
  end.

(** *** Console and log *)

Definition print_call (e : event) : bool :=
  match e with Print _ => true | _ => false end.

Definition logging_config_call (e : event) : bool :=
  match e with LoggingBasicConfig => true | _ => false end.

(** What a run shows on the terminal: what [print] writes, and the
    records handed to [logging.info] once
    [logging.basicConfig(level=logging.INFO, ...)] has been called.  Until
    then the root logger has the level [WARNING] of the [logging] module
    and drops them; [configured] tells whether the call has been made. *)
Fixpoint shown (configured : bool) (t : list event) : list message :=
  match t with
  | [] => []
  | Print m :: t' => m :: shown configured t'
  | LoggingBasicConfig :: t' => shown true t'
  | LoggingInfo m :: t' =>
      if configured then m :: shown configured t' else shown configured t'
  | _ :: t' => shown configured t'
  end.

(** ** Notions used in the proofs *)

(** Every event of [m] satisfies [P], and [m] leaves [args] as it is,
    whether it returns or raises. *)
Definition emits (fw : Framework) {A} (P : event -> Prop) (m : M fw A) : Prop :=
  forall s, Forall P (trace (m s)) /\ st_args (final (m s)) = st_args s.

(** Events that belong to no stage and are neither distributed, weight
    nor tracker calls. *)
Definition neutral (ev : event) : Prop :=
  stage_of ev = None /\ dist_call ev = false /\ weight_event ev = false /\
  wandb_init_call ev = false /\ wandb_log_call ev = false.

(** From a state satisfying [I], [m] makes only calls satisfying [P] and
    ends in a state satisfying [I], whether it returns or raises; a value
    it returns satisfies [Q]. *)
Definition respects (fw : Framework) {A} (I : state fw -> Prop)
    (P : event -> Prop) (m : M fw A) (Q : A -> Prop) : Prop :=
  forall s, I s ->
    Forall P (trace (m s)) /\ I (final (m s)) /\
    match result (m s) with Ok v => Q v | Raise _ => True end.

(** Calls that neither touch the weights nor switch the module to
    training mode. *)
Definition passive (e : event) : Prop :=
  weight_event e = false /\ e <> ModelTrain.

(** ** A small framework to run the script on *)

Fixpoint dec_digits (s : string) (acc : Z) : option Z :=
  match s with
  | EmptyString => Some acc
  | String c s' =>
      let n := Z.of_N (Ascii.N_of_ascii c) - 48 in
      if (0 <=? n) && (n <=? 9) then dec_digits s' (10 * acc + n) else None
  end.

(** Decimal literals without sign. *)
Definition dec_int (s : string) : option Z :=
  match s with
  | EmptyString => None
  | _ => dec_digits s 0
  end.

(** Images are integers, the weights one integer [w], and the model
    predicts the parity of [x + w]; every training step adds one to [w].
    The training set has two batches, the test set one. *)
Definition toy : Framework := {|
  tensor := Z;
  weights := Z;
  trainer := nat;
  npz := Z;
  py_int := dec_int;
  vit_init := fun _ _ => 0;
  np_load := fun _ => 1;
  load_from := fun w a => w + a;
  count_parameters := fun _ => 86;
  new_trainer := fun _ _ _ => 0%nat;
  train_step := fun t w _ => (S t, w + 1);
  predict := fun w x => (x + w) mod 2;
  criterion := fun _ _ => (1 # 2)%Q;
  batches := fun l _ =>
    if ds_train (dl_dataset l) then [[(0, 0); (1, 1)]; [(2, 1)]] else [[(1, 0)]]
|}.

(** The defaults of the argument parser, with [epochs] and the data
    directory shortened. *)
Definition default_args : Namespace := {|
  local_rank := 0;
  global_rank := 0;
  model := "transformer";
  dataset := "cifar10";
  data_dir := "./data";
  batch_size := 2;
  client_optimizer := "sgd";
  decay_type := "cosine";
  lr := (3 # 100)%Q;
  wd := 0%Q;
  warmup_steps := 2;
  epochs := 2;
  img_size := 224;
  pretrained_dir := "ViT-B_16.npz";
  is_distributed := 0
|}.

(** [--is_distributed 1 --epochs 1] *)
Definition ddp_args : Namespace := {|
  local_rank := 0;
  global_rank := 0;
  model := "transformer";
  dataset := "cifar10";
  data_dir := "./data";
  batch_size := 2;
  client_optimizer := "sgd";
  decay_type := "cosine";
  lr := (3 # 100)%Q;
  wd := 0%Q;
  warmup_steps := 2;
  epochs := 1;
  img_size := 224;
  pretrained_dir := "ViT-B_16.npz";
  is_distributed := 1
|}.

(** The environment of the process with rank 3 of 4. *)
Definition ddp_environ : gmap string string :=
  <["RANK" := "3"]> (<["WORLD_SIZE" := "4"]> ∅).

(** [--global_rank 1 --epochs 1], not distributed *)
Definition rank1_args : Namespace := {|
  local_rank := 0;
  global_rank := 1;
  model := "transformer";
  dataset := "cifar10";
  data_dir := "./data";
  batch_size := 2;
  client_optimizer := "sgd";
  decay_type := "cosine";
  lr := (3 # 100)%Q;
  wd := 0%Q;
  warmup_steps := 2;
  epochs := 1;
  img_size := 224;
  pretrained_dir := "ViT-B_16.npz";
  is_distributed := 0
|}.

(** [--dataset imagenet --epochs 1] *)
Definition other_dataset_args : Namespace := {|
  local_rank := 0;
  global_rank := 0;
  model := "transformer";
  dataset := "imagenet";
  data_dir := "./data";
  batch_size := 2;
  client_optimizer := "sgd";
  decay_type := "cosine";
  lr := (3 # 100)%Q;
  wd := 0%Q;
  warmup_steps := 2;
  epochs := 1;
  img_size := 224;
  pretrained_dir := "ViT-B_16.npz";
  is_distributed := 0
|}.

(** The state in which the default run enters [train_and_eval]. *)
Definition toy_loop_state : state toy :=
  loop_state toy default_args ∅ default_args.

(** The small framework with an empty test set. *)
Definition toy_no_test : Framework := {|
  tensor := Z;
  weights := Z;
  trainer := nat;
  npz := Z;
  py_int := dec_int;
  vit_init := fun _ _ => 0;
  np_load := fun _ => 1;
  load_from := fun w a => w + a;
  count_parameters := fun _ => 86;
  new_trainer := fun _ _ _ => 0%nat;
  train_step := fun t w _ => (S t, w + 1);
  predict := fun w x => (x + w) mod 2;
  criterion := fun _ _ => (1 # 2)%Q;
  batches := fun l _ =>
    if ds_train (dl_dataset l) then [[(0, 0); (1, 1)]; [(2, 1)]] else []
|}.

(** [--model resnet56 --epochs 1] *)
Definition resnet_args : Namespace := {|
  local_rank := 0;
  global_rank := 0;
  model := "resnet56";
  dataset := "cifar10";
  data_dir := "./data";
  batch_size := 2;
  client_optimizer := "sgd";
  decay_type := "cosine";
  lr := (3 # 100)%Q;
  wd := 0%Q;
  warmup_steps := 2;
  epochs := 1;
  img_size := 224;
  pretrained_dir := "ViT-B_16.npz";
  is_distributed := 0
|}.

(** [--epochs 0] *)
Definition no_epoch_args : Namespace := {|
  local_rank := 0;
  global_rank := 0;
  model := "transformer";
  dataset := "cifar10";
  data_dir := "./data";
  batch_size := 2;
  client_optimizer := "sgd";
  decay_type := "cosine";
  lr := (3 # 100)%Q;
  wd := 0%Q;
  warmup_steps := 2;
  epochs := 0;
  img_size := 224;
  pretrained_dir := "ViT-B_16.npz";
  is_distributed := 0
|}.

(** The default run, up to [train_and_eval], on the framework without
    test data. *)
Definition toy_no_test_state : state toy_no_test :=
  loop_state toy_no_test default_args ∅ default_args.

(** * Proofs *)

(** ** Summaries of the functions *)

Section Summaries.
Context (fw : Framework).

Lemma bind_ok {A B} (m : M fw A) (f : A -> M fw B) s t a s' :
  m s = Run t (Ok a) s' ->
  bind m f s = Run (t ++ trace (f a s')) (result (f a s')) (final (f a s')).
Proof. intros H. unfold bind. rewrite H. reflexivity. Qed.

Lemma model_method_run e (s : state fw) w :
  st_model s = Some w -> model_method fw e s = Run [e] (Ok w) s.
Proof.
  intros Hw. unfold model_method, bind, get_model. rewrite Hw. reflexivity.
Qed.

(** The batches of an evaluation pass, one [Forward] each. *)
Lemma infer_batches_run (w : weights fw) body bs :
  (forall acc i b (s : state fw), st_model s = Some w ->
     body acc (i, b) s = Run [Forward i] (Ok (infer_step fw w acc b)) s) ->
  forall k acc (s : state fw),
  st_model s = Some w ->
  for_fold body (combine (seq k (length bs)) bs) acc s
  = Run (map Forward (seq k (length bs)))
        (Ok (fold_left (infer_step fw w) bs acc)) s.
Proof.
  intros Hbody.
  induction bs as [|b bs IH]; intros k acc s Hw.
  - reflexivity.
  - cbn [length seq combine for_fold fold_left map].
    erewrite bind_ok by (apply Hbody; exact Hw).
    rewrite IH by exact Hw. reflexivity.
Qed.

Lemma _infer_run (data : DataLoader) (s : state fw) w :
  st_model s = Some w ->
  _infer fw data s =
    Run (infer_trace data (length (batches fw data (st_passes s))))
        (Ok (infer_sums fw w (batches fw data (st_passes s))))
        (next_pass s).
Proof.
  intros Hw. unfold _infer, enumerate.
  erewrite bind_ok by (apply model_method_run; exact Hw).
  erewrite bind_ok by reflexivity.
  erewrite bind_ok by reflexivity.
  erewrite (infer_batches_run w).
  - reflexivity.
  - intros [[c t] l] i b s' Hw'.
    erewrite bind_ok by (apply model_method_run; exact Hw'). reflexivity.
  - exact Hw.
Qed.

Lemma with_model_same (s : state fw) w : st_model s = Some w -> with_model s w = s.
Proof. destruct s; cbn; intros ->; reflexivity. Qed.

Lemma train_batches_run body bs :
  (forall tr i b (s : state fw) w, st_model s = Some w ->
     body tr (i, b) s =
       Run (step_trace i) (Ok (fst (train_step fw tr w b)))
           (with_model s (snd (train_step fw tr w b)))) ->
  forall k tr (s : state fw) w,
  st_model s = Some w ->
  for_fold body (combine (seq k (length bs)) bs) tr s
  = Run (flat_map step_trace (seq k (length bs)))
        (Ok (fst (train_pass fw tr w bs)))
        (with_model s (snd (train_pass fw tr w bs))).
Proof.
  intros Hbody.
  induction bs as [|b bs IH]; intros k tr s w Hw.
  - cbn. rewrite with_model_same by exact Hw. reflexivity.
  - cbn [length seq combine for_fold flat_map].
    unfold train_pass. cbn [fold_left].
    erewrite bind_ok by (apply Hbody; exact Hw).
    destruct (train_step fw tr w b) as [tr1 w1] eqn:Hstep.
    cbn [fst snd].
    rewrite (IH _ _ _ w1) by reflexivity.
    reflexivity.
Qed.

Lemma train_run (epoch : Z) (train_dl : DataLoader) tr (s : state fw) w :
  st_model s = Some w ->
  let bs := batches fw train_dl (st_passes s) in
  train fw epoch train_dl tr s =
    Run (train_trace epoch train_dl (length bs))
        (Ok (fst (train_pass fw tr w bs)))
        (with_model (next_pass s) (snd (train_pass fw tr w bs))).
Proof.
  intros Hw bs. unfold train, enumerate.
  erewrite bind_ok by reflexivity.
  erewrite bind_ok by (apply model_method_run; exact Hw).
  erewrite bind_ok by reflexivity.
  erewrite bind_ok.
  2:{ apply train_batches_run with (w := w); [|exact Hw].
      intros tr0 i b s' w' Hw'.
      erewrite bind_ok by reflexivity.
      erewrite bind_ok by (apply model_method_run; exact Hw').
      destruct (train_step fw tr0 w' b). reflexivity. }
  reflexivity.
Qed.

(** *** The sums of an evaluation pass *)

Lemma n_correct_cons w (b : list (tensor fw * Z)) bs :
  n_correct fw w (b :: bs) = correct_item fw w b + n_correct fw w bs.
Proof.
  unfold n_correct, correct_item, rows. cbn [concat].
  rewrite List.filter_app, length_app. lia.
Qed.

Lemma n_seen_cons {A} (b : list A) bs :
  n_seen (b :: bs) = Z.of_nat (length b) + n_seen bs.
Proof. unfold n_seen, rows. cbn [concat]. rewrite length_app. lia. Qed.

Lemma infer_fold_spec w bs : forall acc,
  let r := fold_left (infer_step fw w) bs acc in
  (fst (fst r) == fst (fst acc) + inject_Z (n_correct fw w bs))%Q /\
  (snd (fst r) == snd (fst acc) + inject_Z (n_seen bs))%Q /\
  (snd r == snd acc + weighted_loss fw w bs)%Q.
Proof.
  induction bs as [|b bs IH]; intros [[c t] l]; cbn [fold_left].
  - unfold n_correct, n_seen, rows. cbn. split; [|split]; ring.
  - destruct (IH (infer_step fw w (c, t, l) b)) as (Hc & Ht & Hl).
    cbv zeta. rewrite Hc, Ht, Hl.
    rewrite n_correct_cons, n_seen_cons, !inject_Z_plus.
    cbn [infer_step fst snd weighted_loss]. unfold size0.
    split; [|split]; ring.
Qed.

Lemma infer_sums_spec w bs :
  (fst (fst (infer_sums fw w bs)) == inject_Z (n_correct fw w bs))%Q /\
  (snd (fst (infer_sums fw w bs)) == inject_Z (n_seen bs))%Q /\
  (snd (infer_sums fw w bs) == weighted_loss fw w bs)%Q.
Proof.
  destruct (infer_fold_spec w bs (0%Q, 0%Q, 0%Q)) as (Hc & Ht & Hl).
  cbn [fst snd] in *. unfold infer_sums.
  rewrite Hc, Ht, Hl. split; [|split]; ring.
Qed.

Lemma infer_total_nonzero w bs :
  0 < n_seen bs -> Qeq_bool (snd (fst (infer_sums fw w bs))) 0 = false.
Proof.
  intros Hpos. destruct (infer_sums_spec w bs) as (_ & Ht & _).
  destruct (Qeq_bool _ 0) eqn:E; [|reflexivity].
  apply Qeq_bool_eq in E. rewrite Ht in E.
  unfold Qeq, inject_Z in E. cbn in E. lia.
Qed.

Lemma eval_run (epoch : Z) (train_dl test_dl : DataLoader) (s : state fw) w :
  st_model s = Some w ->
  let train_bs := batches fw train_dl (st_passes s) in
  let test_bs := batches fw test_dl (S (st_passes s)) in
  0 < n_seen train_bs -> 0 < n_seen test_bs ->
  eval fw epoch train_dl test_dl s =
    Run (eval_trace epoch train_dl test_dl (length train_bs) (length test_bs)
           (if global_rank (st_args s) =? 0
            then metric_logs epoch (eval_metrics fw w train_bs test_bs)
            else []))
        (Ok tt) (next_pass (next_pass s)).
Proof.
  intros Hw train_bs test_bs H1 H2. unfold eval.
  pose proof (infer_total_nonzero w train_bs H1) as Hz1.
  pose proof (infer_total_nonzero w test_bs H2) as Hz2.
  erewrite bind_ok by reflexivity.
  erewrite bind_ok by (apply _infer_run; exact Hw).
  fold train_bs. unfold eval_metrics.
  destruct (infer_sums fw w train_bs) as [[c1 t1] l1].
  erewrite bind_ok by (apply _infer_run; exact Hw).
  cbn [next_pass st_passes]. fold test_bs.
  destruct (infer_sums fw w test_bs) as [[c2 t2] l2].
  cbn [fst snd] in Hz1, Hz2.
  unfold py_div. rewrite Hz1, Hz2.
  cbn [bind ret get_args emit trace result final app st_args next_pass].
  unfold eval_trace, when.
  destruct (global_rank (st_args s) =? 0);
    cbn [bind ret emit trace result final app metric_logs];
    rewrite ?app_nil_r, <- ?app_assoc; reflexivity.
Qed.

(** *** The epoch loop *)

Lemma epochs_run (train_dl test_dl : DataLoader) body :
  feeds fw train_dl -> feeds fw test_dl ->
  (forall tr e (s : state fw),
     body tr e s =
       bind (train fw e train_dl tr)
         (fun tr' => bind (eval fw e train_dl test_dl) (fun _ => ret tr')) s) ->
  forall es tr (s : state fw) w,
  st_model s = Some w ->
  let r := for_fold body es tr s in
  (exists tr', result r = Ok tr') /\
  epoch_loop train_dl test_dl (global_rank (st_args s) =? 0) es (trace r) /\
  st_args (final r) = st_args s /\
  st_environ (final r) = st_environ s /\
  (exists w', st_model (final r) = Some w').
Proof.
  intros Hf1 Hf2 Hbody.
  induction es as [|e es IH]; intros tr s w Hw r.
  - subst r. cbn. repeat split; eauto. constructor.
  - subst r. cbn [for_fold].
    erewrite bind_ok.
    2:{ rewrite Hbody. erewrite bind_ok by (apply train_run; exact Hw).
        erewrite bind_ok.
        2:{ apply eval_run with (w := snd (train_pass fw tr w (batches fw train_dl (st_passes s)))).
            - reflexivity.
            - apply Hf1.
            - apply Hf2. }
        cbn [ret trace result final]. rewrite app_nil_r. reflexivity. }
    cbn [trace result final].
    match goal with |- context [for_fold body es ?tr1 ?s1] =>
      specialize (IH tr1 s1 _ eq_refl); cbv zeta in IH;
      destruct IH as (Hres & Hloop & Ha & He & Hm)
    end.
    cbn [st_args st_environ next_pass with_model] in *.
    split; [exact Hres|]. split; [|split; [exact Ha|split; [exact He|exact Hm]]].
    rewrite <- app_assoc. econstructor. exact Hloop.
Qed.

Lemma train_and_eval_run m (train_dl test_dl : DataLoader) (s : state fw) w :
  st_model s = Some w ->
  feeds fw train_dl -> feeds fw test_dl ->
  let r := train_and_eval fw m train_dl test_dl s in
  result r = Ok tt /\
  (exists body,
     trace r =
       [NewCriterion; NewOptimizer (optimizer_of (st_args s));
        NewScheduler (scheduler_of (st_args s))] ++ body /\
     epoch_loop train_dl test_dl (global_rank (st_args s) =? 0)
       (range (epochs (st_args s))) body) /\
  st_args (final r) = st_args s /\
  st_environ (final r) = st_environ s.
Proof.
  intros Hw Hf1 Hf2 r. subst r. unfold train_and_eval.
  erewrite bind_ok by reflexivity.
  erewrite bind_ok by reflexivity.
  erewrite bind_ok by (unfold get_model; rewrite Hw; reflexivity).
  erewrite bind_ok by reflexivity.
  erewrite bind_ok by reflexivity.
  cbn [trace result final app].
  match goal with |- context [for_fold ?body ?es ?tr] =>
    destruct (epochs_run train_dl test_dl body Hf1 Hf2 (fun _ _ _ => eq_refl)
                es tr s w Hw) as ((tr' & Hres) & Hloop & Ha & He & _);
    destruct (for_fold body es tr s) as [t res sf] eqn:Hrun
  end.
  cbn [trace result final] in Hres, Hloop, Ha, He. subst res.
  erewrite bind_ok by exact Hrun.
  cbn [ret trace result final app].
  split; [reflexivity|]. split; [|split; assumption].
  exists t. split; [|exact Hloop].
  rewrite app_nil_r. reflexivity.
Qed.

(** *** What a computation can emit, whatever the state *)

Lemma emits_ret {A} P (a : A) : emits fw P (ret a).
Proof. intros s. split; [constructor|reflexivity]. Qed.

Lemma emits_raise {A} P e : emits fw P (@raise fw A e).
Proof. intros s. split; [constructor|reflexivity]. Qed.

Lemma emits_emit (P : event -> Prop) e : P e -> emits fw P (emit fw e).
Proof. intros H s. split; [repeat constructor; exact H|reflexivity]. Qed.

Lemma emits_bind {A B} P (m : M fw A) (f : A -> M fw B) :
  emits fw P m -> (forall a, emits fw P (f a)) -> emits fw P (bind m f).
Proof.
  intros Hm Hf s. unfold bind. destruct (Hm s) as [Ht Ha].
  destruct (m s) as [t [a|e] s']; cbn in *; [|split; assumption].
  destruct (Hf a s') as [Ht' Ha'].
  split; [apply Forall_app; split; assumption|congruence].
Qed.

Lemma emits_get_args P : emits fw P (get_args fw).
Proof. intros s. split; [constructor|reflexivity]. Qed.

Lemma emits_get_model P : emits fw P (get_model fw).
Proof.
  intros s. unfold get_model.
  destruct (st_model s); (split; [constructor|reflexivity]).
Qed.

Lemma emits_model_method (P : event -> Prop) e :
  P e -> emits fw P (model_method fw e).
Proof.
  intros H. unfold model_method.
  apply emits_bind; [apply emits_get_model|intros w].
  apply emits_bind; [apply emits_emit; exact H|intros _; apply emits_ret].
Qed.

Lemma emits_set_model P w : emits fw P (set_model fw w).
Proof. intros s. split; [constructor|reflexivity]. Qed.

Lemma emits_iterate (P : event -> Prop) l : P (Iterate l) -> emits fw P (iterate fw l).
Proof. intros H s. split; [repeat constructor; exact H|reflexivity]. Qed.

Lemma emits_py_div P x y : emits fw P (py_div fw x y).
Proof. unfold py_div. destruct (Qeq_bool y 0); [apply emits_raise|apply emits_ret]. Qed.

Lemma emits_when P b m : emits fw P m -> emits fw P (when fw b m).
Proof. intros H. destruct b; [exact H|apply emits_ret]. Qed.

Lemma emits_for_fold {A S} P (body : S -> A -> M fw S) l :
  (forall acc x, emits fw P (body acc x)) -> forall acc, emits fw P (for_fold body l acc).
Proof.
  intros Hbody. induction l as [|x l IH]; intros acc; cbn [for_fold].
  - apply emits_ret.
  - apply emits_bind; [apply Hbody|exact IH].
Qed.

Ltac emits_step :=
  first
    [ apply emits_ret
    | apply emits_raise
    | apply emits_emit; reflexivity
    | apply emits_get_args
    | apply emits_get_model
    | apply emits_model_method; reflexivity
    | apply emits_set_model
    | apply emits_iterate; reflexivity
    | apply emits_py_div
    | apply emits_when
    | apply emits_for_fold; intros
    | apply emits_bind; [|intros]
    | match goal with
      | |- emits _ _ ?m =>
          match m with
          | context [match ?x with _ => _ end] => destruct x
          end
      end ].

Lemma _infer_emits data : emits fw (fun e => loop_event e = true) (_infer fw data).
Proof. unfold _infer. repeat emits_step. Qed.

Lemma train_emits epoch train_dl tr :
  emits fw (fun e => loop_event e = true) (train fw epoch train_dl tr).
Proof. unfold train. repeat emits_step. Qed.

Lemma eval_emits epoch train_dl test_dl :
  emits fw (fun e => loop_event e = true) (eval fw epoch train_dl test_dl).
Proof.
  unfold eval. repeat first [apply _infer_emits | emits_step].
Qed.

Lemma train_and_eval_emits m train_dl test_dl :
  emits fw (fun e => loop_event e = true) (train_and_eval fw m train_dl test_dl).
Proof.
  unfold train_and_eval.
  repeat first [apply train_emits | apply eval_emits | emits_step].
Qed.

Lemma train_and_eval_starts m train_dl test_dl (s : state fw) :
  exists t, trace (train_and_eval fw m train_dl test_dl s) = NewCriterion :: t.
Proof.
  unfold train_and_eval.
  erewrite bind_ok by reflexivity.
  erewrite bind_ok by reflexivity.
  cbn [trace app]. eexists. reflexivity.
Qed.

(** *** The main script *)

Lemma bind_raise {A B} (m : M fw A) (f : A -> M fw B) s t e s' :
  m s = Run t (Raise e) s' ->
  bind m f s = Run t (Raise e) s'.
Proof. intros H. unfold bind. rewrite H. reflexivity. Qed.

Lemma environ_get_run k v (s : state fw) :
  st_environ s !! k = Some v -> environ_get fw k s = Run [] (Ok v) s.
Proof. intros H. unfold environ_get. rewrite H. reflexivity. Qed.

Lemma environ_get_raises k (s : state fw) :
  st_environ s !! k = None -> environ_get fw k s = Run [] (Raise (KeyError k)) s.
Proof. intros H. unfold environ_get. rewrite H. reflexivity. Qed.

Lemma nccl_lookup (environ : gmap string string) k :
  k <> "NCCL_DEBUG" -> k <> "NCCL_SOCKET_IFNAME" ->
  nccl_environ environ !! k = environ !! k.
Proof.
  intros H1 H2. unfold nccl_environ. rewrite lookup_insert_ne by congruence.
  rewrite lookup_insert_ne by congruence. reflexivity.
Qed.

Lemma init_ddp_run (s : state fw) rank world_size :
  ddp_env fw (st_environ s) = Some (rank, world_size) ->
  init_ddp fw s =
    Run (init_ddp_trace (st_args s) rank world_size)
        (Ok (local_rank (st_args s), rank))
        (with_environ s (nccl_environ (st_environ s))).
Proof.
  unfold ddp_env. intros H.
  destruct (st_environ s !! "RANK") as [r|] eqn:Hr; [|discriminate].
  destruct (py_int fw r) as [rank'|] eqn:Hpr; [|discriminate].
  destruct (st_environ s !! "WORLD_SIZE") as [n|] eqn:Hn; [|discriminate].
  destruct (py_int fw n) as [ws'|] eqn:Hpn; [|discriminate].
  injection H as -> ->.
  unfold init_ddp.
  erewrite bind_ok by reflexivity.
  erewrite bind_ok by reflexivity.
  erewrite bind_ok.
  2:{ apply environ_get_run. cbn [with_environ st_environ].
      etrans; [apply nccl_lookup; discriminate|exact Hr]. }
  unfold int_of. rewrite Hpr.
  erewrite bind_ok by reflexivity.
  erewrite bind_ok by reflexivity.
  erewrite bind_ok.
  2:{ apply environ_get_run. cbn [with_environ st_environ].
      etrans; [apply nccl_lookup; discriminate|exact Hn]. }
  rewrite Hpn.
  reflexivity.
Qed.

Lemma init_ddp_raises (s : state fw) :
  ddp_env fw (st_environ s) = None ->
  exists out e,
    init_ddp fw s =
      Run ([EnvironSet "NCCL_DEBUG" "INFO"; EnvironSet "NCCL_SOCKET_IFNAME" "ib0"]
             ++ out)
          (Raise e) (with_environ s (nccl_environ (st_environ s))) /\
    Forall (fun ev => stage_of ev = None /\ dist_call ev = false /\
                      weight_event ev = false /\ wandb_init_call ev = false /\
                      wandb_log_call ev = false) out.
Proof.
  unfold ddp_env. intros H. unfold init_ddp.
  erewrite bind_ok by reflexivity.
  erewrite bind_ok by reflexivity.
  destruct (st_environ s !! "RANK") as [r|] eqn:Hr.
  2:{ exists [], (KeyError "RANK"). split; [|constructor].
      erewrite bind_raise; [reflexivity|].
      apply environ_get_raises. cbn [with_environ st_environ].
      etrans; [apply nccl_lookup; discriminate|exact Hr]. }
  erewrite bind_ok.
  2:{ apply environ_get_run. cbn [with_environ st_environ].
      etrans; [apply nccl_lookup; discriminate|exact Hr]. }
  unfold int_of.
  destruct (py_int fw r) as [rank|] eqn:Hpr.
  2:{ exists [], (ValueError r). split; [reflexivity|constructor]. }
  erewrite bind_ok by reflexivity.
  erewrite bind_ok by reflexivity.
  destruct (st_environ s !! "WORLD_SIZE") as [n|] eqn:Hn.
  2:{ exists [Print (MsgRank rank)], (KeyError "WORLD_SIZE").
      split; [|repeat constructor].
      erewrite bind_raise; [reflexivity|].
      apply environ_get_raises. cbn [with_environ st_environ].
      etrans; [apply nccl_lookup; discriminate|exact Hn]. }
  erewrite bind_ok.
  2:{ apply environ_get_run. cbn [with_environ st_environ].
      etrans; [apply nccl_lookup; discriminate|exact Hn]. }
  destruct (py_int fw n) as [ws|] eqn:Hpn; [discriminate|].
  exists [Print (MsgRank rank)], (ValueError n).
  split; [reflexivity|repeat constructor].
Qed.

Ltac tidy :=
  cbn [trace result final app ret emit get_args assign_global_rank when
       with_args with_environ with_model st_args st_environ st_model
       st_passes start to_device get_ddp_model fst snd].

Ltac step := cbn beta iota; erewrite bind_ok by reflexivity; tidy.

(** Run the next call by its summary [lem]. *)
Ltac call lem :=
  cbn beta iota; erewrite bind_ok by (apply lem); tidy.

Lemma load_cifar_run (s : state fw) :
  load_cifar_centralized_training_for_vit fw s =
    Run (data_trace (st_args s))
        (Ok (train_loader_of (st_args s), test_loader_of (st_args s))) s.
Proof.
  unfold load_cifar_centralized_training_for_vit, data_trace.
  step. destruct (is_distributed (st_args s) =? 1); reflexivity.
Qed.

Lemma create_model_run (s : state fw) name output_dim :
  String.eqb name "transformer" = true ->
  create_model fw name output_dim s =
    Run [LoggingInfo (MsgCreateModel name output_dim);
         LoggingInfo MsgConfig;
         NewVisionTransformer "vit-B_16" (img_size (st_args s)) output_dim;
         NpLoad (pretrained_dir (st_args s));
         LoadFrom;
         CountParameters;
         LoggingInfo
           (MsgModelSize
              (count_parameters fw
                 (load_from fw (vit_init fw (img_size (st_args s)) output_dim)
                    (np_load fw (pretrained_dir (st_args s))))))]
        (Ok (Some VisionTransformer))
        (with_model s
           (load_from fw (vit_init fw (img_size (st_args s)) output_dim)
              (np_load fw (pretrained_dir (st_args s))))).
Proof.
  intros H. unfold create_model. rewrite H. reflexivity.
Qed.

Lemma create_model_none (s : state fw) name output_dim :
  String.eqb name "transformer" = false ->
  create_model fw name output_dim s =
    Run [LoggingInfo (MsgCreateModel name output_dim)] (Ok None) s.
Proof.
  intros H. unfold create_model. rewrite H. reflexivity.
Qed.

Lemma dataset_block_run a' (s : state fw) :
  st_args s = a' ->
  (if String.eqb (dataset a') "cifar10" then
     bind (load_cifar_centralized_training_for_vit fw)
       (fun x => let '(train_dl, test_dl) := x in ret (train_dl, test_dl, 10))
   else if String.eqb (dataset a') "cifar100" then
     bind (load_cifar_centralized_training_for_vit fw)
       (fun x => let '(train_dl, test_dl) := x in ret (train_dl, test_dl, 100))
   else
     bind (load_cifar_centralized_training_for_vit fw)
       (fun x => let '(train_dl, test_dl) := x in ret (train_dl, test_dl, 10))) s
  = Run (data_trace a')
        (Ok (train_loader_of a', test_loader_of a', class_num_of a')) s.
Proof.
  intros <-. unfold class_num_of.
  destruct (String.eqb (dataset (st_args s)) "cifar10");
    [|destruct (String.eqb (dataset (st_args s)) "cifar100")];
    call load_cifar_run; rewrite app_nil_r; reflexivity.
Qed.

Lemma ddp_block_run a environ grank a' :
  resolve fw a environ = Some (grank, a') ->
  (if is_distributed a =? 1 then
     bind (init_ddp fw)
       (fun x => let '(local_rank, global_rank) := x in
                 bind (assign_global_rank fw global_rank)
                   (fun _ => ret (local_rank, global_rank)))
   else ret (local_rank a, 0)) (start fw a environ)
  = Run (ddp_block_trace fw a environ) (Ok (local_rank a, grank))
        {| st_args := a'; st_environ := environ_in_use a environ;
           st_model := None; st_passes := 0 |}.
Proof.
  unfold resolve, ddp_block_trace, environ_in_use.
  destruct (is_distributed a =? 1).
  - destruct (ddp_env fw environ) as [[rank ws]|] eqn:Henv; [|discriminate].
    intros [= <- <-].
    erewrite bind_ok by (apply init_ddp_run; exact Henv). tidy.
    step. rewrite app_nil_r. reflexivity.
  - intros [= <- <-]. reflexivity.
Qed.

Lemma tracker_init_run grank (s : state fw) :
  when fw (grank =? 0)
    (bind (get_args fw)
       (fun args => emit fw (WandbInit "fed_transformer" (epochs args) (lr args) args))) s
  = Run (tracker_init_trace grank (st_args s)) (Ok tt) s.
Proof. unfold tracker_init_trace. destruct (grank =? 0); reflexivity. Qed.

Lemma wrap_block_run a' m lrank (s : state fw) :
  (if is_distributed a' =? 1 then get_ddp_model fw m lrank else ret m) s
  = Run (if is_distributed a' =? 1 then [WrapDDP lrank] else [])
        (Ok (if is_distributed a' =? 1 then DDP else m)) s.
Proof. destruct (is_distributed a' =? 1); reflexivity. Qed.

Lemma resolve_args a environ grank a' :
  resolve fw a environ = Some (grank, a') ->
  a' = set_global_rank a (global_rank a').
Proof.
  unfold resolve.
  destruct (is_distributed a =? 1);
    [destruct (ddp_env fw environ) as [[rank ws]|]; [|discriminate]|];
    intros [= <- <-]; [reflexivity|destruct a; reflexivity].
Qed.

Lemma main_run a environ grank a' :
  resolve fw a environ = Some (grank, a') ->
  String.eqb (model a) "transformer" = true ->
  let loop := train_and_eval fw (model_in_use a) (train_loader_of a')
                (test_loader_of a') (loop_state fw a environ a') in
  main fw (start fw a environ) =
    Run (setup_trace fw a environ grank a' ++ trace loop ++
         match result loop with
         | Ok _ => teardown_trace a
         | Raise _ => []
         end)
        (result loop) (final loop).
Proof.
  intros Hres Hmodel loop.
  pose proof (resolve_args _ _ _ _ Hres) as Ha'.
  assert (Hm : String.eqb (model a') "transformer" = true)
    by (rewrite Ha'; exact Hmodel).
  assert (Hd : is_distributed a' = is_distributed a) by (rewrite Ha'; reflexivity).
  assert (Hl : local_rank a' = local_rank a) by (rewrite Ha'; reflexivity).
  unfold main.
  do 9 step.
  erewrite bind_ok by (apply ddp_block_run; exact Hres). tidy.
  step.
  call tracker_init_run.
  step.
  cbn beta iota; erewrite bind_ok by (apply dataset_block_run; reflexivity); tidy.
  cbn beta iota; erewrite bind_ok by (apply create_model_run; exact Hm); tidy.
  step.
  call wrap_block_run.
  rewrite Hd.
  change (with_model _ _) with (loop_state fw a environ a').
  change (if is_distributed a =? 1 then DDP else VisionTransformer)
    with (model_in_use a).
  unfold bind. fold loop.
  unfold setup_trace, data_stage_trace, preamble_trace, model_trace,
    teardown_trace, loaded_weights.
  rewrite Hl.
  destruct loop as [t [[]|e] sf]; cbn [trace result final app when emit ret];
    [destruct (is_distributed a =? 1)|];
    cbn [trace result final app]; f_equal;
    rewrite <- ?app_assoc; cbn [app]; rewrite <- ?app_assoc;
    rewrite ?app_nil_r; reflexivity.
Qed.

Lemma main_no_model a environ grank a' :
  resolve fw a environ = Some (grank, a') ->
  String.eqb (model a) "transformer" = false ->
  main fw (start fw a environ) =
    Run (data_stage_trace fw a environ grank a' ++
         [LoggingInfo (MsgCreateModel (model a) (class_num_of a'))])
        (Raise AttributeError)
        {| st_args := a'; st_environ := environ_in_use a environ;
           st_model := None; st_passes := 0 |}.
Proof.
  intros Hres Hmodel.
  pose proof (resolve_args _ _ _ _ Hres) as Ha'.
  assert (Hm : String.eqb (model a') "transformer" = false)
    by (rewrite Ha'; exact Hmodel).
  assert (Hn : model a' = model a) by (rewrite Ha'; reflexivity).
  unfold main.
  do 9 step.
  erewrite bind_ok by (apply ddp_block_run; exact Hres). tidy.
  step.
  call tracker_init_run.
  step.
  cbn beta iota; erewrite bind_ok by (apply dataset_block_run; reflexivity); tidy.
  cbn beta iota; erewrite bind_ok by (apply create_model_none; exact Hm); tidy.
  unfold bind, raise. cbn [trace result final].
  rewrite Hn.
  unfold data_stage_trace, preamble_trace.
  f_equal. cbn [app]. rewrite <- ?app_assoc. cbn [app]. rewrite <- ?app_assoc.
  rewrite ?app_nil_r. reflexivity.
Qed.

Lemma main_init_raises a environ :
  resolve fw a environ = None ->
  exists out e,
    main fw (start fw a environ) =
      Run (preamble_trace a ++
           [EnvironSet "NCCL_DEBUG" "INFO"; EnvironSet "NCCL_SOCKET_IFNAME" "ib0"] ++
           out)
          (Raise e) (with_environ (start fw a environ) (nccl_environ environ)) /\
    is_distributed a = 1 /\ ddp_env fw environ = None /\
    Forall (fun ev => stage_of ev = None /\ dist_call ev = false /\
                      weight_event ev = false /\ wandb_init_call ev = false /\
                      wandb_log_call ev = false) out.
Proof.
  unfold resolve. intros Hres.
  destruct (is_distributed a =? 1) eqn:Hd; [|discriminate].
  destruct (ddp_env fw environ) as [[rank ws]|] eqn:Henv; [discriminate|].
  destruct (init_ddp_raises (start fw a environ) Henv) as (out & e & Hrun & Hout).
  exists out, e. split; [|split; [lia|split; [reflexivity|exact Hout]]].
  unfold main.
  do 9 step. cbn [start st_args]. rewrite Hd.
  erewrite bind_raise.
  2:{ erewrite bind_raise by exact Hrun. reflexivity. }
  reflexivity.
Qed.

(** The three ways a run of the main script can go: [init_ddp] raises;
    no model is created and [.to(device)] raises; or the epoch loop is
    reached. *)
Lemma main_cases a environ :
  let r := main fw (start fw a environ) in
  (exists out e,
     resolve fw a environ = None /\ is_distributed a = 1 /\
     ddp_env fw environ = None /\ Forall neutral out /\
     r = Run (preamble_trace a ++
              [EnvironSet "NCCL_DEBUG" "INFO";
               EnvironSet "NCCL_SOCKET_IFNAME" "ib0"] ++ out)
             (Raise e) (with_environ (start fw a environ) (nccl_environ environ))) \/
  (exists grank g',
     resolve fw a environ = Some (grank, set_global_rank a g') /\
     String.eqb (model a) "transformer" = false /\
     r = Run (data_stage_trace fw a environ grank (set_global_rank a g') ++
              [LoggingInfo (MsgCreateModel (model a)
                              (class_num_of (set_global_rank a g')))])
             (Raise AttributeError)
             {| st_args := set_global_rank a g';
                st_environ := environ_in_use a environ;
                st_model := None; st_passes := 0 |}) \/
  (exists grank g' t res sf,
     resolve fw a environ = Some (grank, set_global_rank a g') /\
     String.eqb (model a) "transformer" = true /\
     r = Run (setup_trace fw a environ grank (set_global_rank a g') ++ t ++
              match res with Ok _ => teardown_trace a | Raise _ => [] end)
             res sf /\
     Forall (fun e => loop_event e = true) t /\
     (exists t', t = NewCriterion :: t') /\
     st_args sf = set_global_rank a g' /\
     (feeds fw (train_loader_of a) -> feeds fw (test_loader_of a) ->
      res = Ok tt)).
Proof.
  intros r. subst r.
  destruct (resolve fw a environ) as [[grank a']|] eqn:Hres.
  - pose proof (resolve_args _ _ _ _ Hres) as Ha'.
    set (g' := global_rank a') in *. clearbody g'. subst a'.
    destruct (String.eqb (model a) "transformer") eqn:Hmodel.
    + right. right.
      rewrite (main_run _ _ _ _ Hres Hmodel).
      set (s0 := loop_state fw a environ (set_global_rank a g')).
      set (tl := train_loader_of (set_global_rank a g')).
      set (vl := test_loader_of (set_global_rank a g')).
      destruct (train_and_eval_emits (model_in_use a) tl vl s0) as [Hev Hargs].
      destruct (train_and_eval_starts (model_in_use a) tl vl s0) as [t' Ht'].
      exists grank, g', (trace (train_and_eval fw (model_in_use a) tl vl s0)),
        (result (train_and_eval fw (model_in_use a) tl vl s0)),
        (final (train_and_eval fw (model_in_use a) tl vl s0)).
      split; [reflexivity|]. split; [reflexivity|]. split; [reflexivity|].
      split; [exact Hev|]. split; [exists t'; exact Ht'|].
      split; [exact Hargs|].
      intros Hf1 Hf2.
      destruct (train_and_eval_run (model_in_use a) tl vl s0
                  (loaded_weights fw (set_global_rank a g')) eq_refl Hf1 Hf2)
        as (Hok & _).
      exact Hok.
    + right. left. exists grank, g'.
      split; [reflexivity|]. split; [reflexivity|].
      apply (main_no_model _ _ _ _ Hres Hmodel).
  - left. destruct (main_init_raises _ _ Hres) as (out & e & Hrun & Hd & Henv & Hout).
    exists out, e. split; [reflexivity|]. split; [exact Hd|].
    split; [exact Henv|]. split; [exact Hout|exact Hrun].
Qed.

End Summaries.

(** ** Properties of the scripts *)

Section Properties.
Context (fw : Framework).

(** *** Evaluation *)

Lemma n_correct_bounds w (bs : list (list (tensor fw * Z))) :
  0 <= n_correct fw w bs <= n_seen bs.
Proof.
  unfold n_correct, n_seen. split; [lia|].
  apply Nat2Z.inj_le, List.filter_length_le.
Qed.

Lemma ratio_in_unit (c t : Q) (nc ns : Z) :
  (c == inject_Z nc)%Q -> (t == inject_Z ns)%Q ->
  0 <= nc <= ns -> 0 < ns ->
  (c / t == inject_Z nc / inject_Z ns)%Q /\ (0 <= c / t)%Q /\ (c / t <= 1)%Q.
Proof.
  intros Hc Ht [H0 Hle] Hpos.
  assert (Hq : (inject_Z 0 < inject_Z ns)%Q) by (rewrite <- Zlt_Qlt; exact Hpos).
  assert (Hn : (inject_Z 0 <= inject_Z nc)%Q) by (rewrite <- Zle_Qle; exact H0).
  rewrite Hc, Ht. split; [reflexivity|]. split.
  - apply Qle_shift_div_l; [exact Hq|].
    rewrite Qmult_0_l. exact Hn.
  - apply Qle_shift_div_r; [exact Hq|].
    rewrite Qmult_1_l. rewrite <- Zle_Qle. exact Hle.
Qed.

(** C9: an evaluation pass returns the number of correctly predicted
    samples, the number of samples seen and the sum over the batches of the
    batch-mean loss times the batch size, so that [correct <= total]; and
    when both passes of [eval] see a sample, the accuracies it reports are
    [correct / total], within [0, 1], and the losses are the per-sample
    averages. *)
Theorem C9_infer_counts_and_eval_metrics
    (epoch : Z) (train_dl test_dl : DataLoader) (s : state fw) (w : weights fw) :
  st_model s = Some w ->
  (forall data, exists correct total loss_sum,
     let bs := batches fw data (st_passes s) in
     result (_infer fw data s) = Ok (correct, total, loss_sum) /\
     (correct == inject_Z (n_correct fw w bs))%Q /\
     (total == inject_Z (n_seen bs))%Q /\
     (loss_sum == weighted_loss fw w bs)%Q /\
     (0 <= correct)%Q /\ (correct <= total)%Q) /\
  (let train_bs := batches fw train_dl (st_passes s) in
   let test_bs := batches fw test_dl (S (st_passes s)) in
   0 < n_seen train_bs -> 0 < n_seen test_bs ->
   exists train_acc train_loss test_acc test_loss,
     eval fw epoch train_dl test_dl s =
       Run (eval_trace epoch train_dl test_dl (length train_bs) (length test_bs)
              (if global_rank (st_args s) =? 0
               then metric_logs epoch (train_acc, train_loss, test_acc, test_loss)
               else []))
           (Ok tt) (next_pass (next_pass s)) /\
     (train_acc == inject_Z (n_correct fw w train_bs) / inject_Z (n_seen train_bs))%Q /\
     (0 <= train_acc)%Q /\ (train_acc <= 1)%Q /\
     (train_loss == weighted_loss fw w train_bs / inject_Z (n_seen train_bs))%Q /\
     (test_acc == inject_Z (n_correct fw w test_bs) / inject_Z (n_seen test_bs))%Q /\
     (0 <= test_acc)%Q /\ (test_acc <= 1)%Q /\
     (test_loss == weighted_loss fw w test_bs / inject_Z (n_seen test_bs))%Q).
Proof.
  intros Hw. split.
  - intros data.
    destruct (infer_sums_spec fw w (batches fw data (st_passes s))) as (Hc & Ht & Hl).
    pose proof (n_correct_bounds w (batches fw data (st_passes s))) as [H0 Hle].
    rewrite (_infer_run fw data s w Hw). cbn [result].
    destruct (infer_sums fw w (batches fw data (st_passes s))) as [[c t] l].
    cbn [fst snd] in *. exists c, t, l. cbv zeta.
    split; [reflexivity|]. split; [exact Hc|]. split; [exact Ht|].
    split; [exact Hl|]. split.
    + rewrite Hc. change 0%Q with (inject_Z 0). rewrite <- Zle_Qle. exact H0.
    + rewrite Hc, Ht. rewrite <- Zle_Qle. exact Hle.
  - intros train_bs test_bs H1 H2.
    rewrite (eval_run fw epoch train_dl test_dl s w Hw H1 H2).
    fold train_bs test_bs. unfold eval_metrics.
    destruct (infer_sums_spec fw w train_bs) as (Hc1 & Ht1 & Hl1).
    destruct (infer_sums_spec fw w test_bs) as (Hc2 & Ht2 & Hl2).
    destruct (infer_sums fw w train_bs) as [[c1 t1] l1].
    destruct (infer_sums fw w test_bs) as [[c2 t2] l2].
    cbn [fst snd] in *.
    destruct (ratio_in_unit c1 t1 _ _ Hc1 Ht1 (n_correct_bounds w train_bs) H1)
      as (Ha1 & Hlo1 & Hhi1).
    destruct (ratio_in_unit c2 t2 _ _ Hc2 Ht2 (n_correct_bounds w test_bs) H2)
      as (Ha2 & Hlo2 & Hhi2).
    exists (c1 / t1)%Q, (l1 / t1)%Q, (c2 / t2)%Q, (l2 / t2)%Q.
    split; [reflexivity|].
    split; [exact Ha1|]. split; [exact Hlo1|]. split; [exact Hhi1|].
    split; [rewrite Hl1, Ht1; reflexivity|].
    split; [exact Ha2|]. split; [exact Hlo2|]. split; [exact Hhi2|].
    rewrite Hl2, Ht2; reflexivity.
Qed.

(** *** [range] *)

Lemma range_length n : Z.of_nat (length (range n)) = Z.max 0 n.
Proof. unfold range. rewrite length_map, length_seq. lia. Qed.

Lemma range_lookup n (i : nat) :
  (i < Z.to_nat n)%nat -> range n !! i = Some (Z.of_nat i).
Proof.
  intros Hi. unfold range. rewrite list_lookup_fmap.
  rewrite lookup_seq_lt by exact Hi. reflexivity.
Qed.

(** *** The main script *)

Lemma set_global_rank_back a g : set_global_rank (set_global_rank a g) (global_rank a) = a.
Proof. destruct a; reflexivity. Qed.

Lemma set_global_rank_same a : set_global_rank a (global_rank a) = a.
Proof. destruct a; reflexivity. Qed.

(** How [resolve] decides, by the distributed flag. *)
Lemma resolve_inv a environ grank g' :
  resolve fw a environ = Some (grank, set_global_rank a g') ->
  (is_distributed a =? 1) = true /\
    (exists ws, ddp_env fw environ = Some (grank, ws)) /\ g' = grank \/
  (is_distributed a =? 1) = false /\ grank = 0 /\ g' = global_rank a.
Proof.
  unfold resolve. destruct (is_distributed a =? 1).
  - destruct (ddp_env fw environ) as [[rank ws]|]; [|discriminate].
    intros [= <- H]. left. split; [reflexivity|]. split; [exists ws; reflexivity|].
    congruence.
  - intros [= <- H]. right. split; [reflexivity|]. split; [reflexivity|].
    apply (f_equal global_rank) in H. cbn in H. congruence.
Qed.

(** C1, amended: after parsing, the only field of [args] that is assigned
    is [global_rank], and only in a distributed run, where it receives
    [int(os.environ['RANK'])]; every other field keeps its parsed value
    in every run, and a run that is not distributed, or whose rank
    variables are missing, leaves [args] untouched. *)
Theorem C1_only_global_rank_is_reassigned a environ :
  let r := main fw (start fw a environ) in
  set_global_rank (st_args (final r)) (global_rank a) = a /\
  (is_distributed a <> 1 -> st_args (final r) = a) /\
  (ddp_env fw environ = None -> st_args (final r) = a) /\
  (forall rank world_size,
     is_distributed a = 1 ->
     ddp_env fw environ = Some (rank, world_size) ->
     st_args (final r) = set_global_rank a rank).
Proof.
  intros r.
  assert (H : st_args (final r) = a /\ resolve fw a environ = None \/
              exists grank g', resolve fw a environ = Some (grank, set_global_rank a g')
                               /\ st_args (final r) = set_global_rank a g').
  { destruct (main_cases fw a environ) as
      [(out & e & Hres & _ & _ & _ & Hrun)
      |[(grank & g' & Hres & _ & Hrun)
       |(grank & g' & t & res & sf & Hres & _ & Hrun & _ & _ & Hargs & _)]];
      fold r in Hrun; rewrite Hrun; cbn [final st_args with_environ start].
    - left. split; [reflexivity|exact Hres].
    - right. exists grank, g'. split; [exact Hres|reflexivity].
    - right. exists grank, g'. split; [exact Hres|exact Hargs]. }
  destruct H as [[Hargs Hres]|(grank & g' & Hres & Hargs)]; rewrite Hargs.
  - split; [apply set_global_rank_same|]. split; [reflexivity|].
    split; [reflexivity|].
    intros rank ws _ Henv. unfold resolve in Hres. rewrite Henv in Hres.
    destruct (is_distributed a =? 1); discriminate.
  - split; [apply set_global_rank_back|].
    destruct (resolve_inv _ _ _ _ Hres) as [(Hd & (ws & Henv) & ->)|(Hd & -> & ->)].
    + split; [intros Hne; apply Z.eqb_eq in Hd; contradiction|].
      split; [intros Hnone; congruence|].
      intros rank ws' _ Henv'. congruence.
    + split; [intros _; apply set_global_rank_same|].
      split; [intros _; apply set_global_rank_same|].
      intros rank ws Hd'. apply Z.eqb_neq in Hd. contradiction.
Qed.

(** *** Model weights *)

Lemma loop_weights t :
  Forall (fun e => loop_event e = true) t ->
  exists k, List.filter weight_event t = repeat OptimizerStep k.
Proof.
  induction 1 as [|e t He _ [k IH]]; [exists 0%nat; reflexivity|].
  destruct e; try discriminate He; cbn [List.filter weight_event];
    try (exists k; exact IH).
  exists (S k). cbn. rewrite IH. reflexivity.
Qed.

Lemma neutral_no_weights out :
  Forall neutral out -> List.filter weight_event out = [].
Proof.
  induction 1 as [|e t (_ & _ & He & _) _ IH]; [reflexivity|].
  cbn [List.filter]. rewrite He. exact IH.
Qed.

(** C7: the weight calls of a run are the construction of the model,
    [np.load(args.pretrained_dir)] and one [load_from], in this order and
    with nothing in between, followed by optimizer steps only: the archive
    is loaded once, into the new model, and never again.  A run that raises
    makes an initial part of these calls. *)
Theorem C7_pretrained_weights_loaded_once a environ :
  let r := main fw (start fw a environ) in
  exists k,
    List.filter weight_event (trace r) `prefix_of`
      weight_calls a (class_num_of a) k /\
    (result r = Ok tt ->
     List.filter weight_event (trace r) = weight_calls a (class_num_of a) k).
Proof.
  intros r.
  destruct (main_cases fw a environ) as
    [(out & e & Hres & Hd & Henv & Hout & Hrun)
    |[(grank & g' & Hres & Hmodel & Hrun)
     |(grank & g' & t & res & sf & Hres & Hmodel & Hrun & Hloop & _ & _ & _)]];
    fold r in Hrun; rewrite Hrun; cbn [trace result].
  - exists 0%nat. rewrite !List.filter_app, (neutral_no_weights out Hout).
    split; [eexists; reflexivity|discriminate].
  - exists 0%nat. split; [|discriminate].
    unfold data_stage_trace, ddp_block_trace, tracker_init_trace, data_trace.
    destruct (grank =? 0) eqn:Hg;
      (destruct (resolve_inv _ _ _ _ Hres) as [(Hd & (ws & Henv) & ->)|(Hd & -> & ->)];
       [|try discriminate Hg]);
      cbn [is_distributed set_global_rank]; rewrite Hd, ?Henv;
      eexists; reflexivity.
  - destruct (loop_weights t Hloop) as [k Hk]. exists k.
    rewrite !List.filter_app, Hk.
    unfold setup_trace, data_stage_trace, ddp_block_trace, tracker_init_trace,
      data_trace, teardown_trace, weight_calls.
    destruct (grank =? 0) eqn:Hg;
      (destruct (resolve_inv _ _ _ _ Hres) as [(Hd & (ws & Henv) & ->)|(Hd & -> & ->)];
       [|try discriminate Hg]);
      cbn [is_distributed set_global_rank]; rewrite Hd, ?Henv;
      (split; [exists []|intros _]); destruct res as [[]|e];
      cbn -[repeat]; rewrite ?app_nil_r; reflexivity.
Qed.

(** *** Datasets and classes *)

Lemma loop_no_construction t :
  Forall (fun e => loop_event e = true) t ->
  List.filter construction_event t = [].
Proof.
  induction 1 as [|e t He _ IH]; [reflexivity|].
  destruct e; try discriminate He; cbn [List.filter construction_event]; exact IH.
Qed.

Lemma neutral_no_construction out :
  Forall neutral out -> List.filter construction_event out = [].
Proof.
  induction 1 as [|e t (He & _) _ IH]; [reflexivity|].
  destruct e; try discriminate He; cbn [List.filter construction_event]; exact IH.
Qed.

(** C8: for a dataset argument other than ["cifar10"] and ["cifar100"] the
    loader builds the CIFAR-100 training and test sets while the model is
    built with 10 output classes, fewer than the 100 labels of the data;
    these are the only datasets and the only model a run constructs. *)
Theorem C8_other_dataset_loads_cifar100_with_10_classes a environ :
  dataset a <> "cifar10" -> dataset a <> "cifar100" ->
  let r := main fw (start fw a environ) in
  ds_kind (trainset_of a) = CIFAR100 /\
  ds_kind (testset_of a) = CIFAR100 /\
  class_num_of a = 10 /\
  class_num_of a < num_labels (ds_kind (trainset_of a)) /\
  List.filter construction_event (trace r) `prefix_of` constructions a /\
  (result r = Ok tt ->
   List.filter construction_event (trace r) = constructions a).
Proof.
  intros H10 H100 r.
  apply String.eqb_neq in H10, H100.
  unfold trainset_of, testset_of, class_num_of. cbn [ds_kind].
  rewrite H10, H100. cbn [num_labels].
  split; [reflexivity|]. split; [reflexivity|]. split; [reflexivity|].
  split; [lia|].
  destruct (main_cases fw a environ) as
    [(out & e & Hres & Hd & Henv & Hout & Hrun)
    |[(grank & g' & Hres & Hmodel & Hrun)
     |(grank & g' & t & res & sf & Hres & Hmodel & Hrun & Hloop & _ & _ & _)]];
    fold r in Hrun; rewrite Hrun; cbn [trace result].
  - rewrite !List.filter_app, (neutral_no_construction out Hout).
    split; [eexists; reflexivity|discriminate].
  - split; [|discriminate].
    unfold data_stage_trace, ddp_block_trace, tracker_init_trace, data_trace.
    destruct (grank =? 0) eqn:Hg;
      (destruct (resolve_inv _ _ _ _ Hres) as [(Hd & (ws & Henv) & ->)|(Hd & -> & ->)];
       [|try discriminate Hg]);
      cbn [is_distributed set_global_rank]; rewrite Hd, ?Henv;
      eexists; reflexivity.
  - rewrite !List.filter_app, (loop_no_construction t Hloop).
    unfold setup_trace, data_stage_trace, ddp_block_trace, tracker_init_trace,
      data_trace, teardown_trace.
    destruct (grank =? 0) eqn:Hg;
      (destruct (resolve_inv _ _ _ _ Hres) as [(Hd & (ws & Henv) & ->)|(Hd & -> & ->)];
       [|try discriminate Hg]);
      cbn [is_distributed set_global_rank]; rewrite Hd, ?Henv;
      (split; [exists []|intros _]); destruct res as [[]|e];
      cbn; rewrite ?app_nil_r; reflexivity.
Qed.

End Properties.

(** ** Further properties of the scripts *)

Section Further.
Context (fw : Framework).

(** *** [init_ddp] *)

Lemma init_ddp_final (s : state fw) :
  final (init_ddp fw s) = with_environ s (nccl_environ (st_environ s)).
Proof.
  destruct (ddp_env fw (st_environ s)) as [[rank ws]|] eqn:Henv.
  - rewrite (init_ddp_run fw s rank ws Henv). reflexivity.
  - destruct (init_ddp_raises fw s Henv) as (out & e & -> & _). reflexivity.
Qed.

(** X1: [init_ddp] returns [(args.local_rank, int(RANK))] when [RANK] and
    [WORLD_SIZE] are both set and numeric, and otherwise raises the error
    of the first lookup or conversion that fails, [RANK] being read
    first; [init_process_group] is called, once and with the [nccl]
    backend, exactly when all four succeed. *)
Theorem X1_init_ddp_returns_or_raises (s : state fw) :
  result (init_ddp fw s) =
    match st_environ s !! "RANK" with
    | None => Raise (KeyError "RANK")
    | Some r =>
        match py_int fw r with
        | None => Raise (ValueError r)
        | Some rank =>
            match st_environ s !! "WORLD_SIZE" with
            | None => Raise (KeyError "WORLD_SIZE")
            | Some n =>
                match py_int fw n with
                | None => Raise (ValueError n)
                | Some world_size => Ok (local_rank (st_args s), rank)
                end
            end
        end
    end /\
  List.filter init_call (trace (init_ddp fw s)) =
    match ddp_env fw (st_environ s) with
    | Some (rank, world_size) => [InitProcessGroup "nccl" rank world_size]
    | None => []
    end.
Proof.
  destruct (ddp_env fw (st_environ s)) as [[rank ws]|] eqn:Henv.
  - rewrite (init_ddp_run fw s rank ws Henv). cbn [result trace].
    unfold ddp_env in Henv.
    destruct (st_environ s !! "RANK") as [r|]; [|discriminate].
    destruct (py_int fw r) as [rank'|]; [|discriminate].
    destruct (st_environ s !! "WORLD_SIZE") as [n|]; [|discriminate].
    destruct (py_int fw n) as [ws'|]; [|discriminate].
    injection Henv as -> ->. split; reflexivity.
  - unfold ddp_env in Henv. unfold init_ddp.
    erewrite bind_ok by reflexivity.
    erewrite bind_ok by reflexivity.
    cbn [trace result final environ_set app].
    destruct (st_environ s !! "RANK") as [r|] eqn:Hr.
    2:{ erewrite bind_raise.
        2:{ apply environ_get_raises. cbn [with_environ st_environ].
            etrans; [apply nccl_lookup; discriminate|exact Hr]. }
        split; reflexivity. }
    erewrite bind_ok.
    2:{ apply environ_get_run. cbn [with_environ st_environ].
        etrans; [apply nccl_lookup; discriminate|exact Hr]. }
    unfold int_of.
    destruct (py_int fw r) as [rank|] eqn:Hpr; [|split; reflexivity].
    erewrite bind_ok by reflexivity.
    erewrite bind_ok by reflexivity.
    destruct (st_environ s !! "WORLD_SIZE") as [n|] eqn:Hn.
    2:{ erewrite bind_raise.
        2:{ apply environ_get_raises. cbn [with_environ st_environ].
            etrans; [apply nccl_lookup; discriminate|exact Hn]. }
        split; reflexivity. }
    erewrite bind_ok.
    2:{ apply environ_get_run. cbn [with_environ st_environ].
        etrans; [apply nccl_lookup; discriminate|exact Hn]. }
    destruct (py_int fw n) as [ws|] eqn:Hpn; [discriminate|].
    split; reflexivity.
Qed.

(** X2: whether it returns or raises, [init_ddp] leaves [NCCL_DEBUG] set
    to [INFO] and [NCCL_SOCKET_IFNAME] to [ib0], overwriting what they
    held, and changes no other environment variable, nor [args], nor the
    model. *)
Theorem X2_init_ddp_sets_only_the_nccl_variables (s : state fw) :
  let s' := final (init_ddp fw s) in
  st_environ s' !! "NCCL_DEBUG" = Some "INFO" /\
  st_environ s' !! "NCCL_SOCKET_IFNAME" = Some "ib0" /\
  (forall k, k <> "NCCL_DEBUG" -> k <> "NCCL_SOCKET_IFNAME" ->
     st_environ s' !! k = st_environ s !! k) /\
  st_args s' = st_args s /\ st_model s' = st_model s /\
  st_passes s' = st_passes s.
Proof.
  cbv zeta. rewrite init_ddp_final.
  cbn [with_environ st_environ st_args st_model st_passes].
  split.
  { unfold nccl_environ. rewrite lookup_insert_ne by discriminate.
    apply lookup_insert_eq. }
  split; [apply lookup_insert_eq|].
  split; [|repeat split].
  intros k H1 H2. apply nccl_lookup; assumption.
Qed.

(** *** [train] *)

(** X3: on a model, [train] makes one pass over a new iteration of the
    training loader with exactly one optimisation step per batch, in the
    order [zero_grad], forward, backward, gradient clipping,
    [optimizer.step], [scheduler.step], and returns; the weights and the
    optimizer state it leaves are those of the successive steps, and
    [args] and the environment are untouched. *)
Theorem X3_train_one_optimisation_step_per_batch
    (epoch : Z) (train_dl : DataLoader) (tr : trainer fw) (s : state fw)
    (w : weights fw) :
  st_model s = Some w ->
  let bs := batches fw train_dl (st_passes s) in
  train fw epoch train_dl tr s =
    Run ([Call (FnTrain epoch); ModelTrain; Iterate train_dl] ++
         flat_map step_trace (seq 0 (length bs)) ++
         [Return (FnTrain epoch)])
        (Ok (fst (train_pass fw tr w bs)))
        {| st_args := st_args s; st_environ := st_environ s;
           st_model := Some (snd (train_pass fw tr w bs));
           st_passes := S (st_passes s) |}.
Proof.
  intros Hw bs. subst bs. rewrite (train_run fw epoch train_dl tr s w Hw).
  reflexivity.
Qed.

(** *** An evaluation pass without samples *)

Lemma n_seen_nonneg {A} (bs : list (list A)) : 0 <= n_seen bs.
Proof. unfold n_seen. lia. Qed.

Lemma infer_total_zero w (bs : list (list (tensor fw * Z))) :
  n_seen bs = 0 -> Qeq_bool (snd (fst (infer_sums fw w bs))) 0 = true.
Proof.
  intros Hz. destruct (infer_sums_spec fw w bs) as (_ & Ht & _).
  apply Qeq_bool_iff. rewrite Ht, Hz. reflexivity.
Qed.

Lemma eval_raises (epoch : Z) (train_dl test_dl : DataLoader) (s : state fw) w :
  st_model s = Some w ->
  let train_bs := batches fw train_dl (st_passes s) in
  let test_bs := batches fw test_dl (S (st_passes s)) in
  n_seen train_bs = 0 \/ n_seen test_bs = 0 ->
  eval fw epoch train_dl test_dl s =
    Run ([Call (FnEval epoch)] ++ infer_trace train_dl (length train_bs) ++
         infer_trace test_dl (length test_bs))
        (Raise ZeroDivisionError) (next_pass (next_pass s)).
Proof.
  intros Hw train_bs test_bs Hz. unfold eval.
  erewrite bind_ok by reflexivity.
  erewrite bind_ok by (apply _infer_run; exact Hw).
  fold train_bs.
  pose proof (infer_total_zero w train_bs) as Hz1.
  pose proof (infer_total_nonzero fw w train_bs) as Hn1.
  pose proof (infer_total_zero w test_bs) as Hz2.
  destruct (infer_sums fw w train_bs) as [[c1 t1] l1].
  erewrite bind_ok by (apply _infer_run; exact Hw).
  cbn [next_pass st_passes]. fold test_bs.
  destruct (infer_sums fw w test_bs) as [[c2 t2] l2].
  cbn [fst snd] in Hz1, Hn1, Hz2.
  unfold py_div.
  destruct (Z.eq_dec (n_seen train_bs) 0) as [H1|H1].
  - rewrite (Hz1 H1).
    cbn [bind raise trace result final app]. rewrite !app_nil_r. reflexivity.
  - destruct Hz as [Hz|Hz]; [contradiction|].
    rewrite Hn1 by (pose proof (n_seen_nonneg train_bs); lia).
    rewrite (Hz2 Hz).
    cbn [bind raise ret trace result final app]. rewrite !app_nil_r. reflexivity.
Qed.

(** X4: [eval] divides by the number of samples seen: when an iteration of
    either loader yields no sample it raises [ZeroDivisionError], after
    both evaluation passes have been made and before anything is
    reported; it returns exactly when both passes see a sample. *)
Theorem X4_eval_raises_on_an_empty_pass
    (epoch : Z) (train_dl test_dl : DataLoader) (s : state fw) (w : weights fw) :
  st_model s = Some w ->
  let train_bs := batches fw train_dl (st_passes s) in
  let test_bs := batches fw test_dl (S (st_passes s)) in
  let r := eval fw epoch train_dl test_dl s in
  (n_seen train_bs = 0 \/ n_seen test_bs = 0 ->
   r = Run ([Call (FnEval epoch)] ++ infer_trace train_dl (length train_bs) ++
            infer_trace test_dl (length test_bs))
           (Raise ZeroDivisionError) (next_pass (next_pass s))) /\
  (result r = Ok tt <-> 0 < n_seen train_bs /\ 0 < n_seen test_bs).
Proof.
  intros Hw train_bs test_bs r. subst r.
  split; [apply (eval_raises epoch train_dl test_dl s w Hw)|].
  split.
  - intros Hok.
    pose proof (n_seen_nonneg train_bs). pose proof (n_seen_nonneg test_bs).
    destruct (Z.eq_dec (n_seen train_bs) 0) as [H1|H1].
    { rewrite (eval_raises epoch train_dl test_dl s w Hw (or_introl H1)) in Hok.
      discriminate. }
    destruct (Z.eq_dec (n_seen test_bs) 0) as [H2|H2].
    { rewrite (eval_raises epoch train_dl test_dl s w Hw (or_intror H2)) in Hok.
      discriminate. }
    lia.
  - intros [H1 H2]. rewrite (eval_run fw epoch train_dl test_dl s w Hw H1 H2).
    reflexivity.
Qed.


(** *** Invariants of a computation *)

Section Respects.
Context (Inv : state fw -> Prop) (P : event -> Prop).

Lemma respects_ret {A} (Q : A -> Prop) a : Q a -> respects fw Inv P (ret a) Q.
Proof. intros H s Hs. split; [constructor|split; assumption]. Qed.

Lemma respects_raise {A} (Q : A -> Prop) e : respects fw Inv P (raise e) Q.
Proof. intros s Hs. split; [constructor|split; [exact Hs|exact I]]. Qed.

Lemma respects_emit (Q : unit -> Prop) e :
  P e -> Q tt -> respects fw Inv P (emit fw e) Q.
Proof.
  intros H HQ s Hs. split; [repeat constructor; exact H|split; assumption].
Qed.

Lemma respects_bind {A B} (m : M fw A) (f : A -> M fw B) Q R :
  respects fw Inv P m Q -> (forall a, Q a -> respects fw Inv P (f a) R) ->
  respects fw Inv P (bind m f) R.
Proof.
  intros Hm Hf s Hs. unfold bind. destruct (Hm s Hs) as (Ht & Hi & Hq).
  destruct (m s) as [t [a|e] s']; cbn [trace result final] in *.
  - destruct (Hf a Hq s' Hi) as (Ht' & Hi' & Hr).
    split; [apply Forall_app; split; assumption|split; assumption].
  - split; [exact Ht|split; [exact Hi|exact I]].
Qed.

Lemma respects_get_args (Q : Namespace -> Prop) :
  (forall s, Inv s -> Q (st_args s)) -> respects fw Inv P (get_args fw) Q.
Proof. intros H s Hs. split; [constructor|split; [exact Hs|apply H; exact Hs]]. Qed.

Lemma respects_get_model :
  respects fw Inv P (get_model fw) (fun _ => True).
Proof.
  intros s Hs. unfold get_model.
  destruct (st_model s); (split; [constructor|split; [exact Hs|exact I]]).
Qed.

Lemma respects_model_method e :
  P e -> respects fw Inv P (model_method fw e) (fun _ => True).
Proof.
  intros H. unfold model_method.
  eapply respects_bind; [apply respects_get_model|intros w _].
  eapply respects_bind;
    [apply (respects_emit (fun _ => True)); [exact H|exact I]|intros _ _].
  apply respects_ret. exact I.
Qed.

Lemma respects_iterate l :
  P (Iterate l) -> (forall s, Inv s -> Inv (next_pass s)) ->
  respects fw Inv P (iterate fw l) (fun _ => True).
Proof.
  intros H Hn s Hs.
  split; [repeat constructor; exact H|split; [apply Hn; exact Hs|exact I]].
Qed.

Lemma respects_set_model w :
  (forall s, Inv s -> Inv (with_model s w)) ->
  respects fw Inv P (set_model fw w) (fun _ => True).
Proof.
  intros Hn s Hs. split; [constructor|split; [apply Hn; exact Hs|exact I]].
Qed.

Lemma respects_py_div x y : respects fw Inv P (py_div fw x y) (fun _ => True).
Proof.
  unfold py_div.
  destruct (Qeq_bool y 0); [apply respects_raise|apply respects_ret; exact I].
Qed.

Lemma respects_when b m :
  (b = true -> respects fw Inv P m (fun _ => True)) ->
  respects fw Inv P (when fw b m) (fun _ => True).
Proof.
  intros H. destruct b; [apply H; reflexivity|apply respects_ret; exact I].
Qed.

Lemma respects_for_fold {A S} (body : S -> A -> M fw S) l :
  (forall acc x, respects fw Inv P (body acc x) (fun _ => True)) ->
  forall acc, respects fw Inv P (for_fold body l acc) (fun _ => True).
Proof.
  intros Hbody. induction l as [|x l IH]; intros acc; cbn [for_fold].
  - apply respects_ret. exact I.
  - eapply respects_bind; [apply Hbody|intros acc' _; apply IH].
Qed.

End Respects.

(** The next call of a sequence, and a call that is recorded. *)
Ltac next := eapply respects_bind; [|intros ? _].
Ltac emitted := apply (respects_emit _ _ (fun _ => True)); [|exact I].

(** *** Evaluation leaves the parameters as they are *)

Lemma _infer_keeps (s0 : state fw) data :
  respects fw
    (fun s => st_model s = st_model s0 /\ st_args s = st_args s0 /\
              st_environ s = st_environ s0)
    passive (_infer fw data) (fun _ => True).
Proof.
  unfold _infer.
  next; [apply respects_model_method; split; [reflexivity|discriminate]|].
  next; [emitted; split; [reflexivity|discriminate]|].
  next; [apply respects_iterate;
           [split; [reflexivity|discriminate]|intros s H; exact H]|].
  apply respects_for_fold. intros [[c t] l] [i b].
  next; [apply respects_model_method; split; [reflexivity|discriminate]|].
  apply respects_ret. exact I.
Qed.

Lemma eval_keeps (s0 : state fw) epoch train_dl test_dl :
  respects fw
    (fun s => st_model s = st_model s0 /\ st_args s = st_args s0 /\
              st_environ s = st_environ s0)
    passive (eval fw epoch train_dl test_dl) (fun _ => True).
Proof.
  unfold eval.
  next; [emitted; split; [reflexivity|discriminate]|].
  eapply respects_bind; [apply _infer_keeps|intros [[c1 t1] l1] _].
  eapply respects_bind; [apply _infer_keeps|intros [[c2 t2] l2] _].
  do 4 (next; [apply respects_py_div|]).
  next; [apply (respects_get_args _ _ (fun _ => True)); intros; exact I|].
  eapply respects_bind.
  { apply respects_when. intros _.
    repeat (next; [emitted; split; [reflexivity|discriminate]|]).
    emitted; split; [reflexivity|discriminate]. }
  intros ? _.
  emitted; split; [reflexivity|discriminate].
Qed.

(** X5: evaluation never touches the parameters: [_infer] and [eval] make
    no call that creates, loads or updates weights and leave the
    parameters, [args] and the environment as they were, from any state
    and whether they return or raise.  What they do change is the mode of
    the module: on a model, the first call of [_infer] is [model.eval()],
    and neither function switches the module back to training mode. *)
Theorem X5_evaluation_leaves_the_parameters_unchanged
    (epoch : Z) (train_dl test_dl data : DataLoader) (s : state fw) :
  let r1 := _infer fw data s in
  let r2 := eval fw epoch train_dl test_dl s in
  (Forall (fun e => weight_event e = false /\ e <> ModelTrain) (trace r1) /\
   st_model (final r1) = st_model s /\ st_args (final r1) = st_args s /\
   st_environ (final r1) = st_environ s) /\
  (Forall (fun e => weight_event e = false /\ e <> ModelTrain) (trace r2) /\
   st_model (final r2) = st_model s /\ st_args (final r2) = st_args s /\
   st_environ (final r2) = st_environ s) /\
  (forall w, st_model s = Some w ->
     (exists t, trace r1 = ModelEval :: t) /\
     (exists t, trace r2 = Call (FnEval epoch) :: ModelEval :: t)).
Proof.
  cbv zeta. split; [|split].
  - destruct (_infer_keeps s data s) as (Ht & Hi & _); [auto|].
    split; assumption.
  - destruct (eval_keeps s epoch train_dl test_dl s) as (Ht & Hi & _); [auto|].
    split; assumption.
  - intros w Hw. split.
    + rewrite (_infer_run fw data s w Hw). eexists. reflexivity.
    + unfold eval. erewrite bind_ok by reflexivity.
      unfold bind at 1. rewrite (_infer_run fw train_dl s w Hw).
      cbn [trace result final emit st_model].
      destruct (infer_sums fw w (batches fw train_dl (st_passes s)))
        as [[c1 t1] l1].
      match goal with
      | |- exists t, _ ++ _ ++ trace ?r = _ => destruct r as [t0 res sf]
      end.
      eexists. reflexivity.
Qed.

(** *** Reports and the global rank *)

Lemma train_respects_rank a epoch train_dl tr :
  respects fw (fun s => st_args s = a)
    (fun e => wandb_log_call e = true -> global_rank a = 0)
    (train fw epoch train_dl tr) (fun _ => True).
Proof.
  assert (Hemit : forall e, wandb_log_call e = false ->
            respects fw (fun s => st_args s = a)
              (fun e => wandb_log_call e = true -> global_rank a = 0)
              (emit fw e) (fun _ => True)).
  { intros e He. apply respects_emit; [rewrite He; discriminate|exact I]. }
  assert (Hmm : forall e, wandb_log_call e = false ->
            respects fw (fun s => st_args s = a)
              (fun e => wandb_log_call e = true -> global_rank a = 0)
              (model_method fw e) (fun _ => True)).
  { intros e He. apply respects_model_method. rewrite He. discriminate. }
  unfold train.
  next; [apply Hemit; reflexivity|].
  next; [apply Hmm; reflexivity|].
  next; [apply respects_iterate; [discriminate|intros s H; exact H]|].
  eapply respects_bind.
  { apply respects_for_fold. intros tr0 [i b].
    next; [apply Hemit; reflexivity|].
    eapply respects_bind; [apply Hmm; reflexivity|intros w _].
    next; [apply Hemit; reflexivity|].
    next; [apply Hemit; reflexivity|].
    destruct (train_step fw tr0 w b) as [tr1 w1].
    next; [apply Hemit; reflexivity|].
    next; [apply respects_set_model; intros s H; exact H|].
    next; [apply Hemit; reflexivity|].
    apply respects_ret. exact I. }
  intros tr' _.
  next; [apply Hemit; reflexivity|].
  apply respects_ret. exact I.
Qed.

Lemma _infer_respects_rank a data :
  respects fw (fun s => st_args s = a)
    (fun e => wandb_log_call e = true -> global_rank a = 0)
    (_infer fw data) (fun _ => True).
Proof.
  unfold _infer.
  next; [apply respects_model_method; discriminate|].
  next; [emitted; discriminate|].
  next; [apply respects_iterate; [discriminate|intros s H; exact H]|].
  apply respects_for_fold. intros [[c t] l] [i b].
  next; [apply respects_model_method; discriminate|].
  apply respects_ret. exact I.
Qed.

Lemma eval_respects_rank a epoch train_dl test_dl :
  respects fw (fun s => st_args s = a)
    (fun e => wandb_log_call e = true -> global_rank a = 0)
    (eval fw epoch train_dl test_dl) (fun _ => True).
Proof.
  unfold eval.
  next; [emitted; discriminate|].
  eapply respects_bind; [apply _infer_respects_rank|intros [[c1 t1] l1] _].
  eapply respects_bind; [apply _infer_respects_rank|intros [[c2 t2] l2] _].
  do 4 (next; [apply respects_py_div|]).
  eapply respects_bind;
    [apply (respects_get_args _ _ (fun args => args = a)); intros s H; exact H
    |intros args ->].
  eapply respects_bind.
  { apply respects_when. intros H0%Z.eqb_eq.
    repeat (next; [emitted; intros _; exact H0|]).
    emitted; intros _; exact H0. }
  intros ? _.
  emitted; discriminate.
Qed.

Lemma train_and_eval_respects_rank a m train_dl test_dl :
  respects fw (fun s => st_args s = a)
    (fun e => wandb_log_call e = true -> global_rank a = 0)
    (train_and_eval fw m train_dl test_dl) (fun _ => True).
Proof.
  unfold train_and_eval.
  next; [apply (respects_get_args _ _ (fun _ => True)); intros; exact I|].
  next; [emitted; discriminate|].
  eapply respects_bind; [apply respects_get_model|intros w _].
  next; [emitted; discriminate|].
  next; [emitted; discriminate|].
  eapply respects_bind.
  { apply respects_for_fold. intros tr e.
    eapply respects_bind; [apply train_respects_rank|intros tr' _].
    next; [apply eval_respects_rank|].
    apply respects_ret. exact I. }
  intros ? _. apply respects_ret. exact I.
Qed.

(** *** The epoch loop, exactly *)

Lemma epochs_exact (train_dl test_dl : DataLoader) body :
  feeds fw train_dl -> feeds fw test_dl ->
  (forall tr e (s : state fw),
     body tr e s =
       bind (train fw e train_dl tr)
         (fun tr' => bind (eval fw e train_dl test_dl) (fun _ => ret tr')) s) ->
  forall es tr (s : state fw) w,
  st_model s = Some w ->
  for_fold body es tr s =
    Run (epochs_trace fw train_dl test_dl (global_rank (st_args s) =? 0) tr w
           (st_passes s) es)
        (Ok (fst (train_epochs fw train_dl tr w (st_passes s) (length es))))
        {| st_args := st_args s; st_environ := st_environ s;
           st_model :=
             Some (snd (train_epochs fw train_dl tr w (st_passes s) (length es)));
           st_passes := (3 * length es + st_passes s)%nat |}.
Proof.
  intros Hf1 Hf2 Hbody.
  induction es as [|e es IH]; intros tr s w Hw.
  - cbn. destruct s; cbn in *. subst. reflexivity.
  - cbn [for_fold epochs_trace train_epochs length].
    erewrite bind_ok.
    2:{ rewrite Hbody. erewrite bind_ok by (apply train_run; exact Hw).
        erewrite bind_ok.
        2:{ apply eval_run
              with (w := snd (train_pass fw tr w (batches fw train_dl (st_passes s)))).
            - reflexivity.
            - apply Hf1.
            - apply Hf2. }
        cbn [ret trace result final]. rewrite app_nil_r. reflexivity. }
    cbn [trace result final].
    destruct (train_pass fw tr w (batches fw train_dl (st_passes s)))
      as [tr1 w1] eqn:Hpass.
    cbn [fst snd st_args st_passes next_pass with_model].
    erewrite IH by reflexivity.
    cbn [trace result final st_args st_environ st_model st_passes next_pass
         with_model Nat.add].
    rewrite <- app_assoc.
    f_equal. f_equal. lia.
Qed.

Lemma train_and_eval_exact m (train_dl test_dl : DataLoader) (s : state fw) w :
  st_model s = Some w ->
  feeds fw train_dl -> feeds fw test_dl ->
  let a := st_args s in
  let tr := new_trainer fw (optimizer_of a) (scheduler_of a) w in
  let es := range (epochs a) in
  train_and_eval fw m train_dl test_dl s =
    Run ([NewCriterion; NewOptimizer (optimizer_of a);
          NewScheduler (scheduler_of a)] ++
         epochs_trace fw train_dl test_dl (global_rank a =? 0) tr w
           (st_passes s) es)
        (Ok tt)
        {| st_args := a; st_environ := st_environ s;
           st_model :=
             Some (snd (train_epochs fw train_dl tr w (st_passes s) (length es)));
           st_passes := (3 * length es + st_passes s)%nat |}.
Proof.
  intros Hw Hf1 Hf2 a tr es. unfold train_and_eval.
  erewrite bind_ok by reflexivity.
  erewrite bind_ok by reflexivity.
  erewrite bind_ok by (unfold get_model; rewrite Hw; reflexivity).
  erewrite bind_ok by reflexivity.
  erewrite bind_ok by reflexivity.
  erewrite bind_ok.
  2:{ apply (epochs_exact train_dl test_dl _ Hf1 Hf2 (fun _ _ _ => eq_refl)).
      exact Hw. }
  cbn [trace result final app ret get_args emit st_args].
  rewrite app_nil_r. reflexivity.
Qed.

(** *** Projections of the loop's calls *)

Lemma range_seq n : range n = map Z.of_nat (seq 0 (Z.to_nat n)).
Proof. reflexivity. Qed.

Lemma range_len n : length (range n) = Z.to_nat n.
Proof. unfold range. rewrite length_map, length_seq. reflexivity. Qed.

Lemma train_epochs_snoc train_dl : forall n tr (w : weights fw) p,
  train_epochs fw train_dl tr w p (S n) =
    train_pass fw (fst (train_epochs fw train_dl tr w p n))
      (snd (train_epochs fw train_dl tr w p n))
      (batches fw train_dl (3 * n + p)).
Proof.
  induction n as [|n IH]; intros tr w p.
  - cbn. destruct (train_pass fw tr w (batches fw train_dl p)); reflexivity.
  - change (train_epochs fw train_dl tr w p (S (S n)))
      with (let '(tr', w') := train_pass fw tr w (batches fw train_dl p) in
            train_epochs fw train_dl tr' w' (3 + p) (S n)).
    change (train_epochs fw train_dl tr w p (S n))
      with (let '(tr', w') := train_pass fw tr w (batches fw train_dl p) in
            train_epochs fw train_dl tr' w' (3 + p) n).
    destruct (train_pass fw tr w (batches fw train_dl p)) as [tr1 w1].
    rewrite IH. do 2 f_equal. lia.
Qed.

Lemma filter_steps_none (p : event -> bool) l :
  (forall i, Forall (fun e => p e = false) (step_trace i)) ->
  List.filter p (flat_map step_trace l) = [].
Proof.
  intros H. induction l as [|i l IH]; [reflexivity|].
  cbn [flat_map]. rewrite List.filter_app, IH, app_nil_r.
  specialize (H i). induction H as [|e t He _ IHt]; [reflexivity|].
  cbn [List.filter]. rewrite He. exact IHt.
Qed.

Lemma filter_forwards_none (p : event -> bool) l :
  (forall i, p (Forward i) = false) -> List.filter p (map Forward l) = [].
Proof.
  intros H. induction l as [|i l IH]; [reflexivity|].
  cbn [map List.filter]. rewrite H. exact IH.
Qed.

Lemma filter_sched_steps l :
  List.filter scheduler_step (flat_map step_trace l) = repeat SchedulerStep (length l).
Proof.
  induction l as [|i l IH]; [reflexivity|].
  cbn [flat_map length repeat]. rewrite List.filter_app, IH. reflexivity.
Qed.

Lemma metric_logs_tracker e m :
  List.filter wandb_log_call (metric_logs e m) = tracker_logs e m.
Proof. destruct m as [[[? ?] ?] ?]. reflexivity. Qed.

Lemma metric_logs_no_iterate e m : List.filter iterate_call (metric_logs e m) = [].
Proof. destruct m as [[[? ?] ?] ?]. reflexivity. Qed.

Lemma metric_logs_no_sched e m : List.filter scheduler_step (metric_logs e m) = [].
Proof. destruct m as [[[? ?] ?] ?]. reflexivity. Qed.

Lemma epochs_trace_iterations train_dl test_dl rank0 :
  forall es tr (w : weights fw) p,
  List.filter iterate_call (epochs_trace fw train_dl test_dl rank0 tr w p es) =
    concat (repeat [Iterate train_dl; Iterate train_dl; Iterate test_dl] (length es)).
Proof.
  induction es as [|e es IH]; intros tr w p; [reflexivity|].
  cbn [epochs_trace length repeat concat].
  destruct (train_pass fw tr w (batches fw train_dl p)) as [tr1 w1].
  unfold train_trace, eval_trace, infer_trace.
  rewrite !List.filter_app, IH.
  rewrite filter_steps_none by (intros i; repeat constructor).
  rewrite !filter_forwards_none by reflexivity.
  destruct rank0; [rewrite metric_logs_no_iterate|]; reflexivity.
Qed.

Lemma epochs_trace_sched_steps train_dl test_dl rank0 :
  forall es tr (w : weights fw) p,
  List.filter scheduler_step (epochs_trace fw train_dl test_dl rank0 tr w p es) =
    repeat SchedulerStep (total_batches fw train_dl p (length es)).
Proof.
  induction es as [|e es IH]; intros tr w p; [reflexivity|].
  cbn [epochs_trace length total_batches].
  destruct (train_pass fw tr w (batches fw train_dl p)) as [tr1 w1].
  unfold train_trace, eval_trace, infer_trace.
  rewrite !List.filter_app, IH.
  rewrite filter_sched_steps, length_seq.
  rewrite !filter_forwards_none by reflexivity.
  rewrite repeat_app.
  destruct rank0; [rewrite metric_logs_no_sched|];
    cbn [List.filter scheduler_step app]; rewrite app_nil_r; reflexivity.
Qed.

Lemma epochs_trace_reports train_dl test_dl tr0 (w0 : weights fw) p0 :
  forall n i tr w,
  train_epochs fw train_dl tr0 w0 p0 i = (tr, w) ->
  List.filter wandb_log_call
    (epochs_trace fw train_dl test_dl true tr w (3 * i + p0)
       (map Z.of_nat (seq i n))) =
  flat_map (fun k => tracker_logs (Z.of_nat k)
                       (epoch_report fw train_dl test_dl tr0 w0 p0 k))
    (seq i n).
Proof.
  induction n as [|n IH]; intros i tr w Hi; [reflexivity|].
  cbn [seq map epochs_trace flat_map].
  pose proof (train_epochs_snoc train_dl i tr0 w0 p0) as Hs.
  rewrite Hi in Hs. cbn [fst snd] in Hs.
  destruct (train_pass fw tr w (batches fw train_dl (3 * i + p0))) as [tr1 w1].
  unfold train_trace, eval_trace, infer_trace.
  rewrite !List.filter_app.
  rewrite filter_steps_none by (intros j; repeat constructor).
  rewrite !filter_forwards_none by reflexivity.
  rewrite metric_logs_tracker.
  replace (3 + (3 * i + p0))%nat with (3 * S i + p0)%nat by lia.
  rewrite (IH (S i) tr1 w1 Hs).
  unfold epoch_report at 2. rewrite Hs.
  cbn [snd app List.filter wandb_log_call]. rewrite app_nil_r.
  replace (1 + (3 * i + p0))%nat with (3 * i + 1 + p0)%nat by lia.
  replace (2 + (3 * i + p0))%nat with (3 * i + 2 + p0)%nat by lia.
  reflexivity.
Qed.

Lemma total_batches_uniform train_dl b :
  (forall k, length (batches fw train_dl k) = b) ->
  forall n p, total_batches fw train_dl p n = (n * b)%nat.
Proof.
  intros Hb. induction n as [|n IH]; intros p; [reflexivity|].
  cbn [total_batches]. rewrite Hb, IH. lia.
Qed.

Lemma total_batches_lower train_dl b :
  (forall k, (b <= length (batches fw train_dl k))%nat) ->
  forall n p, (n * b <= total_batches fw train_dl p n)%nat.
Proof.
  intros Hb. induction n as [|n IH]; intros p; [reflexivity|].
  cbn [total_batches]. specialize (Hb p). specialize (IH (3 + p)%nat). lia.
Qed.

(** X6: when every loader iteration yields a sample, [train_and_eval]
    returns with the weights of [epochs] successive training passes, each
    on a new iteration of the training loader; an epoch iterates the
    training loader twice (to train, then to evaluate) and the test loader
    once, so the pass of epoch [k] is iteration [3 k] of the loaders;
    [args] and the environment are left as they were. *)
Theorem X6_train_and_eval_final_weights
    (m : module_ref) (train_dl test_dl : DataLoader) (s : state fw)
    (w : weights fw) :
  st_model s = Some w ->
  feeds fw train_dl -> feeds fw test_dl ->
  let r := train_and_eval fw m train_dl test_dl s in
  let a := st_args s in
  let n := Z.to_nat (epochs a) in
  let tr := new_trainer fw (optimizer_of a) (scheduler_of a) w in
  result r = Ok tt /\
  st_model (final r) = Some (snd (train_epochs fw train_dl tr w (st_passes s) n)) /\
  (forall k,
     train_epochs fw train_dl tr w (st_passes s) (S k) =
       train_pass fw (fst (train_epochs fw train_dl tr w (st_passes s) k))
         (snd (train_epochs fw train_dl tr w (st_passes s) k))
         (batches fw train_dl (3 * k + st_passes s))) /\
  st_passes (final r) = (3 * n + st_passes s)%nat /\
  List.filter iterate_call (trace r) =
    concat (repeat [Iterate train_dl; Iterate train_dl; Iterate test_dl] n) /\
  st_args (final r) = a /\ st_environ (final r) = st_environ s.
Proof.
  intros Hw Hf1 Hf2 r a n tr. subst r.
  rewrite (train_and_eval_exact m train_dl test_dl s w Hw Hf1 Hf2).
  cbn [trace result final st_args st_environ st_model st_passes].
  rewrite range_len. fold a n tr.
  split; [reflexivity|]. split; [reflexivity|].
  split; [intros k; apply train_epochs_snoc|].
  split; [reflexivity|].
  split; [|split; reflexivity].
  rewrite List.filter_app, epochs_trace_iterations, range_len. reflexivity.
Qed.

(** X7: the learning-rate schedule is created with [t_total = args.epochs]
    but stepped once per training batch: a run makes as many scheduler
    steps as it trains batches, which is [epochs * b] when every pass has
    [b] batches, and more than [t_total] as soon as every pass has two
    batches. *)
Theorem X7_scheduler_stepped_per_batch
    (m : module_ref) (train_dl test_dl : DataLoader) (s : state fw)
    (w : weights fw) :
  st_model s = Some w ->
  feeds fw train_dl -> feeds fw test_dl ->
  let r := train_and_eval fw m train_dl test_dl s in
  let a := st_args s in
  let n := Z.to_nat (epochs a) in
  let steps := total_batches fw train_dl (st_passes s) n in
  In (NewScheduler (scheduler_of a)) (trace r) /\
  t_total_of (scheduler_of a) = epochs a /\
  List.filter scheduler_step (trace r) = repeat SchedulerStep steps /\
  (forall b, (forall k, length (batches fw train_dl k) = b) ->
     steps = (n * b)%nat) /\
  ((forall k, (2 <= length (batches fw train_dl k))%nat) -> 0 < epochs a ->
   t_total_of (scheduler_of a) < Z.of_nat steps).
Proof.
  intros Hw Hf1 Hf2 r a n steps. subst r.
  rewrite (train_and_eval_exact m train_dl test_dl s w Hw Hf1 Hf2).
  cbn [trace]. fold a.
  assert (Ht : t_total_of (scheduler_of a) = epochs a).
  { unfold scheduler_of. destruct (String.eqb (decay_type a) "cosine"); reflexivity. }
  split; [cbn; auto|]. split; [exact Ht|].
  split.
  { rewrite List.filter_app, epochs_trace_sched_steps, range_len. reflexivity. }
  split.
  { intros b Hb. apply total_batches_uniform. exact Hb. }
  intros Hb Hpos. rewrite Ht.
  pose proof (total_batches_lower train_dl 2 Hb n (st_passes s)) as Hlow.
  fold steps in Hlow. subst n. lia.
Qed.

(** X8: with global rank 0, the tracker receives for each epoch [k] the
    four metrics of the weights as they are after the training pass of
    that epoch, computed on iteration [3 k + 1] of the training loader
    and iteration [3 k + 2] of the test loader, not on the batches just
    trained on. *)
Theorem X8_logged_metrics_are_of_the_trained_weights
    (m : module_ref) (train_dl test_dl : DataLoader) (s : state fw)
    (w : weights fw) :
  st_model s = Some w ->
  feeds fw train_dl -> feeds fw test_dl ->
  global_rank (st_args s) = 0 ->
  let r := train_and_eval fw m train_dl test_dl s in
  let a := st_args s in
  let tr := new_trainer fw (optimizer_of a) (scheduler_of a) w in
  List.filter wandb_log_call (trace r) =
    flat_map
      (fun k => tracker_logs (Z.of_nat k)
                  (epoch_report fw train_dl test_dl tr w (st_passes s) k))
      (seq 0 (Z.to_nat (epochs a))).
Proof.
  intros Hw Hf1 Hf2 Hrank r a tr. subst r.
  rewrite (train_and_eval_exact m train_dl test_dl s w Hw Hf1 Hf2).
  cbn [trace]. fold a tr. unfold a at 3. rewrite Hrank.
  change (0 =? 0) with true.
  rewrite List.filter_app. cbn [List.filter wandb_log_call app].
  rewrite range_seq.
  apply (epochs_trace_reports train_dl test_dl tr w (st_passes s)
           (Z.to_nat (epochs a)) 0 tr w).
  reflexivity.
Qed.

(** *** The main script *)

Lemma filter_none (p : event -> bool) t :
  Forall (fun e => p e = false) t -> List.filter p t = [].
Proof.
  induction 1 as [|e t He _ IH]; [reflexivity|].
  cbn [List.filter]. rewrite He. exact IH.
Qed.

Lemma loop_filter_none (p : event -> bool) t :
  (forall e, loop_event e = true -> p e = false) ->
  Forall (fun e => loop_event e = true) t -> List.filter p t = [].
Proof.
  intros Hp Ht. apply filter_none.
  eapply List.Forall_impl; [|exact Ht]. exact Hp.
Qed.

Lemma neutral_tracker_init out :
  Forall neutral out -> List.filter wandb_init_call out = [].
Proof.
  intros H. apply filter_none. eapply List.Forall_impl; [|exact H].
  intros e (_ & _ & _ & Hi & _). exact Hi.
Qed.

Lemma neutral_tracker_log out :
  Forall neutral out -> List.filter wandb_log_call out = [].
Proof.
  intros H. apply filter_none. eapply List.Forall_impl; [|exact H].
  intros e (_ & _ & _ & _ & Hl). exact Hl.
Qed.

Lemma data_trace_filter (p : event -> bool) a :
  p Barrier = false ->
  (forall d, p (NewDataset d) = false) ->
  (forall k d, p (NewSampler k d) = false) ->
  (forall l, p (NewDataLoader l) = false) ->
  List.filter p (data_trace a) = [].
Proof.
  intros Hb Hd Hs Hl. unfold data_trace.
  destruct (is_distributed a =? 1); cbn [app List.filter];
    rewrite ?Hb, ?Hd, ?Hs, ?Hl; reflexivity.
Qed.

Lemma ddp_block_filter (p : event -> bool) a environ :
  (forall k v, p (EnvironSet k v) = false) ->
  (forall m, p (Print m) = false) ->
  (forall b r n, p (InitProcessGroup b r n) = false) ->
  List.filter p (ddp_block_trace fw a environ) = [].
Proof.
  intros He Hp Hi. unfold ddp_block_trace.
  destruct (is_distributed a =? 1); [|reflexivity].
  destruct (ddp_env fw environ) as [[rank ws]|]; [|reflexivity].
  unfold init_ddp_trace. cbn [List.filter]. rewrite !He, !Hp, Hi. reflexivity.
Qed.

Lemma teardown_filter (p : event -> bool) a :
  p DestroyProcessGroup = false -> List.filter p (teardown_trace a) = [].
Proof.
  intros H. unfold teardown_trace.
  destruct (is_distributed a =? 1); [|reflexivity].
  cbn [List.filter]. rewrite H. reflexivity.
Qed.

Lemma wrap_filter (p : event -> bool) (b : bool) l :
  p (WrapDDP l) = false -> List.filter p (if b then [WrapDDP l] else []) = [].
Proof.
  intros H. destruct b; [|reflexivity].
  cbn [List.filter]. rewrite H. reflexivity.
Qed.

Lemma tracker_init_filter (p : event -> bool) g a :
  (forall pr n l c, p (WandbInit pr n l c) = false) ->
  List.filter p (tracker_init_trace g a) = [].
Proof.
  intros H. unfold tracker_init_trace. destruct (g =? 0); [|reflexivity].
  cbn [List.filter]. rewrite H. reflexivity.
Qed.

Lemma tracker_init_filter_self g a :
  List.filter wandb_init_call (tracker_init_trace g a) = tracker_init_trace g a.
Proof. unfold tracker_init_trace. destruct (g =? 0); reflexivity. Qed.

Lemma data_stage_tracker_init a environ grank a' :
  List.filter wandb_init_call (data_stage_trace fw a environ grank a') =
  tracker_init_trace grank a'.
Proof.
  unfold data_stage_trace. rewrite !List.filter_app.
  rewrite ddp_block_filter by reflexivity.
  rewrite data_trace_filter by reflexivity.
  rewrite tracker_init_filter_self.
  cbn [preamble_trace List.filter wandb_init_call app].
  rewrite app_nil_r. reflexivity.
Qed.

Lemma setup_tracker_init a environ grank a' :
  List.filter wandb_init_call (setup_trace fw a environ grank a') =
  tracker_init_trace grank a'.
Proof.
  unfold setup_trace. rewrite !List.filter_app, data_stage_tracker_init.
  rewrite wrap_filter by reflexivity.
  cbn [model_trace List.filter wandb_init_call app].
  rewrite !app_nil_r. reflexivity.
Qed.

Lemma setup_no_teardown a environ grank a' :
  List.filter teardown_call (setup_trace fw a environ grank a') = [].
Proof.
  unfold setup_trace, data_stage_trace. rewrite !List.filter_app.
  rewrite ddp_block_filter by reflexivity.
  rewrite data_trace_filter by reflexivity.
  rewrite tracker_init_filter by reflexivity.
  rewrite wrap_filter by reflexivity.
  reflexivity.
Qed.

Lemma loop_event_cases (p : event -> bool) e :
  loop_event e = true ->
  p NewCriterion = false -> (forall c, p (NewOptimizer c) = false) ->
  (forall c, p (NewScheduler c) = false) -> p ModelTrain = false ->
  p ModelEval = false -> (forall l, p (Iterate l) = false) ->
  p ZeroGrad = false -> (forall i, p (Forward i) = false) ->
  p Backward = false -> p ClipGradNorm = false -> p OptimizerStep = false ->
  p SchedulerStep = false -> (forall f, p (Call f) = false) ->
  (forall f, p (Return f) = false) -> (forall k v r, p (WandbLog k v r) = false) ->
  (forall m, p (LoggingInfo m) = false) ->
  p e = false.
Proof.
  intros He. destruct e; try discriminate He; auto.
Qed.

(** X9: the process group is destroyed only by a distributed run whose
    epoch loop returns: a run that raises, at whatever point, never calls
    [destroy_process_group], also when [init_process_group] had been
    called. *)
Theorem X9_process_group_destroyed_only_on_return a environ :
  let r := main fw (start fw a environ) in
  List.filter teardown_call (trace r) =
    match result r with
    | Ok _ => if is_distributed a =? 1 then [DestroyProcessGroup] else []
    | Raise _ => []
    end.
Proof.
  cbv zeta.
  destruct (main_cases fw a environ) as
    [(out & e & _ & _ & _ & Hout & ->)
    |[(grank & g' & _ & _ & ->)
     |(grank & g' & t & res & sf & _ & _ & -> & Hloop & _)]];
    cbn [trace result].
  - rewrite !List.filter_app.
    rewrite (filter_none teardown_call out).
    2:{ eapply List.Forall_impl; [|exact Hout]. intros ev (Hs & _).
        destruct ev; try reflexivity; discriminate Hs. }
    reflexivity.
  - rewrite !List.filter_app. unfold data_stage_trace. rewrite !List.filter_app.
    rewrite ddp_block_filter by reflexivity.
    rewrite data_trace_filter by reflexivity.
    rewrite tracker_init_filter by reflexivity.
    reflexivity.
  - rewrite !List.filter_app, setup_no_teardown.
    rewrite (loop_filter_none teardown_call t) by
      (exact Hloop || (intros ev Hev; apply loop_event_cases; auto)).
    destruct res as [[]|e]; [|reflexivity].
    unfold teardown_trace. destruct (is_distributed a =? 1); reflexivity.
Qed.

Lemma data_stage_not_loop a environ grank a' :
  Forall (fun e => loop_event e = false /\ weight_event e = false)
    (data_stage_trace fw a environ grank a').
Proof.
  unfold data_stage_trace, ddp_block_trace, tracker_init_trace, data_trace,
    preamble_trace, init_ddp_trace.
  destruct (is_distributed a =? 1); [destruct (ddp_env fw environ) as [[rank ws]|]|];
    destruct (grank =? 0); destruct (is_distributed a' =? 1);
    cbn [app]; repeat constructor.
Qed.

Lemma setup_not_loop a environ grank a' :
  Forall (fun e => loop_event e = false) (setup_trace fw a environ grank a').
Proof.
  unfold setup_trace. rewrite !Forall_app.
  split; [|split].
  - eapply List.Forall_impl; [|apply data_stage_not_loop]. intros e [H _]. exact H.
  - unfold model_trace. repeat constructor.
  - destruct (is_distributed a =? 1); repeat constructor.
Qed.

Lemma log_is_loop e : wandb_log_call e = true -> loop_event e = true.
Proof. destruct e; try discriminate; reflexivity. Qed.

Lemma trainset_of_rank a g : trainset_of (set_global_rank a g) = trainset_of a.
Proof. reflexivity. Qed.

Lemma testset_of_rank a g : testset_of (set_global_rank a g) = testset_of a.
Proof. reflexivity. Qed.

Lemma class_num_of_rank a g : class_num_of (set_global_rank a g) = class_num_of a.
Proof. reflexivity. Qed.

Lemma resolved a environ :
  (is_distributed a = 1 -> is_Some (ddp_env fw environ)) ->
  exists grank g', resolve fw a environ = Some (grank, set_global_rank a g').
Proof.
  intros H. unfold resolve. destruct (is_distributed a =? 1) eqn:Hd.
  - apply Z.eqb_eq in Hd. destruct (H Hd) as [[rank ws] ->]. eauto.
  - exists 0, (global_rank a). destruct a; reflexivity.
Qed.

(** X10: a model name other than ["transformer"] makes [create_model]
    return [None], and the run raises [AttributeError] at [.to(device)]:
    by then both datasets have been constructed, and no model, no weights
    and no training call is ever made. *)
Theorem X10_unknown_model_raises_after_the_data_is_loaded a environ :
  model a <> "transformer" ->
  (is_distributed a = 1 -> is_Some (ddp_env fw environ)) ->
  let r := main fw (start fw a environ) in
  result r = Raise AttributeError /\
  st_model (final r) = None /\
  List.filter construction_event (trace r) =
    [NewDataset (trainset_of a); NewDataset (testset_of a)] /\
  Forall (fun e => loop_event e = false /\ weight_event e = false) (trace r) /\
  (exists t,
     trace r = t ++ [LoggingInfo (MsgCreateModel (model a) (class_num_of a))]).
Proof.
  intros Hmodel%String.eqb_neq Henv r. subst r.
  destruct (resolved a environ Henv) as (grank & g' & Hres).
  rewrite (main_no_model fw a environ grank _ Hres Hmodel).
  cbn [trace result final st_model]. rewrite class_num_of_rank.
  split; [reflexivity|]. split; [reflexivity|].
  split; [|split; [|eexists; reflexivity]].
  - rewrite List.filter_app. unfold data_stage_trace. rewrite !List.filter_app.
    rewrite ddp_block_filter by reflexivity.
    rewrite tracker_init_filter by reflexivity.
    unfold data_trace. rewrite trainset_of_rank, testset_of_rank.
    destruct (is_distributed (set_global_rank a g') =? 1); reflexivity.
  - rewrite Forall_app. split; [apply data_stage_not_loop|repeat constructor].
Qed.

Lemma train_and_eval_no_epochs m train_dl test_dl (s : state fw) w :
  st_model s = Some w -> epochs (st_args s) <= 0 ->
  train_and_eval fw m train_dl test_dl s =
    Run [NewCriterion; NewOptimizer (optimizer_of (st_args s));
         NewScheduler (scheduler_of (st_args s))] (Ok tt) s.
Proof.
  intros Hw Hn. unfold train_and_eval.
  erewrite bind_ok by reflexivity.
  erewrite bind_ok by reflexivity.
  erewrite bind_ok by (unfold get_model; rewrite Hw; reflexivity).
  erewrite bind_ok by reflexivity.
  erewrite bind_ok by reflexivity.
  cbn [get_args result trace final emit]. unfold range.
  replace (Z.to_nat (epochs (st_args s))) with 0%nat by lia.
  reflexivity.
Qed.

(** X11: with [--epochs] zero or negative the run builds the data, the
    model, the optimizer and the schedule, enters no epoch and returns,
    whatever the loaders would yield: no loader is iterated and the model
    keeps the pretrained weights. *)
Theorem X11_no_epochs_no_training a environ :
  epochs a <= 0 ->
  model a = "transformer" ->
  (is_distributed a = 1 -> is_Some (ddp_env fw environ)) ->
  let r := main fw (start fw a environ) in
  result r = Ok tt /\
  List.filter loop_event (trace r) =
    [NewCriterion; NewOptimizer (optimizer_of a); NewScheduler (scheduler_of a)] /\
  st_model (final r) = Some (loaded_weights fw a) /\
  st_passes (final r) = 0%nat.
Proof.
  intros Hn Hmodel%String.eqb_eq Henv r. subst r.
  destruct (resolved a environ Henv) as (grank & g' & Hres).
  rewrite (main_run fw a environ grank _ Hres Hmodel).
  rewrite (train_and_eval_no_epochs _ _ _ _ (loaded_weights fw (set_global_rank a g')))
    by (reflexivity || exact Hn).
  cbn [trace result final loop_state st_args st_model st_passes].
  split; [reflexivity|]. split; [|split; reflexivity].
  rewrite !List.filter_app.
  rewrite (filter_none loop_event (setup_trace _ _ _ _ _)) by apply setup_not_loop.
  rewrite teardown_filter by reflexivity.
  reflexivity.
Qed.

(** X12: the tracker is initialised by the process whose local
    [global_rank] is 0: a run that is not distributed always calls
    [wandb.init], whatever [--global_rank] says and before any data is
    loaded; a distributed run calls it exactly when [RANK] is 0, passing
    the updated [args]; a run whose [init_ddp] raises never does. *)
Theorem X12_tracker_initialised_by_local_rank_zero a environ :
  let r := main fw (start fw a environ) in
  let inits := List.filter wandb_init_call (trace r) in
  (is_distributed a <> 1 ->
   inits = [WandbInit "fed_transformer" (epochs a) (lr a) a]) /\
  (forall rank world_size,
     is_distributed a = 1 -> ddp_env fw environ = Some (rank, world_size) ->
     inits = if rank =? 0
             then [WandbInit "fed_transformer" (epochs a) (lr a)
                     (set_global_rank a rank)]
             else []) /\
  (is_distributed a = 1 -> ddp_env fw environ = None -> inits = []).
Proof.
  intros r inits. subst inits r.
  assert (Hinit : forall grank a',
            resolve fw a environ = Some (grank, a') ->
            List.filter wandb_init_call (trace (main fw (start fw a environ))) =
            tracker_init_trace grank a').
  { intros grank a' Hres.
    destruct (String.eqb (model a) "transformer") eqn:Hmodel.
    - rewrite (main_run fw a environ grank a' Hres Hmodel). cbn [trace].
      rewrite !List.filter_app, setup_tracker_init.
      rewrite (loop_filter_none wandb_init_call (trace _)).
      2:{ intros e He. apply loop_event_cases; auto. }
      2:{ apply train_and_eval_emits. }
      destruct (result _) as [[]|e];
        [rewrite teardown_filter by reflexivity|]; rewrite !app_nil_r; reflexivity.
    - rewrite (main_no_model fw a environ grank a' Hres Hmodel). cbn [trace].
      rewrite List.filter_app, data_stage_tracker_init. apply app_nil_r. }
  split; [|split].
  - intros Hd%Z.eqb_neq. rewrite (Hinit 0 a); [reflexivity|].
    unfold resolve. rewrite Hd. reflexivity.
  - intros rank ws Hd%Z.eqb_eq Henv.
    rewrite (Hinit rank (set_global_rank a rank)).
    + reflexivity.
    + unfold resolve. rewrite Hd, Henv. reflexivity.
  - intros Hd%Z.eqb_eq Henv.
    destruct (main_init_raises fw a environ) as (out & e & -> & _ & _ & Hout).
    { unfold resolve. rewrite Hd, Henv. reflexivity. }
    cbn [trace]. rewrite !List.filter_app, (neutral_tracker_init out Hout).
    reflexivity.
Qed.

Lemma split_after {A} (p : A -> bool) (s rest t1 t2 : list A) e :
  t1 ++ e :: t2 = s ++ rest -> p e = true ->
  Forall (fun x => p x = false) s ->
  exists t, t1 = s ++ t /\ rest = t ++ e :: t2.
Proof.
  revert t1. induction s as [|x s IH]; intros t1 Heq He Hs.
  - exists t1. split; [reflexivity|]. symmetry. exact Heq.
  - inversion Hs as [|? ? Hx Hs']; subst.
    destruct t1 as [|y t1]; cbn in Heq.
    + injection Heq as -> _. congruence.
    + injection Heq as -> Heq.
      destruct (IH t1 Heq He Hs') as (t & -> & ->).
      exists t. split; reflexivity.
Qed.

(** X13: a run never logs to the tracker without having initialised it:
    every [wandb.log] call is made by a process whose [args.global_rank]
    is 0, after a [wandb.init] call whose configuration carries global
    rank 0, from any arguments and environment and also in runs that
    raise later. *)
Theorem X13_tracker_logs_only_after_init a environ t1 e t2 :
  let r := main fw (start fw a environ) in
  trace r = t1 ++ e :: t2 ->
  wandb_log_call e = true ->
  global_rank (st_args (final r)) = 0 /\
  exists config,
    In (WandbInit "fed_transformer" (epochs a) (lr a) config) t1 /\
    global_rank config = 0.
Proof.
  intros r Ht He. subst r.
  assert (Hin : In e (List.filter wandb_log_call (trace (main fw (start fw a environ))))).
  { apply List.filter_In. split; [rewrite Ht; apply in_elt|exact He]. }
  destruct (resolve fw a environ) as [[grank a']|] eqn:Hres.
  2:{ destruct (main_init_raises fw a environ Hres) as (out & ex & Hrun & _ & _ & Hout).
      rewrite Hrun in Hin. cbn [trace] in Hin.
      rewrite !List.filter_app, (neutral_tracker_log out Hout) in Hin.
      destruct Hin. }
  destruct (String.eqb (model a) "transformer") eqn:Hmodel.
  2:{ rewrite (main_no_model fw a environ grank a' Hres Hmodel) in Hin.
      cbn [trace] in Hin. rewrite List.filter_app in Hin.
      rewrite (filter_none wandb_log_call (data_stage_trace _ _ _ _ _)) in Hin.
      - destruct Hin.
      - eapply List.Forall_impl; [|apply data_stage_not_loop].
        intros x [Hx _]. destruct (wandb_log_call x) eqn:Hl; [|reflexivity].
        apply log_is_loop in Hl. congruence. }
  pose proof (main_run fw a environ grank a' Hres Hmodel) as Hrun.
  cbv zeta in Hrun.
  set (loop := train_and_eval fw (model_in_use a) (train_loader_of a')
                 (test_loader_of a') (loop_state fw a environ a')) in *.
  rewrite Hrun in Ht |- *. cbn [trace final] in Ht |- *.
  assert (Hsetup : Forall (fun x => wandb_log_call x = false)
                     (setup_trace fw a environ grank a')).
  { eapply List.Forall_impl; [|apply setup_not_loop].
    intros x Hx. destruct (wandb_log_call x) eqn:Hl; [|reflexivity].
    apply log_is_loop in Hl. congruence. }
  destruct (split_after wandb_log_call _ _ t1 t2 e (eq_sym Ht) He Hsetup)
    as (t & -> & Hrest).
  destruct (train_and_eval_respects_rank a' (model_in_use a) (train_loader_of a')
              (test_loader_of a') (loop_state fw a environ a') eq_refl)
    as (Hlogs & Hargs & _).
  fold loop in Hlogs, Hargs.
  assert (Hloop : In e (trace loop)).
  { assert (Hr : In e (trace loop ++
                        match result loop with
                        | Ok _ => teardown_trace a
                        | Raise _ => []
                        end)) by (rewrite Hrest; apply in_elt).
    apply in_app_or in Hr. destruct Hr as [Hr|Hr]; [exact Hr|].
    destruct (result loop); [|destruct Hr].
    unfold teardown_trace in Hr. destruct (is_distributed a =? 1); [|destruct Hr].
    destruct Hr as [<-|[]]. discriminate He. }
  assert (Hrank : global_rank a' = 0).
  { rewrite List.Forall_forall in Hlogs. exact (Hlogs e Hloop He). }
  split; [rewrite Hargs; exact Hrank|].
  exists a'. split; [|exact Hrank].
  apply in_or_app. left.
  assert (Hg : grank = 0).
  { unfold resolve in Hres. destruct (is_distributed a =? 1).
    - destruct (ddp_env fw environ) as [[rank ws]|]; [|discriminate].
      injection Hres as <- <-. exact Hrank.
    - injection Hres as <- _. reflexivity. }
  subst grank.
  unfold setup_trace, data_stage_trace, tracker_init_trace. cbn [Z.eqb].
  assert (Ha : epochs a' = epochs a /\ lr a' = lr a).
  { pose proof (resolve_args fw a environ 0 a' Hres) as ->. split; reflexivity. }
  destruct Ha as [<- <-].
  rewrite !in_app_iff. left. right. right. right. left. left. reflexivity.
Qed.


(** *** A complete run *)

Lemma filter_weight_steps l :
  List.filter weight_event (flat_map step_trace l) = repeat OptimizerStep (length l).
Proof.
  induction l as [|i l IH]; [reflexivity|].
  cbn [flat_map length repeat]. rewrite List.filter_app, IH. reflexivity.
Qed.

Lemma metric_logs_no_weights e m : List.filter weight_event (metric_logs e m) = [].
Proof. destruct m as [[[? ?] ?] ?]. reflexivity. Qed.

Lemma epochs_trace_optimizer_steps train_dl test_dl rank0 :
  forall es tr (w : weights fw) p,
  List.filter weight_event (epochs_trace fw train_dl test_dl rank0 tr w p es) =
    repeat OptimizerStep (total_batches fw train_dl p (length es)).
Proof.
  induction es as [|e es IH]; intros tr w p; [reflexivity|].
  cbn [epochs_trace length total_batches].
  destruct (train_pass fw tr w (batches fw train_dl p)) as [tr1 w1].
  unfold train_trace, eval_trace, infer_trace.
  rewrite !List.filter_app, IH.
  rewrite filter_weight_steps, length_seq.
  rewrite !filter_forwards_none by reflexivity.
  rewrite repeat_app.
  destruct rank0; [rewrite metric_logs_no_weights|];
    cbn [List.filter weight_event app]; rewrite app_nil_r; reflexivity.
Qed.

Lemma setup_weights a environ grank a' :
  List.filter weight_event (setup_trace fw a environ grank a') =
    [NewVisionTransformer "vit-B_16" (img_size a') (class_num_of a');
     NpLoad (pretrained_dir a'); LoadFrom].
Proof.
  unfold setup_trace. rewrite !List.filter_app.
  rewrite (filter_none weight_event (data_stage_trace _ _ _ _ _)).
  2:{ eapply List.Forall_impl; [|apply data_stage_not_loop].
      intros e [_ H]. exact H. }
  rewrite wrap_filter by reflexivity.
  reflexivity.
Qed.

(** X14: a run with the model name ["transformer"], the rank variables
    set when distributed, and loaders that yield samples returns with the
    pretrained weights trained for [epochs] passes, each on a new
    iteration of the training loader, by the optimizer and schedule built
    from [args]; it loads the archive once and then makes exactly one
    optimizer step per training batch. *)
Theorem X14_complete_run_trains_the_pretrained_weights a environ :
  model a = "transformer" ->
  (is_distributed a = 1 -> is_Some (ddp_env fw environ)) ->
  feeds fw (train_loader_of a) -> feeds fw (test_loader_of a) ->
  let r := main fw (start fw a environ) in
  let w0 := loaded_weights fw a in
  let tr0 := new_trainer fw (optimizer_of a) (scheduler_of a) w0 in
  let n := Z.to_nat (epochs a) in
  result r = Ok tt /\
  st_model (final r) =
    Some (snd (train_epochs fw (train_loader_of a) tr0 w0 0 n)) /\
  List.filter weight_event (trace r) =
    weight_calls a (class_num_of a) (total_batches fw (train_loader_of a) 0 n).
Proof.
  intros Hmodel%String.eqb_eq Henv Hf1 Hf2 r w0 tr0 n. subst r.
  destruct (resolved a environ Henv) as (grank & g' & Hres).
  rewrite (main_run fw a environ grank _ Hres Hmodel).
  rewrite (train_and_eval_exact (model_in_use a)
             (train_loader_of (set_global_rank a g'))
             (test_loader_of (set_global_rank a g'))
             (loop_state fw a environ (set_global_rank a g'))
             (loaded_weights fw (set_global_rank a g')) eq_refl Hf1 Hf2).
  cbn [trace result final loop_state st_args st_model st_passes].
  rewrite range_len.
  split; [reflexivity|]. split; [reflexivity|].
  rewrite !List.filter_app, setup_weights, epochs_trace_optimizer_steps, range_len.
  rewrite teardown_filter by reflexivity.
  rewrite app_nil_r. reflexivity.
Qed.

End Further.

(** ** The epoch loop and the pipeline *)

Section Pipeline.
Context (fw : Framework).

(** *** The epoch loop *)

(** C2: [train_and_eval] builds the criterion, the optimizer and the
    schedule and then runs the loop body once for each epoch of
    [range(args.epochs)], in order.  Each iteration is one complete
    [train] call, which makes one optimisation step for every batch of a
    new iteration of the training loader, followed by one complete [eval]
    call on the weights so trained; the run makes no other call, and ends
    with the weights of the last training pass. *)
Theorem C2_epoch_loop_train_then_eval
    (m : module_ref) (train_dl test_dl : DataLoader) (s : state fw)
    (w : weights fw) :
  st_model s = Some w ->
  feeds fw train_dl -> feeds fw test_dl ->
  let a := st_args s in
  let n := epochs a in
  let tr := new_trainer fw (optimizer_of a) (scheduler_of a) w in
  train_and_eval fw m train_dl test_dl s =
    Run ([NewCriterion; NewOptimizer (optimizer_of a);
          NewScheduler (scheduler_of a)] ++
         epochs_trace fw train_dl test_dl (global_rank a =? 0) tr w
           (st_passes s) (range n))
        (Ok tt)
        {| st_args := a; st_environ := st_environ s;
           st_model :=
             Some (snd (train_epochs fw train_dl tr w (st_passes s)
                          (length (range n))));
           st_passes := (3 * length (range n) + st_passes s)%nat |} /\
  (forall e es tr' w' p,
     epochs_trace fw train_dl test_dl (global_rank a =? 0) tr' w' p (e :: es) =
       train_trace e train_dl (length (batches fw train_dl p)) ++
       eval_trace e train_dl test_dl
         (length (batches fw train_dl (1 + p)))
         (length (batches fw test_dl (2 + p)))
         (if global_rank a =? 0
          then metric_logs e
                 (eval_metrics fw
                    (snd (train_pass fw tr' w' (batches fw train_dl p)))
                    (batches fw train_dl (1 + p)) (batches fw test_dl (2 + p)))
          else []) ++
       epochs_trace fw train_dl test_dl (global_rank a =? 0)
         (fst (train_pass fw tr' w' (batches fw train_dl p)))
         (snd (train_pass fw tr' w' (batches fw train_dl p))) (3 + p) es) /\
  Z.of_nat (length (range n)) = Z.max 0 n /\
  (forall i : nat, (i < Z.to_nat n)%nat -> range n !! i = Some (Z.of_nat i)).
Proof.
  intros Hw Hf1 Hf2 a n tr.
  split; [exact (train_and_eval_exact fw m train_dl test_dl s w Hw Hf1 Hf2)|].
  split.
  { intros e es tr' w' p. cbn [epochs_trace].
    destruct (train_pass fw tr' w' (batches fw train_dl p)); reflexivity. }
  split; [apply range_length|]. intros i. apply range_lookup.
Qed.

(** *** The experiment tracker *)

Lemma eval_metrics_spec (w : weights fw) train_bs test_bs :
  exists train_acc train_loss test_acc test_loss,
    eval_metrics fw w train_bs test_bs =
      (train_acc, train_loss, test_acc, test_loss) /\
    (train_acc ==
       inject_Z (n_correct fw w train_bs) / inject_Z (n_seen train_bs))%Q /\
    (train_loss == weighted_loss fw w train_bs / inject_Z (n_seen train_bs))%Q /\
    (test_acc ==
       inject_Z (n_correct fw w test_bs) / inject_Z (n_seen test_bs))%Q /\
    (test_loss == weighted_loss fw w test_bs / inject_Z (n_seen test_bs))%Q.
Proof.
  unfold eval_metrics.
  destruct (infer_sums_spec fw w train_bs) as (Hc1 & Ht1 & Hl1).
  destruct (infer_sums_spec fw w test_bs) as (Hc2 & Ht2 & Hl2).
  destruct (infer_sums fw w train_bs) as [[c1 t1] l1].
  destruct (infer_sums fw w test_bs) as [[c2 t2] l2].
  cbn [fst snd] in *.
  do 4 eexists. split; [reflexivity|].
  rewrite Hc1, Ht1, Hl1, Hc2, Ht2, Hl2.
  repeat split; reflexivity.
Qed.

Lemma epochs_trace_silent train_dl test_dl :
  forall es tr (w : weights fw) p,
  List.filter wandb_log_call (epochs_trace fw train_dl test_dl false tr w p es) = [].
Proof.
  induction es as [|e es IH]; intros tr w p; [reflexivity|].
  cbn [epochs_trace].
  destruct (train_pass fw tr w (batches fw train_dl p)) as [tr1 w1].
  unfold train_trace, eval_trace, infer_trace.
  rewrite !List.filter_app, IH.
  rewrite filter_steps_none by (intros j; repeat constructor).
  rewrite !filter_forwards_none by reflexivity.
  reflexivity.
Qed.

(** The [eval] call of epoch [k] inside the calls of the loop. *)
Lemma epochs_trace_eval_at train_dl test_dl rank0 tr0 (w0 : weights fw) p0 :
  forall n i tr w,
  train_epochs fw train_dl tr0 w0 p0 i = (tr, w) ->
  forall k, (i <= k < i + n)%nat ->
  exists t1 t2,
    epochs_trace fw train_dl test_dl rank0 tr w (3 * i + p0)
      (map Z.of_nat (seq i n)) =
    t1 ++
    eval_trace (Z.of_nat k) train_dl test_dl
      (length (batches fw train_dl (3 * k + 1 + p0)))
      (length (batches fw test_dl (3 * k + 2 + p0)))
      (if rank0
       then metric_logs (Z.of_nat k)
              (epoch_report fw train_dl test_dl tr0 w0 p0 k)
       else []) ++
    t2.
Proof.
  induction n as [|n IH]; intros i tr w Hi k Hk; [lia|].
  cbn [seq map epochs_trace].
  pose proof (train_epochs_snoc fw train_dl i tr0 w0 p0) as Hs.
  rewrite Hi in Hs. cbn [fst snd] in Hs.
  destruct (train_pass fw tr w (batches fw train_dl (3 * i + p0))) as [tr1 w1].
  replace (3 + (3 * i + p0))%nat with (3 * S i + p0)%nat by lia.
  replace (1 + (3 * i + p0))%nat with (3 * i + 1 + p0)%nat by lia.
  replace (2 + (3 * i + p0))%nat with (3 * i + 2 + p0)%nat by lia.
  destruct (Nat.eq_dec k i) as [->|Hne].
  - do 2 eexists. unfold epoch_report. rewrite Hs. cbn [snd]. reflexivity.
  - destruct (IH (S i) tr1 w1 Hs k) as (t1 & t2 & ->); [lia|].
    match goal with
    | |- exists _ _, ?A ++ ?B ++ _ = _ => exists (A ++ B ++ t1), t2
    end.
    rewrite <- !app_assoc. reflexivity.
Qed.

(** C6, amended: in a process whose [args.global_rank] is 0, the [eval]
    call of every epoch hands the tracker, after its two evaluation passes
    and before it returns, the training accuracy, training loss, test
    accuracy and test loss of the weights trained in that epoch, under the
    keys [Train/Acc], [Train/Loss], [Test/Acc] and [Test/Loss] and with the
    epoch as round; the tracker receives nothing else.  A process whose
    [args.global_rank] is not 0 makes the same calls except that it hands
    the tracker nothing. *)
Theorem C6_rank0_logs_metrics_each_epoch
    (m : module_ref) (train_dl test_dl : DataLoader) (s : state fw)
    (w : weights fw) :
  st_model s = Some w ->
  feeds fw train_dl -> feeds fw test_dl ->
  let t := trace (train_and_eval fw m train_dl test_dl s) in
  let a := st_args s in
  let n := Z.to_nat (epochs a) in
  let p := st_passes s in
  let tr := new_trainer fw (optimizer_of a) (scheduler_of a) w in
  let report := epoch_report fw train_dl test_dl tr w p in
  (forall k, (k < n)%nat ->
     exists t1 t2,
       t = t1 ++
           [Call (FnEval (Z.of_nat k))] ++
           infer_trace train_dl (length (batches fw train_dl (3 * k + 1 + p))) ++
           infer_trace test_dl (length (batches fw test_dl (3 * k + 2 + p))) ++
           (if global_rank a =? 0
            then metric_logs (Z.of_nat k) (report k)
            else []) ++
           [Return (FnEval (Z.of_nat k))] ++ t2) /\
  (forall k,
     let wk := snd (train_epochs fw train_dl tr w p (S k)) in
     let train_bs := batches fw train_dl (3 * k + 1 + p) in
     let test_bs := batches fw test_dl (3 * k + 2 + p) in
     exists train_acc train_loss test_acc test_loss,
       report k = (train_acc, train_loss, test_acc, test_loss) /\
       metric_logs (Z.of_nat k) (report k) =
         [WandbLog "Train/Acc" train_acc (Z.of_nat k);
          WandbLog "Train/Loss" train_loss (Z.of_nat k);
          LoggingInfo (MsgTrainingStats train_acc train_loss);
          WandbLog "Test/Acc" test_acc (Z.of_nat k);
          WandbLog "Test/Loss" test_loss (Z.of_nat k);
          LoggingInfo (MsgTestStats test_acc test_loss)] /\
       (train_acc ==
          inject_Z (n_correct fw wk train_bs) / inject_Z (n_seen train_bs))%Q /\
       (train_loss ==
          weighted_loss fw wk train_bs / inject_Z (n_seen train_bs))%Q /\
       (test_acc ==
          inject_Z (n_correct fw wk test_bs) / inject_Z (n_seen test_bs))%Q /\
       (test_loss ==
          weighted_loss fw wk test_bs / inject_Z (n_seen test_bs))%Q) /\
  (global_rank a = 0 ->
   List.filter wandb_log_call t =
     flat_map (fun k => tracker_logs (Z.of_nat k) (report k)) (seq 0 n)) /\
  (global_rank a <> 0 -> List.filter wandb_log_call t = []).
Proof.
  intros Hw Hf1 Hf2 t a n p tr report. subst t.
  rewrite (train_and_eval_exact fw m train_dl test_dl s w Hw Hf1 Hf2).
  cbn [trace]. fold a tr p.
  split; [|split; [|split]].
  - intros k Hk.
    destruct (epochs_trace_eval_at train_dl test_dl (global_rank a =? 0) tr w p
                n 0 tr w eq_refl k) as (t1 & t2 & Heq); [lia|].
    change (3 * 0 + p)%nat with p in Heq.
    rewrite range_seq. fold n. rewrite Heq.
    match goal with
    | |- exists _ _, ?A ++ _ = _ => exists (A ++ t1), t2
    end.
    unfold eval_trace. rewrite <- !app_assoc. reflexivity.
  - intros k. cbv zeta.
    destruct (eval_metrics_spec (snd (train_epochs fw train_dl tr w p (S k)))
                (batches fw train_dl (3 * k + 1 + p))
                (batches fw test_dl (3 * k + 2 + p)))
      as (x1 & x2 & x3 & x4 & Heq & H1 & H2 & H3 & H4).
    exists x1, x2, x3, x4.
    assert (Hr : report k = (x1, x2, x3, x4)) by exact Heq.
    split; [exact Hr|]. split; [rewrite Hr; reflexivity|].
    repeat split; assumption.
  - intros Hrank. unfold a in Hrank.
    rewrite List.filter_app. cbn [List.filter wandb_log_call app].
    unfold a at 1. rewrite Hrank. change (0 =? 0) with true.
    rewrite range_seq.
    apply (epochs_trace_reports fw train_dl test_dl tr w p n 0 tr w).
    reflexivity.
  - intros Hrank%Z.eqb_neq.
    rewrite List.filter_app. cbn [List.filter wandb_log_call app].
    unfold a in Hrank. fold a in Hrank. rewrite Hrank.
    apply epochs_trace_silent.
Qed.

(** *** Stages *)

Lemma train_trace_pipeline_calls e train_dl n :
  List.filter pipeline_call (train_trace e train_dl n) =
    [Call (FnTrain e); Return (FnTrain e)].
Proof.
  unfold train_trace. rewrite !List.filter_app.
  rewrite filter_steps_none by (intros i; repeat constructor).
  reflexivity.
Qed.

Lemma infer_trace_pipeline_calls data n :
  List.filter pipeline_call (infer_trace data n) = [].
Proof.
  unfold infer_trace. rewrite List.filter_app.
  rewrite filter_forwards_none by reflexivity. reflexivity.
Qed.

Lemma metric_logs_pipeline_calls e m :
  List.filter pipeline_call (metric_logs e m) = [].
Proof. destruct m as [[[? ?] ?] ?]. reflexivity. Qed.

(** The loop over the epochs, whatever the loaders yield: it makes the
    calls of the epochs in order, and stops inside an [eval] call when it
    raises. *)
Lemma epochs_pipeline_calls (train_dl test_dl : DataLoader) body :
  (forall tr e (s : state fw),
     body tr e s =
       bind (train fw e train_dl tr)
         (fun tr' => bind (eval fw e train_dl test_dl) (fun _ => ret tr')) s) ->
  forall es tr (s : state fw) w,
  st_model s = Some w ->
  let r := for_fold body es tr s in
  List.filter pipeline_call (trace r) `prefix_of` flat_map epoch_calls es /\
  (forall x, result r = Ok x ->
     List.filter pipeline_call (trace r) = flat_map epoch_calls es).
Proof.
  intros Hbody.
  induction es as [|e es IH]; intros tr s w Hw r; subst r.
  - cbn. split; [reflexivity|]. intros _ _. reflexivity.
  - cbn [for_fold flat_map].
    set (s1 := with_model (next_pass s)
                 (snd (train_pass fw tr w (batches fw train_dl (st_passes s))))).
    set (w1 := snd (train_pass fw tr w (batches fw train_dl (st_passes s)))).
    assert (Hw1 : st_model s1 = Some w1) by reflexivity.
    set (train_bs := batches fw train_dl (st_passes s1)).
    set (test_bs := batches fw test_dl (S (st_passes s1))).
    pose proof (n_seen_nonneg train_bs) as Hn1.
    pose proof (n_seen_nonneg test_bs) as Hn2.
    destruct (Z.eq_dec (n_seen train_bs) 0) as [Hz1|Hz1];
      [|destruct (Z.eq_dec (n_seen test_bs) 0) as [Hz2|Hz2]].
    1,2: erewrite bind_raise;
      [|rewrite Hbody; erewrite bind_ok by (apply train_run; exact Hw);
        erewrite bind_raise
          by (apply (eval_raises fw e train_dl test_dl s1 w1 Hw1); tauto);
        reflexivity];
      cbn [trace result];
      rewrite !List.filter_app, train_trace_pipeline_calls,
        !infer_trace_pipeline_calls;
      (split; [|discriminate]);
      exists (Return (FnEval e) :: flat_map epoch_calls es); reflexivity.
    erewrite bind_ok.
    2:{ rewrite Hbody. erewrite bind_ok by (apply train_run; exact Hw).
        erewrite bind_ok
          by (apply (eval_run fw e train_dl test_dl s1 w1 Hw1);
              fold train_bs test_bs; lia).
        cbn [ret trace result final]. rewrite app_nil_r. reflexivity. }
    cbn [trace result final].
    match goal with |- context [for_fold body es ?tr1 ?s2] =>
      destruct (IH tr1 s2 w1 eq_refl) as [Hpre Heq]
    end.
    rewrite !List.filter_app, train_trace_pipeline_calls.
    unfold eval_trace. rewrite !List.filter_app, !infer_trace_pipeline_calls.
    assert (Hlogs : forall m,
              List.filter pipeline_call
                (if global_rank (st_args s1) =? 0 then metric_logs e m else [])
              = []).
    { intros m. destruct (global_rank (st_args s1) =? 0);
        [apply metric_logs_pipeline_calls|reflexivity]. }
    rewrite Hlogs.
    cbn [List.filter pipeline_call app epoch_calls].
    split.
    + do 4 apply prefix_cons. exact Hpre.
    + intros x Hx. rewrite (Heq x Hx). reflexivity.
Qed.

Lemma train_and_eval_pipeline_calls m train_dl test_dl (s : state fw) w :
  st_model s = Some w ->
  let r := train_and_eval fw m train_dl test_dl s in
  let calls :=
    [NewOptimizer (optimizer_of (st_args s));
     NewScheduler (scheduler_of (st_args s))] ++
    flat_map epoch_calls (range (epochs (st_args s))) in
  List.filter pipeline_call (trace r) `prefix_of` calls /\
  (result r = Ok tt -> List.filter pipeline_call (trace r) = calls).
Proof.
  intros Hw r calls. subst r calls. unfold train_and_eval.
  erewrite bind_ok by reflexivity.
  erewrite bind_ok by reflexivity.
  erewrite bind_ok by (unfold get_model; rewrite Hw; reflexivity).
  erewrite bind_ok by reflexivity.
  erewrite bind_ok by reflexivity.
  cbn [trace result final app get_args emit].
  match goal with |- context [for_fold ?body ?es ?tr] =>
    destruct (epochs_pipeline_calls train_dl test_dl body (fun _ _ _ => eq_refl)
                es tr s w Hw) as [Hpre Heq];
    destruct (for_fold body es tr s) as [t [tr'|e] sf] eqn:Hrun
  end; cbn [trace result] in Hpre, Heq.
  - erewrite bind_ok by exact Hrun.
    cbn [ret trace result final]. rewrite app_nil_r.
    cbn [List.filter pipeline_call]. rewrite (Heq tr' eq_refl).
    split; [reflexivity|]. intros _. reflexivity.
  - erewrite bind_raise by exact Hrun. cbn [trace result].
    cbn [List.filter pipeline_call].
    split; [do 2 apply prefix_cons; exact Hpre|discriminate].
Qed.

Lemma data_stage_pipeline_calls a environ grank g' :
  List.filter pipeline_call
    (data_stage_trace fw a environ grank (set_global_rank a g')) =
  [ParseArgs] ++
  List.filter pipeline_call (ddp_block_trace fw a environ) ++
  [NewDataset (trainset_of a); NewDataset (testset_of a);
   NewSampler (dl_sampler (train_loader_of a)) (trainset_of a);
   NewSampler SequentialSampler (testset_of a);
   NewDataLoader (train_loader_of a); NewDataLoader (test_loader_of a)].
Proof.
  unfold data_stage_trace. rewrite !List.filter_app.
  rewrite tracker_init_filter by reflexivity.
  unfold data_trace. cbn [is_distributed set_global_rank].
  destruct (is_distributed a =? 1); reflexivity.
Qed.

Lemma ddp_block_pipeline_calls a environ :
  List.filter pipeline_call (ddp_block_trace fw a environ) =
  if is_distributed a =? 1 then
    match ddp_env fw environ with
    | Some (rank, world_size) => [InitProcessGroup "nccl" rank world_size]
    | None => []
    end
  else [].
Proof.
  unfold ddp_block_trace. destruct (is_distributed a =? 1); [|reflexivity].
  destruct (ddp_env fw environ) as [[rank ws]|]; reflexivity.
Qed.

Lemma neutral_pipeline_calls out :
  Forall neutral out -> List.filter pipeline_call out = [].
Proof.
  intros H. apply filter_none. eapply List.Forall_impl; [|exact H].
  intros e (Hs & _). destruct e; try reflexivity; discriminate Hs.
Qed.

Lemma teardown_pipeline_calls a :
  List.filter pipeline_call (teardown_trace a) =
  if is_distributed a =? 1 then [DestroyProcessGroup] else [].
Proof. unfold teardown_trace. destruct (is_distributed a =? 1); reflexivity. Qed.

(** C3: the calls that make up the stages occur in the order of the
    pipeline: the parser; in a distributed run only, [init_process_group];
    the datasets, samplers and loaders; the model's constructor, [np.load]
    and [load_from]; in a distributed run only, the data-parallel wrapper;
    the optimizer, the schedule and the [train] and [eval] calls of the
    epochs; in a distributed run only, [destroy_process_group].  A run
    that raises has made an initial part of these calls and no other of
    them; a run that returns has made all of them, each once; and a run
    returns when the model name is ["transformer"], the rank variables
    are set for a distributed run and the loaders yield samples. *)
Theorem C3_stages_follow_pipeline a environ :
  let r := main fw (start fw a environ) in
  List.filter pipeline_call (trace r) `prefix_of` pipeline_calls fw a environ /\
  (result r = Ok tt ->
   List.filter pipeline_call (trace r) = pipeline_calls fw a environ /\
   (is_distributed a = 1 -> is_Some (ddp_env fw environ))) /\
  (model a = "transformer" ->
   (is_distributed a = 1 -> is_Some (ddp_env fw environ)) ->
   feeds fw (train_loader_of a) -> feeds fw (test_loader_of a) ->
   result r = Ok tt).
Proof.
  intros r. subst r. unfold pipeline_calls.
  destruct (resolve fw a environ) as [[grank a']|] eqn:Hres.
  2:{ (* init_ddp raises *)
      destruct (main_init_raises fw a environ Hres)
        as (out & e & -> & Hd & Henv & Hout).
      cbn [trace result]. rewrite !List.filter_app.
      rewrite (neutral_pipeline_calls out) by
        (eapply List.Forall_impl; [|exact Hout]; intros ev H; exact H).
      split; [eexists; reflexivity|]. split; [discriminate|].
      intros _ Hsome. destruct (Hsome Hd) as [x Hx]. congruence. }
  pose proof (resolve_args fw a environ grank a' Hres) as Ha'.
  set (g' := global_rank a') in Ha'. clearbody g'. subst a'.
  assert (Hsome : is_distributed a = 1 -> is_Some (ddp_env fw environ)).
  { intros Hd%Z.eqb_eq. unfold resolve in Hres. rewrite Hd in Hres.
    destruct (ddp_env fw environ); [eauto|discriminate]. }
  destruct (String.eqb (model a) "transformer") eqn:Hmodel.
  2:{ (* no model *)
      rewrite (main_no_model fw a environ grank _ Hres Hmodel).
      cbn [trace result]. rewrite List.filter_app, data_stage_pipeline_calls.
      rewrite ddp_block_pipeline_calls.
      split; [|split; [discriminate|]].
      - cbn [List.filter pipeline_call]. rewrite app_nil_r.
        do 2 apply prefix_app. apply prefix_app_r. reflexivity.
      - intros Hm%String.eqb_eq. congruence. }
  rewrite (main_run fw a environ grank _ Hres Hmodel).
  set (loop := train_and_eval fw (model_in_use a)
                 (train_loader_of (set_global_rank a g'))
                 (test_loader_of (set_global_rank a g'))
                 (loop_state fw a environ (set_global_rank a g'))).
  destruct (train_and_eval_pipeline_calls (model_in_use a)
              (train_loader_of (set_global_rank a g'))
              (test_loader_of (set_global_rank a g'))
              (loop_state fw a environ (set_global_rank a g'))
              (loaded_weights fw (set_global_rank a g')) eq_refl)
    as [Hpre Heq].
  fold loop in Hpre, Heq.
  cbn [loop_state st_args] in Hpre, Heq.
  cbn [trace result].
  assert (Hsetup : List.filter pipeline_call
                     (setup_trace fw a environ grank (set_global_rank a g')) =
            [ParseArgs] ++
            (if is_distributed a =? 1 then
               match ddp_env fw environ with
               | Some (rank, world_size) => [InitProcessGroup "nccl" rank world_size]
               | None => []
               end
             else []) ++
            [NewDataset (trainset_of a); NewDataset (testset_of a);
             NewSampler (dl_sampler (train_loader_of a)) (trainset_of a);
             NewSampler SequentialSampler (testset_of a);
             NewDataLoader (train_loader_of a); NewDataLoader (test_loader_of a)] ++
            [NewVisionTransformer "vit-B_16" (img_size a) (class_num_of a);
             NpLoad (pretrained_dir a); LoadFrom] ++
            (if is_distributed a =? 1 then [WrapDDP (local_rank a)] else [])).
  { unfold setup_trace. rewrite !List.filter_app, data_stage_pipeline_calls.
    rewrite ddp_block_pipeline_calls.
    destruct (is_distributed a =? 1); cbn [List.filter pipeline_call model_trace];
      rewrite <- !app_assoc; reflexivity. }
  rewrite !List.filter_app, Hsetup. rewrite <- !app_assoc.
  split; [|split].
  - do 5 apply prefix_app.
    destruct (result loop) as [[]|e].
    + rewrite (Heq eq_refl), teardown_pipeline_calls, <- app_assoc.
      reflexivity.
    + cbn [List.filter]. rewrite app_nil_r, app_assoc.
      apply prefix_app_r. exact Hpre.
  - intros Hok. rewrite Hok in *. split; [|exact Hsome].
    rewrite (Heq eq_refl), teardown_pipeline_calls, <- app_assoc.
    reflexivity.
  - intros _ _ Hf1 Hf2.
    destruct (train_and_eval_run fw (model_in_use a)
                (train_loader_of (set_global_rank a g'))
                (test_loader_of (set_global_rank a g'))
                (loop_state fw a environ (set_global_rank a g'))
                (loaded_weights fw (set_global_rank a g')) eq_refl Hf1 Hf2)
      as (Hok & _).
    exact Hok.
Qed.

(** *** Distributed calls *)

Lemma loop_not_dist_or_dataset t :
  Forall (fun e => loop_event e = true) t ->
  Forall (fun e => dist_or_dataset e = false /\ guarded_call e = false) t.
Proof.
  intros H. eapply List.Forall_impl; [|exact H].
  intros e He. destruct e; try discriminate He; split; reflexivity.
Qed.

Lemma neutral_not_dist_or_dataset out :
  Forall neutral out -> List.filter dist_or_dataset out = [].
Proof.
  intros H. apply filter_none. eapply List.Forall_impl; [|exact H].
  intros e (Hs & Hd & _). unfold dist_or_dataset. rewrite Hd.
  destruct e; try reflexivity; discriminate Hs.
Qed.

Lemma data_stage_distributed_calls a environ grank g' :
  is_distributed a = 1 ->
  List.filter dist_or_dataset
    (data_stage_trace fw a environ grank (set_global_rank a g')) =
  List.filter dist_or_dataset (ddp_block_trace fw a environ) ++
  [Barrier; NewDataset (trainset_of a); NewDataset (testset_of a); Barrier;
   NewSampler DistributedSampler (trainset_of a)].
Proof.
  intros Hd. unfold data_stage_trace. rewrite !List.filter_app.
  rewrite tracker_init_filter by reflexivity.
  unfold data_trace, train_loader_of. cbn [is_distributed set_global_rank dl_sampler].
  rewrite Hd. reflexivity.
Qed.

Lemma ddp_block_distributed_calls a environ :
  is_distributed a = 1 ->
  List.filter dist_or_dataset (ddp_block_trace fw a environ) =
  match ddp_env fw environ with
  | Some (rank, world_size) =>
      [EnvironSet "NCCL_DEBUG" "INFO"; EnvironSet "NCCL_SOCKET_IFNAME" "ib0";
       InitProcessGroup "nccl" rank world_size]
  | None => []
  end.
Proof.
  intros Hd. unfold ddp_block_trace. rewrite Hd. cbn [Z.eqb Pos.eqb].
  destruct (ddp_env fw environ) as [[rank ws]|]; reflexivity.
Qed.

Lemma data_stage_not_guarded a environ grank a' :
  is_distributed a <> 1 -> is_distributed a' = is_distributed a ->
  Forall (fun e => guarded_call e = false)
    (data_stage_trace fw a environ grank a').
Proof.
  intros Hd%Z.eqb_neq Ha.
  unfold data_stage_trace, ddp_block_trace, tracker_init_trace, data_trace,
    preamble_trace.
  rewrite Ha, Hd. destruct (grank =? 0); cbn [app]; repeat constructor.
Qed.

(** C4, amended: what a run with [is_distributed == 1] does for
    distributed execution is, in this order: the two NCCL environment
    settings, [init_process_group] with the rank and world size read from
    [RANK] and [WORLD_SIZE], a barrier before and a barrier after the
    construction of the two datasets, the distributed sampler of the
    training set, the data-parallel wrapper and [destroy_process_group];
    a run that raises makes an initial part of these calls.  A run with
    [is_distributed != 1] sets no environment variable, calls neither
    [init_process_group] nor [destroy_process_group], waits at no barrier
    and wraps no model. *)
Theorem C4_distributed_calls_of_a_run a environ :
  let r := main fw (start fw a environ) in
  (is_distributed a = 1 ->
   List.filter dist_or_dataset (trace r) `prefix_of`
     distributed_run_calls fw a environ /\
   (result r = Ok tt ->
    List.filter dist_or_dataset (trace r) = distributed_run_calls fw a environ /\
    is_Some (ddp_env fw environ))) /\
  (is_distributed a <> 1 ->
   Forall (fun e => guarded_call e = false) (trace r)).
Proof.
  intros r. subst r. split.
  - intros Hd. unfold distributed_run_calls.
    assert (Hb : (is_distributed a =? 1) = true) by (apply Z.eqb_eq; exact Hd).
    destruct (ddp_env fw environ) as [[rank ws]|] eqn:Henv.
    2:{ destruct (main_init_raises fw a environ) as (out & e & -> & _ & _ & Hout).
        { unfold resolve. rewrite Hb, Henv. reflexivity. }
        cbn [trace result]. rewrite !List.filter_app.
        rewrite (neutral_not_dist_or_dataset out Hout).
        split; [reflexivity|discriminate]. }
    assert (Hres : resolve fw a environ = Some (rank, set_global_rank a rank))
      by (unfold resolve; rewrite Hb, Henv; reflexivity).
    destruct (String.eqb (model a) "transformer") eqn:Hmodel.
    2:{ rewrite (main_no_model fw a environ rank _ Hres Hmodel).
        cbn [trace result]. rewrite List.filter_app.
        rewrite (data_stage_distributed_calls a environ rank rank Hd).
        rewrite (ddp_block_distributed_calls a environ Hd), Henv.
        split; [|discriminate].
        exists [WrapDDP (local_rank a); DestroyProcessGroup]. reflexivity. }
    rewrite (main_run fw a environ rank _ Hres Hmodel).
    cbn [trace result]. rewrite !List.filter_app.
    rewrite (filter_none dist_or_dataset (trace _)).
    2:{ eapply List.Forall_impl;
          [|apply loop_not_dist_or_dataset, train_and_eval_emits].
        intros e [H _]. exact H. }
    unfold setup_trace. rewrite !List.filter_app.
    rewrite (data_stage_distributed_calls a environ rank rank Hd).
    rewrite (ddp_block_distributed_calls a environ Hd), Henv.
    unfold teardown_trace. rewrite Hb.
    split.
    + destruct (result _) as [[]|e]; [reflexivity|].
      exists [DestroyProcessGroup]. reflexivity.
    + intros ->. split; [reflexivity|eauto].
  - intros Hd.
    assert (Hb : (is_distributed a =? 1) = false) by (apply Z.eqb_neq; exact Hd).
    assert (Hres : resolve fw a environ = Some (0, a))
      by (unfold resolve; rewrite Hb; reflexivity).
    destruct (String.eqb (model a) "transformer") eqn:Hmodel.
    + rewrite (main_run fw a environ 0 a Hres Hmodel).
      cbn [trace]. rewrite !Forall_app. split; [|split].
      * unfold setup_trace. rewrite !Forall_app. split; [|split].
        -- apply data_stage_not_guarded; [exact Hd|reflexivity].
        -- unfold model_trace. repeat constructor.
        -- rewrite Hb. constructor.
      * eapply List.Forall_impl;
          [|apply loop_not_dist_or_dataset, train_and_eval_emits].
        intros e [_ H]. exact H.
      * unfold teardown_trace. rewrite Hb.
        destruct (result _); constructor.
    + rewrite (main_no_model fw a environ 0 a Hres Hmodel).
      cbn [trace]. rewrite Forall_app. split.
      * apply data_stage_not_guarded; [exact Hd|reflexivity].
      * repeat constructor.
Qed.

(** *** The smoke test *)

Lemma shown_configured m t : In (LoggingInfo m) t -> In m (shown true t).
Proof.
  induction t as [|e t IH]; [intros []|].
  intros [->|Hin]; [left; reflexivity|].
  specialize (IH Hin). destruct e; cbn [shown]; try exact IH; right; exact IH.
Qed.

Lemma main_preamble a environ :
  exists t, trace (main fw (start fw a environ)) = preamble_trace a ++ t.
Proof.
  destruct (main_cases fw a environ) as
    [(out & e & _ & _ & _ & _ & ->)
    |[(grank & g' & _ & _ & ->)
     |(grank & g' & t & res & sf & _ & _ & -> & _)]];
    cbn [trace]; unfold setup_trace, data_stage_trace;
    rewrite <- ?app_assoc; eexists; reflexivity.
Qed.

(** C5: [test.py] builds the Vision Transformer and loads the pretrained
    archive into it, but the parameter count it computes never reaches the
    terminal: it is handed to [logging.info] while [logging.basicConfig]
    is never called, and the one thing the script prints is the model.
    The training script, which configures logging before anything else,
    does show every parameter count it logs. *)
Theorem C5_smoke_test_never_shows_the_parameter_count (s : state fw) :
  let r := test_py fw s in
  let path := "./../../../fedml_api/model/cv/pretrained/Transformer/vit/ViT-B_16.npz" in
  let w := load_from fw (vit_init fw 224 10) (np_load fw path) in
  result r = Ok tt /\
  st_model (final r) = Some w /\
  List.filter weight_event (trace r) =
    [NewVisionTransformer "vit-B_16" 224 10; NpLoad path; LoadFrom] /\
  In (LoggingInfo (MsgModelSize (count_parameters fw w))) (trace r) /\
  List.filter print_call (trace r) = [Print MsgModel] /\
  List.filter logging_config_call (trace r) = [] /\
  shown false (trace r) = [MsgModel] /\
  (forall a environ n,
     In (LoggingInfo (MsgModelSize n)) (trace (main fw (start fw a environ))) ->
     In (MsgModelSize n) (shown false (trace (main fw (start fw a environ))))).
Proof.
  intros r path w. subst r. unfold test_py.
  split; [reflexivity|]. split; [reflexivity|]. split; [reflexivity|].
  split; [right; right; right; right; right; left; reflexivity|].
  split; [reflexivity|]. split; [reflexivity|]. split; [reflexivity|].
  intros a environ n.
  destruct (main_preamble a environ) as [t ->].
  unfold preamble_trace. cbn [app shown In].
  intros [H|[H|[H|[H|[H|[H|[H|[H|H]]]]]]]]; try discriminate H.
  right. right. apply shown_configured. exact H.
Qed.

End Pipeline.

(** ** The script on the small framework *)

(** Both loaders of the small framework yield samples on every pass. *)
Lemma toy_feeds l : feeds toy l.
Proof.
  intros k. unfold n_seen, rows. cbn [batches toy].
  destruct (ds_train (dl_dataset l)); reflexivity.
Qed.

(** The process with [RANK=3]: [args.global_rank] ends as 3. *)
Lemma C1_witness :
  is_distributed ddp_args = 1 /\
  ddp_env toy ddp_environ = Some (3, 4) /\
  st_args (final (main toy (start toy ddp_args ddp_environ)))
  = set_global_rank ddp_args 3.
Proof.
  split; [reflexivity|]. split; [vm_compute; reflexivity|].
  apply (proj2 (proj2 (proj2
           (C1_only_global_rank_is_reassigned toy ddp_args ddp_environ)))
           3 4); vm_compute; reflexivity.
Defined.

(** The same run: [args] is not what the parser returned. *)
Lemma C1_counterexample :
  global_rank ddp_args = 0 /\
  global_rank (st_args (final (main toy (start toy ddp_args ddp_environ)))) = 3 /\
  st_args (final (main toy (start toy ddp_args ddp_environ))) <> ddp_args.
Proof.
  split; [reflexivity|]. split; [vm_compute; reflexivity|].
  intros H. apply (f_equal global_rank) in H. vm_compute in H. discriminate H.
Qed.

(** The default run: the epoch loop returns, after two epochs of two
    optimisation steps each. *)
Lemma C2_witness :
  st_model toy_loop_state = Some 1 /\
  feeds toy (train_loader_of default_args) /\
  feeds toy (test_loader_of default_args) /\
  result (train_and_eval toy VisionTransformer (train_loader_of default_args)
            (test_loader_of default_args) toy_loop_state) = Ok tt /\
  List.filter weight_event
    (trace (train_and_eval toy VisionTransformer (train_loader_of default_args)
              (test_loader_of default_args) toy_loop_state))
  = repeat OptimizerStep 4.
Proof.
  split; [reflexivity|]. split; [apply toy_feeds|]. split; [apply toy_feeds|].
  rewrite (proj1 (C2_epoch_loop_train_then_eval toy VisionTransformer
                    (train_loader_of default_args) (test_loader_of default_args)
                    toy_loop_state 1 eq_refl (toy_feeds _) (toy_feeds _))).
  split; [reflexivity|vm_compute; reflexivity].
Defined.

(** A distributed run makes every call of the pipeline. *)
Lemma C3_witness :
  result (main toy (start toy ddp_args ddp_environ)) = Ok tt /\
  List.filter pipeline_call (trace (main toy (start toy ddp_args ddp_environ)))
  = pipeline_calls toy ddp_args ddp_environ.
Proof.
  split; [vm_compute; reflexivity|].
  apply (proj1 (proj2 (C3_stages_follow_pipeline toy ddp_args ddp_environ))).
  vm_compute; reflexivity.
Defined.

(** A distributed run makes all eight distributed calls, the barriers
    around the construction of the datasets. *)
Lemma C4_witness :
  is_distributed ddp_args = 1 /\
  result (main toy (start toy ddp_args ddp_environ)) = Ok tt /\
  List.filter dist_or_dataset
    (trace (main toy (start toy ddp_args ddp_environ)))
  = distributed_run_calls toy ddp_args ddp_environ.
Proof.
  split; [reflexivity|]. split; [vm_compute; reflexivity|].
  apply (proj2 (proj1 (C4_distributed_calls_of_a_run toy ddp_args ddp_environ)
                  eq_refl)).
  vm_compute; reflexivity.
Defined.

(** A distributed run calls [torch.distributed.barrier()], which is
    neither an environment setting nor the initialisation or teardown
    entry point. *)
Lemma C4_counterexample :
  is_distributed ddp_args = 1 /\
  In Barrier (trace (main toy (start toy ddp_args ddp_environ))) /\
  dist_call Barrier = true /\
  (forall rank world_size, init_or_teardown rank world_size Barrier = false).
Proof.
  split; [reflexivity|]. split; [vm_compute; tauto|].
  split; [reflexivity|]. intros rank world_size. reflexivity.
Qed.

(** The default run logs the four metrics of its two epochs. *)
Lemma C6_witness :
  st_model toy_loop_state = Some 1 /\
  feeds toy (train_loader_of default_args) /\
  feeds toy (test_loader_of default_args) /\
  global_rank (st_args toy_loop_state) = 0 /\
  List.filter wandb_log_call
    (trace (train_and_eval toy VisionTransformer (train_loader_of default_args)
              (test_loader_of default_args) toy_loop_state))
  = [WandbLog "Train/Acc" (1 # 3) 0; WandbLog "Train/Loss" (6 # 12) 0;
     WandbLog "Test/Acc" 1 0; WandbLog "Test/Loss" (1 # 2) 0;
     WandbLog "Train/Acc" (1 # 3) 1; WandbLog "Train/Loss" (6 # 12) 1;
     WandbLog "Test/Acc" 1 1; WandbLog "Test/Loss" (1 # 2) 1].
Proof.
  split; [reflexivity|]. split; [apply toy_feeds|]. split; [apply toy_feeds|].
  split; [reflexivity|].
  rewrite (proj1 (proj2 (proj2
             (C6_rank0_logs_metrics_each_epoch toy VisionTransformer
                (train_loader_of default_args) (test_loader_of default_args)
                toy_loop_state 1 eq_refl (toy_feeds _) (toy_feeds _)))) eq_refl).
  vm_compute; reflexivity.
Defined.

(** The process with [RANK=3] runs epoch 0 and logs none of its
    metrics. *)
Lemma C6_counterexample :
  result (main toy (start toy ddp_args ddp_environ)) = Ok tt /\
  In 0 (range (epochs ddp_args)) /\
  ~ logs_metrics (trace (main toy (start toy ddp_args ddp_environ))) 0.
Proof.
  split; [vm_compute; reflexivity|]. split; [left; reflexivity|].
  assert (E : List.filter wandb_log_call
                (trace (main toy (start toy ddp_args ddp_environ))) = [])
    by (vm_compute; reflexivity).
  intros (a & b & c & d & H & _).
  pose proof (proj2 (List.filter_In wandb_log_call (WandbLog "Train/Acc" a 0)
                       (trace (main toy (start toy ddp_args ddp_environ))))
                (conj H eq_refl)) as Hf.
  rewrite E in Hf. exact Hf.
Qed.

(** The default run loads the archive once. *)
Lemma C7_witness :
  result (main toy (start toy default_args ∅)) = Ok tt /\
  exists k,
    List.filter weight_event (trace (main toy (start toy default_args ∅)))
    = weight_calls default_args 10 k.
Proof.
  split; [vm_compute; reflexivity|].
  destruct (C7_pretrained_weights_loaded_once toy default_args ∅) as [k [_ Hk]].
  exists k. apply Hk. vm_compute; reflexivity.
Defined.

(** [--dataset imagenet]: CIFAR-100 data, a model with 10 classes. *)
Lemma C8_witness :
  dataset other_dataset_args <> "cifar10" /\
  dataset other_dataset_args <> "cifar100" /\
  List.filter construction_event
    (trace (main toy (start toy other_dataset_args ∅)))
  = [NewDataset {| ds_kind := CIFAR100; ds_root := "./data";
                   ds_train := true; ds_img_size := 224 |};
     NewDataset {| ds_kind := CIFAR100; ds_root := "./data";
                   ds_train := false; ds_img_size := 224 |};
     NewVisionTransformer "vit-B_16" 224 10].
Proof.
  split; [discriminate|]. split; [discriminate|].
  apply (C8_other_dataset_loads_cifar100_with_10_classes toy other_dataset_args ∅);
    [discriminate|discriminate|vm_compute; reflexivity].
Defined.

(** An evaluation pass of the default run. *)
Lemma C9_witness :
  st_model toy_loop_state = Some 1 /\
  exists correct total loss_sum,
    result (_infer toy (train_loader_of default_args) toy_loop_state)
    = Ok (correct, total, loss_sum) /\
    (correct <= total)%Q.
Proof.
  split; [reflexivity|].
  destruct (proj1 (C9_infer_counts_and_eval_metrics toy 0
                     (train_loader_of default_args) (test_loader_of default_args)
                     toy_loop_state 1 eq_refl) (train_loader_of default_args))
    as (c & t & l & Hres & _ & _ & _ & _ & Hle).
  exists c, t, l. split; assumption.
Defined.

(** C10, at [--global_rank 1] without [--is_distributed]: the run returns,
    [args.global_rank] is 1 from start to end, the tracker is initialised
    once, and no metric is logged. *)
Theorem C10_tracker_initialised_but_never_logged :
  let r := main toy (start toy rank1_args ∅) in
  result r = Ok tt /\
  global_rank rank1_args = 1 /\
  global_rank (st_args (final r)) = 1 /\
  List.filter wandb_init_call (trace r) =
    [WandbInit "fed_transformer" 1 (3 # 100) rank1_args] /\
  List.filter wandb_log_call (trace r) = [].
Proof.
  intros r. subst r.
  split; [vm_compute; reflexivity|]. split; [reflexivity|].
  split; [vm_compute; reflexivity|]. split; vm_compute; reflexivity.
Qed.

(** ** Further runs on the small framework *)

(** The first training pass of the default run: two optimisation steps. *)
Lemma X3_witness :
  st_model toy_loop_state = Some 1 /\
  result (train toy 0 (train_loader_of default_args) 0%nat toy_loop_state)
  = Ok 2%nat /\
  st_model (final (train toy 0 (train_loader_of default_args) 0%nat
                     toy_loop_state)) = Some 3.
Proof.
  split; [reflexivity|].
  rewrite (X3_train_one_optimisation_step_per_batch toy 0
             (train_loader_of default_args) 0%nat toy_loop_state 1 eq_refl).
  split; vm_compute; reflexivity.
Defined.

(** Without test data the first evaluation raises. *)
Lemma X4_witness :
  st_model toy_no_test_state = Some 1 /\
  n_seen (batches toy_no_test (test_loader_of default_args) 1) = 0 /\
  result (eval toy_no_test 0 (train_loader_of default_args)
            (test_loader_of default_args) toy_no_test_state)
  = Raise ZeroDivisionError.
Proof.
  split; [reflexivity|]. split; [reflexivity|].
  rewrite (proj1 (X4_eval_raises_on_an_empty_pass toy_no_test 0
                    (train_loader_of default_args) (test_loader_of default_args)
                    toy_no_test_state 1 eq_refl)
             (or_intror eq_refl)).
  reflexivity.
Defined.

(** An evaluation pass of the default run starts with [model.eval()]. *)
Lemma X5_witness :
  st_model toy_loop_state = Some 1 /\
  exists t,
    trace (_infer toy (train_loader_of default_args) toy_loop_state)
    = ModelEval :: t.
Proof.
  split; [reflexivity|].
  exact (proj1 (proj2 (proj2
           (X5_evaluation_leaves_the_parameters_unchanged toy 0
              (train_loader_of default_args) (test_loader_of default_args)
              (train_loader_of default_args) toy_loop_state)) 1 eq_refl)).
Defined.

(** The default run: two epochs of two steps each take the weights from 1
    to 5, over six loader iterations. *)
Lemma X6_witness :
  st_model toy_loop_state = Some 1 /\
  feeds toy (train_loader_of default_args) /\
  feeds toy (test_loader_of default_args) /\
  st_model (final (train_and_eval toy VisionTransformer
                     (train_loader_of default_args)
                     (test_loader_of default_args) toy_loop_state)) = Some 5 /\
  st_passes (final (train_and_eval toy VisionTransformer
                      (train_loader_of default_args)
                      (test_loader_of default_args) toy_loop_state)) = 6%nat.
Proof.
  split; [reflexivity|]. split; [apply toy_feeds|]. split; [apply toy_feeds|].
  destruct (X6_train_and_eval_final_weights toy VisionTransformer
              (train_loader_of default_args) (test_loader_of default_args)
              toy_loop_state 1 eq_refl (toy_feeds _) (toy_feeds _))
    as (_ & Hw & _ & Hp & _).
  split; [rewrite Hw|rewrite Hp]; vm_compute; reflexivity.
Defined.

(** The default run: a schedule over 2 steps is stepped 4 times. *)
Lemma X7_witness :
  st_model toy_loop_state = Some 1 /\
  feeds toy (train_loader_of default_args) /\
  feeds toy (test_loader_of default_args) /\
  t_total_of (scheduler_of (st_args toy_loop_state)) = 2 /\
  List.filter scheduler_step
    (trace (train_and_eval toy VisionTransformer (train_loader_of default_args)
              (test_loader_of default_args) toy_loop_state))
  = repeat SchedulerStep 4.
Proof.
  split; [reflexivity|]. split; [apply toy_feeds|]. split; [apply toy_feeds|].
  destruct (X7_scheduler_stepped_per_batch toy VisionTransformer
              (train_loader_of default_args) (test_loader_of default_args)
              toy_loop_state 1 eq_refl (toy_feeds _) (toy_feeds _))
    as (_ & Ht & Hs & _).
  split; [rewrite Ht; reflexivity|rewrite Hs; vm_compute; reflexivity].
Defined.

(** The default run: the metrics logged for epoch 0 are those of the
    weights 3, after the two steps of the first training pass. *)
Lemma X8_witness :
  st_model toy_loop_state = Some 1 /\
  feeds toy (train_loader_of default_args) /\
  feeds toy (test_loader_of default_args) /\
  global_rank (st_args toy_loop_state) = 0 /\
  List.filter wandb_log_call
    (trace (train_and_eval toy VisionTransformer (train_loader_of default_args)
              (test_loader_of default_args) toy_loop_state))
  = tracker_logs 0
      (eval_metrics toy 3 (batches toy (train_loader_of default_args) 1)
         (batches toy (test_loader_of default_args) 2)) ++
    tracker_logs 1
      (eval_metrics toy 5 (batches toy (train_loader_of default_args) 4)
         (batches toy (test_loader_of default_args) 5)).
Proof.
  split; [reflexivity|]. split; [apply toy_feeds|]. split; [apply toy_feeds|].
  split; [reflexivity|].
  rewrite (X8_logged_metrics_are_of_the_trained_weights toy VisionTransformer
             (train_loader_of default_args) (test_loader_of default_args)
             toy_loop_state 1 eq_refl (toy_feeds _) (toy_feeds _) eq_refl).
  vm_compute; reflexivity.
Defined.

(** [--model resnet56]: the run raises once the data is loaded. *)
Lemma X10_witness :
  model resnet_args <> "transformer" /\
  result (main toy (start toy resnet_args ∅)) = Raise AttributeError /\
  List.filter construction_event (trace (main toy (start toy resnet_args ∅)))
  = [NewDataset (trainset_of resnet_args); NewDataset (testset_of resnet_args)].
Proof.
  split; [discriminate|].
  destruct (X10_unknown_model_raises_after_the_data_is_loaded toy resnet_args ∅)
    as (Hr & _ & Hc & _); [discriminate|discriminate|].
  split; [exact Hr|exact Hc].
Defined.

(** [--epochs 0]: the run returns with the pretrained weights. *)
Lemma X11_witness :
  epochs no_epoch_args <= 0 /\
  result (main toy (start toy no_epoch_args ∅)) = Ok tt /\
  st_model (final (main toy (start toy no_epoch_args ∅))) = Some 1.
Proof.
  split; [discriminate|].
  destruct (X11_no_epochs_no_training toy no_epoch_args ∅)
    as (Hr & _ & Hw & _); [discriminate|reflexivity|discriminate|].
  split; [exact Hr|rewrite Hw; reflexivity].
Defined.

(** [--global_rank 1], not distributed: the tracker is initialised. *)
Lemma X12_witness :
  is_distributed rank1_args <> 1 /\
  List.filter wandb_init_call (trace (main toy (start toy rank1_args ∅)))
  = [WandbInit "fed_transformer" 1 (3 # 100) rank1_args].
Proof.
  split; [discriminate|].
  apply (proj1 (X12_tracker_initialised_by_local_rank_zero toy rank1_args ∅)).
  discriminate.
Defined.

(** The default run: its first [wandb.log] call, the 54th call of the
    run, comes after [wandb.init]. *)
Lemma X13_witness :
  wandb_log_call (nth 53 (trace (main toy (start toy default_args ∅))) ParseArgs)
  = true /\
  exists config,
    In (WandbInit "fed_transformer" 2 (3 # 100) config)
       (firstn 53 (trace (main toy (start toy default_args ∅)))) /\
    global_rank config = 0.
Proof.
  assert (Hsplit : trace (main toy (start toy default_args ∅)) =
            firstn 53 (trace (main toy (start toy default_args ∅))) ++
            nth 53 (trace (main toy (start toy default_args ∅))) ParseArgs ::
            skipn 54 (trace (main toy (start toy default_args ∅))))
    by (vm_compute; reflexivity).
  assert (Hlog : wandb_log_call
                   (nth 53 (trace (main toy (start toy default_args ∅))) ParseArgs)
                 = true)
    by (vm_compute; reflexivity).
  split; [exact Hlog|].
  exact (proj2 (X13_tracker_logs_only_after_init toy default_args ∅ _ _ _
                  Hsplit Hlog)).
Defined.

(** The default run ends with the weights 5 after four optimizer steps. *)
Lemma X14_witness :
  model default_args = "transformer" /\
  feeds toy (train_loader_of default_args) /\
  feeds toy (test_loader_of default_args) /\
  result (main toy (start toy default_args ∅)) = Ok tt /\
  st_model (final (main toy (start toy default_args ∅))) = Some 5 /\
  List.filter weight_event (trace (main toy (start toy default_args ∅)))
  = weight_calls default_args 10 4.
Proof.
  split; [reflexivity|]. split; [apply toy_feeds|]. split; [apply toy_feeds|].
  destruct (X14_complete_run_trains_the_pretrained_weights toy default_args ∅
              eq_refl) as (Hr & Hw & Hc);
    [discriminate|apply toy_feeds|apply toy_feeds|].
  split; [exact Hr|].
  split; [rewrite Hw|rewrite Hc]; vm_compute; reflexivity.
Defined.
